(** * Ticket lifecycle, authorization guard and notification fan-out

    A shallow embedding of the Express application's ticket routes
    (routes/ticket.js, routes/planner.js, routes/technician.js), its
    middlewares (middleware/authenticateJWT.js, middleware/requireRole.js,
    the authenticators local to routes/technician.js and app.js), the
    [db.query] wrapper of db.js and the [sendNotificationToUser] helper,
    followed by the properties of the specification that concern them. *)

From Stdlib Require Import ZArith String Ascii List Bool Lia.
From stdpp Require Import base option list gmap strings pretty.

Local Open Scope Z_scope.
Local Open Scope string_scope.

(** ** JavaScript values

    Request bodies, token payloads and driver results are dynamically typed.
    Numbers are restricted to integers (ids, row counts). *)

Module JS.

#[local] Set Warnings "-register-all".

Inductive jsval : Type :=
| JUndefined
| JNull
| JBool (b : bool)
| JNum (n : Z)
| JStr (s : string)
| JArr (items : list jsval)
| JObj (fields : list (string * jsval)).

(** ToBoolean: what [!v] and [a || b] test. *)
Definition truthy (v : jsval) : bool :=
  match v with
  | JUndefined | JNull => false
  | JBool b => b
  | JNum n => negb (Z.eqb n 0)
  | JStr s => negb (String.eqb s "")
  | JArr _ | JObj _ => true
  end.

Definition js_or (a b : jsval) : jsval := if truthy a then a else b.

(** [v === 'literal'] and [v === n]. *)
Definition is_str (v : jsval) (lit : string) : bool :=
  match v with JStr s => String.eqb s lit | _ => false end.

Definition is_num (v : jsval) (k : Z) : bool :=
  match v with JNum n => Z.eqb n k | _ => false end.

(** [typeof v === 'number'] and [Array.isArray(v)]. *)
Definition typeof_number (v : jsval) : bool :=
  match v with JNum _ => true | _ => false end.

Definition is_array (v : jsval) : bool :=
  match v with JArr _ => true | _ => false end.

Fixpoint assoc (k : string) (fields : list (string * jsval)) : jsval :=
  match fields with
  | [] => JUndefined
  | (k', v) :: rest => if String.eqb k k' then v else assoc k rest
  end.

(** [v.k] on a value that is neither [undefined] nor [null]: own fields of
    an object, [length] of an array or string, [undefined] otherwise. *)
Definition js_get (v : jsval) (k : string) : jsval :=
  match v with
  | JObj fields => assoc k fields
  | JArr items => if String.eqb k "length" then JNum (Z.of_nat (length items)) else JUndefined
  | JStr s => if String.eqb k "length" then JNum (Z.of_nat (String.length s)) else JUndefined
  | _ => JUndefined
  end.

(** [v?.k]: as [v.k], and [undefined] on [undefined] and [null]. *)
Definition js_get_opt (v : jsval) (k : string) : jsval :=
  match v with
  | JUndefined | JNull => JUndefined
  | _ => js_get v k
  end.

(** [v[i]] for an index [i], on a value that is neither [undefined] nor [null]. *)
Definition js_index (v : jsval) (i : nat) : jsval :=
  match v with
  | JArr items => nth i items JUndefined
  | JObj fields => assoc (pretty (Z.of_nat i)) fields
  | JStr s => match String.get i s with
              | Some c => JStr (String c EmptyString)
              | None => JUndefined
              end
  | _ => JUndefined
  end.

Definition js_index_opt (v : jsval) (i : nat) : jsval :=
  match v with
  | JUndefined | JNull => JUndefined
  | _ => js_index v i
  end.

Fixpoint join (sep : string) (parts : list string) : string :=
  match parts with
  | [] => ""
  | [p] => p
  | p :: rest => p +:+ sep +:+ join sep rest
  end.

(** ToString, as used by template literals, property keys and [String(v)]. *)
Fixpoint to_string (v : jsval) : string :=
  match v with
  | JUndefined => "undefined"
  | JNull => "null"
  | JBool true => "true"
  | JBool false => "false"
  | JNum n => pretty n
  | JStr s => s
  | JArr items =>
      join "," (map (fun x => match x with
                              | JUndefined | JNull => ""
                              | _ => to_string x
                              end) items)
  | JObj _ => "[object Object]"
  end.

(** [s.split(sep)] for a one-character separator. *)
Fixpoint split (sep : ascii) (s : string) : list string :=
  match s with
  | EmptyString => [""]
  | String c rest =>
      if Ascii.eqb c sep then "" :: split sep rest
      else match split sep rest with
           | [] => [String c ""]
           | seg :: segs => String c seg :: segs
           end
  end.

(** [parts[i]] on an array of strings. *)
Definition str_index (parts : list string) (i : nat) : jsval :=
  match nth_error parts i with
  | Some s => JStr s
  | None => JUndefined
  end.

Definition of_opt_string (o : option string) : jsval :=
  match o with Some s => JStr s | None => JUndefined end.

(** [roles.includes(v)] for an array of string literals. *)
Definition includes (roles : list string) (v : jsval) : bool :=
  existsb (is_str v) roles.

Definition lower_ascii (c : ascii) : ascii :=
  let n := nat_of_ascii c in
  if (Nat.leb 65 n && Nat.leb n 90)%bool then ascii_of_nat (n + 32) else c.

(** [s.toLowerCase()] on the ASCII letters of header values. *)
Fixpoint to_lower (s : string) : string :=
  match s with
  | EmptyString => EmptyString
  | String c rest => String (lower_ascii c) (to_lower rest)
  end.

(** [s.includes(needle)]. *)
Fixpoint str_includes (needle s : string) : bool :=
  if String.prefix needle s then true
  else match s with
       | EmptyString => false
       | String _ rest => str_includes needle rest
       end.

End JS.

Import JS.

(** ** The persistence collaborator

    db.js wraps the mssql driver: [query(sql, params)] binds the positional
    parameters with a simple type inference and resolves to
    [[result.recordset, result]]. *)

Module Sql.

Inductive sqlval : Type :=
| SqlNull
| SqlInt (n : Z)
| SqlBit (b : bool)
| SqlDate (t : Z)
| SqlText (s : string).

(** The input binding loop of [query] in db.js. *)
Definition bind_input (v : jsval) : sqlval :=
  match v with
  | JUndefined | JNull => SqlNull
  | JNum n => SqlInt n
  | JBool b => SqlBit b
  | _ => SqlText (to_string v)
  end.

(** A column value as the driver hands it back in a recordset row. *)
Definition to_js (c : sqlval) : jsval :=
  match c with
  | SqlNull => JNull
  | SqlInt n => JNum n
  | SqlBit b => JBool b
  | SqlDate t => JNum t
  | SqlText s => JStr s
  end.

(** A row of the [tickets] table. Columns that the INSERT of
    /ticket/submit does not list start as NULL. *)
Record ticket : Type := mkTicket {
  id : Z;
  global_id : sqlval;
  raised_by : sqlval;
  category : sqlval;
  description : sqlval;
  building_no : sqlval;
  area_code : sqlval;
  sub_area : sqlval;
  keyword : sqlval;
  location : sqlval;
  status : sqlval;
  assigned_to : sqlval;
  planner_id : sqlval;
  completion_note : sqlval;
  created_at : sqlval;
  updated_at : sqlval;
  started_at : sqlval;
  completed_at : sqlval
}.

(** The SQL texts the routes send. [scoped] records whether the route
    appended [AND location = ?] to the WHERE clause. *)
Inductive statement : Type :=
| InsertTicket
| UpdateAssign (scoped : bool)
| UpdateStart (scoped : bool)
| UpdateCompleteNote (scoped : bool)
| UpdateCompleted
| SelectOwner.

End Sql.

Import Sql.

(** ** External collaborators

    What the routes call and the repository does not define: the token
    verifier, the push service, and the SQL engine's error and comparison
    behaviour. *)

Class Collaborators : Type := {
  (** [jwt.verify(token, JWT_SECRET)]: the decoded payload, [None] on error. *)
  jwt_verify : string -> option jsval;
  (** Whether the [n]-th call of [webPush.sendNotification] rejects. *)
  push_rejects : nat -> jsval -> bool;
  (** Whether the [n]-th [request.query] rejects (store unreachable, SQL error). *)
  query_rejects : nat -> bool;
  (** The engine's [=] in a WHERE clause, true when the comparison holds. *)
  sql_eq : sqlval -> sqlval -> bool
}.

(** ** Process state *)

Record state : Type := mkState {
  tickets : list ticket;
  next_id : Z;
  clock : Z;
  queries : nat;
  subscriptionsPerUser : gmap string (list jsval);
  pushes : list (jsval * jsval);
  console : list string
}.

Definition set_tickets (rows : list ticket) (nid : Z) (s : state) : state :=
  {| tickets := rows; next_id := nid; clock := clock s; queries := queries s;
     subscriptionsPerUser := subscriptionsPerUser s; pushes := pushes s;
     console := console s |}.

Definition count_query (s : state) : state :=
  {| tickets := tickets s; next_id := next_id s; clock := clock s;
     queries := S (queries s);
     subscriptionsPerUser := subscriptionsPerUser s; pushes := pushes s;
     console := console s |}.

Definition add_push (sub payload : jsval) (s : state) : state :=
  {| tickets := tickets s; next_id := next_id s; clock := clock s;
     queries := queries s;
     subscriptionsPerUser := subscriptionsPerUser s;
     pushes := pushes s ++ [(sub, payload)];
     console := console s |}.

Definition add_console (line : string) (s : state) : state :=
  {| tickets := tickets s; next_id := next_id s; clock := clock s;
     queries := queries s;
     subscriptionsPerUser := subscriptionsPerUser s; pushes := pushes s;
     console := console s ++ [line] |}.

(** ** Computations: state and exceptions *)

Inductive outcome (A : Type) : Type :=
| Val (a : A)
| Exn (err : string).

Arguments Val {A} a.
Arguments Exn {A} err.

Definition M (A : Type) : Type := state -> outcome A * state.

Definition ret {A} (a : A) : M A := fun s => (Val a, s).

Definition bind {A B} (m : M A) (k : A -> M B) : M B :=
  fun s => match m s with
           | (Val a, s') => k a s'
           | (Exn e, s') => (Exn e, s')
           end.

Definition throw {A} (e : string) : M A := fun s => (Exn e, s).

(** [try { body } catch (err) { handler }]. *)
Definition try_catch {A} (body : M A) (handler : string -> M A) : M A :=
  fun s => match body s with
           | (Val a, s') => (Val a, s')
           | (Exn e, s') => handler e s'
           end.

Definition console_log (line : string) : M unit :=
  fun s => (Val tt, add_console line s).

Declare Scope js_scope.
Delimit Scope js_scope with js.

Notation "'let*' x ':=' c1 'in' c2" := (bind c1 (fun x => c2))
  (at level 10, x name, c1 at level 100, c2 at level 200) : js_scope.
Notation "'await' c1 'then' c2" := (bind c1 (fun _ => c2))
  (at level 10, c1 at level 100, c2 at level 200) : js_scope.

Local Open Scope js_scope.

(** [for (const x of xs) { body }]. *)
Fixpoint for_of {A} (xs : list A) (body : A -> M unit) : M unit :=
  match xs with
  | [] => ret tt
  | x :: rest => await body x then for_of rest body
  end.

(** ** Requests and responses *)

Record request : Type := mkRequest {
  authorization : option string;      (* req.headers.authorization *)
  cookie_token : option string;       (* req.cookies?.token *)
  accept : option string;             (* req.get('Accept') *)
  x_requested_with : option string;   (* req.get('X-Requested-With') *)
  content_type : option string;       (* req.get('Content-Type') *)
  body : jsval;                       (* req.body, an object *)
  user : jsval;                       (* req.user *)
  session : jsval                     (* req.session *)
}.

Definition set_user (u : jsval) (req : request) : request :=
  {| authorization := authorization req; cookie_token := cookie_token req;
     accept := accept req; x_requested_with := x_requested_with req;
     content_type := content_type req; body := body req;
     user := u; session := session req |}.

Inductive response : Type :=
| Send (code : nat) (text : string)       (* res.status(code).send(text) *)
| SendJson (code : nat) (payload : jsval) (* res.status(code).json(payload) *)
| Redirect (url : string).                (* res.redirect(url) *)

(** What a middleware does with a request: call [next()] or answer. *)
Inductive step : Type :=
| Next (req : request)
| Done (res : response).

Definition hex_digit (n : nat) : ascii :=
  ascii_of_nat (if Nat.ltb n 10 then 48 + n else 55 + n).

Definition unreserved (c : ascii) : bool :=
  let n := nat_of_ascii c in
  ((Nat.leb 65 n && Nat.leb n 90) || (Nat.leb 97 n && Nat.leb n 122)
   || (Nat.leb 48 n && Nat.leb n 57)
   || existsb (Nat.eqb n) [45; 95; 46; 33; 126; 42; 39; 40; 41]%nat)%bool.

(** [encodeURIComponent] on a string of bytes. *)
Fixpoint encodeURIComponent (s : string) : string :=
  match s with
  | EmptyString => EmptyString
  | String c rest =>
      if unreserved c then String c (encodeURIComponent rest)
      else
        let n := nat_of_ascii c in
        String "%" (String (hex_digit (Nat.div n 16))
                      (String (hex_digit (Nat.modulo n 16)) (encodeURIComponent rest)))
  end.

Section Application.

Context `{Collaborators}.

(** *** db.js *)

(** The [i]-th positional parameter as bound by [mapSqlAndInputs] and the
    input loop: a missing one is [undefined], bound as NULL. *)
Definition param (params : list jsval) (i : nat) : sqlval :=
  bind_input (nth i params JUndefined).

Definition matches_id (p : sqlval) (t : ticket) : bool :=
  sql_eq (SqlInt (id t)) p.

Definition matches_location (p : sqlval) (t : ticket) : bool :=
  sql_eq (location t) p.

(** [WHERE id = ?] followed, when [scoped], by [AND location = ?]. *)
Definition where_clause (scoped : bool) (pid ploc : sqlval) (t : ticket) : bool :=
  matches_id pid t && (if scoped then matches_location ploc t else true).

Definition set_assigned (executer planner now : sqlval) (t : ticket) : ticket :=
  {| id := id t; global_id := global_id t; raised_by := raised_by t;
     category := category t; description := description t;
     building_no := building_no t; area_code := area_code t;
     sub_area := sub_area t; keyword := keyword t; location := location t;
     status := SqlText "Assigned";
     assigned_to := executer; planner_id := planner;
     completion_note := completion_note t;
     created_at := created_at t; updated_at := now;
     started_at := started_at t; completed_at := completed_at t |}.

Definition set_started (new_status now : sqlval) (t : ticket) : ticket :=
  {| id := id t; global_id := global_id t; raised_by := raised_by t;
     category := category t; description := description t;
     building_no := building_no t; area_code := area_code t;
     sub_area := sub_area t; keyword := keyword t; location := location t;
     status := new_status;
     assigned_to := assigned_to t; planner_id := planner_id t;
     completion_note := completion_note t;
     created_at := created_at t; updated_at := now;
     started_at := now; completed_at := completed_at t |}.

Definition set_completed_note (note now : sqlval) (t : ticket) : ticket :=
  {| id := id t; global_id := global_id t; raised_by := raised_by t;
     category := category t; description := description t;
     building_no := building_no t; area_code := area_code t;
     sub_area := sub_area t; keyword := keyword t; location := location t;
     status := SqlText "Completed";
     assigned_to := assigned_to t; planner_id := planner_id t;
     completion_note := note;
     created_at := created_at t; updated_at := now;
     started_at := started_at t; completed_at := now |}.

Definition set_completed (now : sqlval) (t : ticket) : ticket :=
  {| id := id t; global_id := global_id t; raised_by := raised_by t;
     category := category t; description := description t;
     building_no := building_no t; area_code := area_code t;
     sub_area := sub_area t; keyword := keyword t; location := location t;
     status := SqlText "Completed";
     assigned_to := assigned_to t; planner_id := planner_id t;
     completion_note := completion_note t;
     created_at := created_at t; updated_at := now;
     started_at := started_at t; completed_at := completed_at t |}.

Definition new_ticket (nid : Z) (p : nat -> sqlval) (now : sqlval) : ticket :=
  {| id := nid; global_id := p 0%nat; raised_by := p 1%nat;
     category := p 2%nat; description := p 3%nat;
     building_no := p 4%nat; area_code := p 5%nat;
     sub_area := p 6%nat; keyword := p 7%nat; location := p 8%nat;
     status := SqlText "Open";
     assigned_to := SqlNull; planner_id := SqlNull;
     completion_note := SqlNull;
     created_at := now; updated_at := now;
     started_at := SqlNull; completed_at := SqlNull |}.

(** [UPDATE tickets SET ... WHERE cond]: every row satisfying [cond] is
    rewritten, the others are kept. *)
Definition update_where (cond : ticket -> bool) (f : ticket -> ticket)
    (rows : list ticket) : list ticket :=
  map (fun t => if cond t then f t else t) rows.

Definition count_where (cond : ticket -> bool) (rows : list ticket) : Z :=
  Z.of_nat (length (filter (fun t => cond t = true) rows)).

(** The driver's result object: [recordset] is the first record set, or
    [undefined] for a statement that returns none. *)
Definition driver_result (recordset : jsval) (affected : Z) : jsval :=
  JObj [("recordsets", match recordset with
                        | JUndefined => JArr []
                        | _ => JArr [recordset]
                        end);
        ("recordset", recordset);
        ("output", JObj []);
        ("rowsAffected", JArr [JNum affected])].

(** The effect of one statement on the table: the new rows, the next
    identity value, the record set and the affected row count. *)
Definition execute (q : statement) (params : list jsval) (now : Z)
    (rows : list ticket) (nid : Z) : list ticket * Z * jsval * Z :=
  let p := param params in
  match q with
  | InsertTicket =>
      ((rows ++ [new_ticket nid p (SqlDate now)])%list, nid + 1, JUndefined, 1)
  | UpdateAssign scoped =>
      let cond := where_clause scoped (p 2%nat) (p 3%nat) in
      (update_where cond (set_assigned (p 0%nat) (p 1%nat) (SqlDate now)) rows,
       nid, JUndefined, count_where cond rows)
  | UpdateStart scoped =>
      let cond := where_clause scoped (p 1%nat) (p 2%nat) in
      (update_where cond (set_started (p 0%nat) (SqlDate now)) rows,
       nid, JUndefined, count_where cond rows)
  | UpdateCompleteNote scoped =>
      let cond := where_clause scoped (p 1%nat) (p 2%nat) in
      (update_where cond (set_completed_note (p 0%nat) (SqlDate now)) rows,
       nid, JUndefined, count_where cond rows)
  | UpdateCompleted =>
      let cond := matches_id (p 0%nat) in
      (update_where cond (set_completed (SqlDate now)) rows,
       nid, JUndefined, count_where cond rows)
  | SelectOwner =>
      let found := filter (fun t => matches_id (p 0%nat) t = true) rows in
      (rows, nid,
       JArr (map (fun t => JObj [("global_id", to_js (global_id t))]) found),
       Z.of_nat (length found))
  end.

(** [query(sqlText, params)]: rejects when the driver does, otherwise
    resolves to [[result.recordset, result]]. *)
Definition db_query (q : statement) (params : list jsval) : M jsval :=
  fun s =>
    let s1 := count_query s in
    if query_rejects (queries s) then (Exn "RequestError", s1)
    else
      let '(rows, nid, recordset, affected) :=
        execute q params (clock s) (tickets s) (next_id s) in
      (Val (JArr [recordset; driver_result recordset affected]),
       set_tickets rows nid s1).


(** *** sendNotificationToUser (routes/ticket.js, planner.js, technician.js, admin.js) *)

(** Modelled from the spec: subscriptions.js, which exports the registry
    object the routes import as [subscriptionsPerUser], is not among the
    sources. Following section 4.3 the registry holds, for each owner subject
    id, the sequence of that owner's subscription entries, and nothing for an
    owner that never registered. [registry_entry] is the property read
    [subscriptionsPerUser[owner]]. *)
Definition registry_entry (registry : gmap string (list jsval)) (owner : jsval)
    : option (list jsval) :=
  registry !! to_string owner.

(** [webPush.sendNotification(sub, payload)]: one delivery attempt, which
    the push service may reject. *)
Definition webPush_sendNotification (sub payload : jsval) : M unit :=
  fun s =>
    let s1 := add_push sub payload s in
    if push_rejects (length (pushes s)) sub then (Exn "WebPushError", s1)
    else (Val tt, s1).

(** The object handed to [JSON.stringify]. *)
Definition notification (message : string) : jsval :=
  JObj [("title", JStr "Ticket Update"); ("body", JStr message)].

Definition sendNotificationToUser (message : string) (targetGlobalId : jsval) : M unit :=
  fun s =>
    let userSubs := default [] (registry_entry (subscriptionsPerUser s) targetGlobalId) in
    for_of userSubs (fun sub =>
      try_catch
        (webPush_sendNotification sub (notification message))
        (fun err =>
           console_log ("Failed to send notification to "
                        +:+ to_string targetGlobalId +:+ ": " +:+ err))) s.

(** A call that is not awaited: the promise is dropped, so a rejection
    never reaches the caller. *)
Definition detached (m : M unit) : M unit :=
  fun s => (Val tt, snd (m s)).

(** *** middleware/authenticateJWT.js *)

Definition bearer_token (authHeader : string) : jsval :=
  str_index (split " " authHeader) 1.

Definition header_first_token (req : request) : jsval :=
  let token :=
    match authorization req with
    | Some authHeader =>
        if truthy (JStr authHeader) && String.prefix "Bearer " authHeader
        then bearer_token authHeader else JUndefined
    | None => JUndefined
    end in
  if negb (truthy token) && truthy (of_opt_string (cookie_token req))
  then of_opt_string (cookie_token req) else token.

Definition verify (token : jsval) : option jsval :=
  match token with
  | JStr t => jwt_verify t
  | _ => None
  end.

Definition authenticateJWT (req : request) : M step :=
  let token := header_first_token req in
  if negb (truthy token) then
    ret (Done (SendJson 401 (JObj [("message", JStr "Unauthorized: No token provided")])))
  else
    match verify token with
    | None => ret (Done (SendJson 403 (JObj [("message", JStr "Invalid or expired token")])))
    | Some u => ret (Next (set_user u req))
    end.

(** *** authenticateJWT of routes/technician.js (cookie first) *)

Definition cookie_first_token (req : request) : jsval :=
  let token := of_opt_string (cookie_token req) in
  if negb (truthy token) && truthy (of_opt_string (authorization req)) then
    match authorization req with
    | Some authHeader =>
        if String.prefix "Bearer " authHeader then bearer_token authHeader else token
    | None => token
    end
  else token.

Definition technician_authenticateJWT (req : request) : M step :=
  let token := cookie_first_token req in
  if negb (truthy token) then
    ret (Done (SendJson 401 (JObj [("error", JStr "Unauthorized - No token provided")])))
  else
    match verify token with
    | None =>
        await console_log "JWT verify error (technician routes)" then
        ret (Done (SendJson 401 (JObj [("error", JStr "Unauthorized - Invalid token")])))
    | Some u => ret (Next (set_user u req))
    end.

(** *** authenticateJWT of app.js (cookie first, content negotiation) *)

Definition header_lower (h : option string) : string :=
  to_lower (to_string (js_or (of_opt_string h) (JStr ""))).

Definition expectsJson (req : request) : bool :=
  let accept := header_lower (accept req) in
  let xRequestedWith := header_lower (x_requested_with req) in
  let contentType := header_lower (content_type req) in
  if String.eqb xRequestedWith "xmlhttprequest" then true       (* req.xhr *)
  else if String.eqb xRequestedWith "xmlhttprequest" then true
  else if str_includes "application/json" accept then true
  else if str_includes "application/json" contentType then true
  else if truthy (of_opt_string (authorization req)) then true
  else false.

Definition app_authenticateJWT (req : request) : M step :=
  let token := cookie_first_token req in
  if negb (truthy token) then
    if expectsJson req then
      ret (Done (SendJson 401 (JObj [("error", JStr "Unauthorized - No token provided")])))
    else ret (Done (Redirect "/login"))
  else
    match verify token with
    | None =>
        await console_log "JWT verify error" then
        if expectsJson req then
          ret (Done (SendJson 401 (JObj [("error", JStr "Unauthorized - Invalid token")])))
        else ret (Done (Redirect "/login"))
    | Some u => ret (Next (set_user u req))
    end.

(** *** middleware/requireRole.js *)

Definition userRole (u : jsval) : jsval :=
  js_or (js_get u "role") (js_get u "department").

Definition requireRole (allowedRoles : list string) (req : request) : M step :=
  if negb (truthy (user req)) then
    ret (Done (SendJson 401 (JObj [("message", JStr "Unauthorized: No user found in request")])))
  else if negb (includes allowedRoles (userRole (user req))) then
    ret (Done (SendJson 403 (JObj [("message", JStr "❌ Access Denied: Insufficient role")])))
  else ret (Next req).

(** A route: the middlewares in order, then the handler. *)
Fixpoint route (middlewares : list (request -> M step))
    (handler : request -> M response) (req : request) : M response :=
  match middlewares with
  | [] => handler req
  | mw :: rest =>
      let* st := mw req in
      match st with
      | Next req' => route rest handler req'
      | Done res => ret res
      end
  end.


(** *** POST /ticket/submit (routes/ticket.js) *)

Definition normalize_category (category : jsval) : jsval :=
  if is_str category "Facility" || is_str category "Facility Service"
  then JStr "Facility Service"
  else if negb (truthy category) then JStr "Other"
  else category.

Definition ticket_submit (req : request) : M response :=
  try_catch
    (let user := user req in
     if negb (truthy (js_get_opt user "globalId")) then
       ret (Send 401 "Unauthorized: Please log in again.")
     else
       let category := normalize_category (js_get (body req) "category") in
       let description := js_get (body req) "description" in
       let building_no := js_get (body req) "building_no" in
       let area_code := js_get (body req) "area_code" in
       let sub_area := js_get (body req) "sub_area" in
       let keyword := js_get (body req) "keyword" in
       if is_str category "Facility Service"
          && (negb (truthy building_no) || negb (truthy area_code)
              || negb (truthy sub_area) || negb (truthy keyword))
       then
         ret (Redirect ("/dashboard/user?error="
                        +:+ encodeURIComponent "Missing required Facility Service fields."))
       else
         await db_query InsertTicket
                 [js_get user "globalId";
                  js_or (js_get user "name") JNull;
                  category;
                  js_or description JNull;
                  js_or building_no JNull;
                  js_or area_code JNull;
                  js_or sub_area JNull;
                  js_or keyword JNull;
                  js_or (js_get user "location") JNull] then
         await detached (sendNotificationToUser
                           "✅ Your ticket has been submitted successfully."
                           (js_get user "globalId")) then
         ret (Redirect ("/dashboard/user?message="
                        +:+ encodeURIComponent "Ticket submitted successfully.")))
    (fun err =>
       await console_log ("Error submitting ticket: " +:+ err) then
       ret (Redirect ("/dashboard/user?error="
                      +:+ encodeURIComponent "Failed to submit ticket."))).

(** [result.rowsAffected && result.rowsAffected[0] === 0]. *)
Definition no_row_affected (result : jsval) : bool :=
  let rowsAffected := js_get result "rowsAffected" in
  if truthy rowsAffected then is_num (js_index rowsAffected 0) 0 else false.

(** *** POST /ticket/assign (routes/ticket.js) *)

Definition ticket_assign (req : request) : M response :=
  let ticketId := js_get (body req) "ticketId" in
  let executerId := js_get (body req) "executerId" in
  let assignerGlobalId := js_get_opt (user req) "globalId" in
  if negb (truthy ticketId) || negb (truthy executerId) then
    ret (Send 400 "Missing ticketId or executerId")
  else
    try_catch
      (let* result := db_query (UpdateAssign false)
                        [executerId; assignerGlobalId; ticketId] in
       if no_row_affected result then ret (Send 404 "❌ Ticket not found.")
       else
         await detached (sendNotificationToUser
                           ("📌 Ticket ID " +:+ to_string ticketId
                            +:+ " has been assigned to you.") executerId) then
         ret (Redirect "/dashboard/planner"))
      (fun err =>
         await console_log ("Assignment error: " +:+ err) then
         ret (Send 500 "❌ Failed to assign technician.")).

(** *** POST /planner/assign (routes/planner.js) *)

(** [userRole === 'admin' && userLocation === 'Pune']. *)
Definition pune_admin (userRole userLocation : jsval) : bool :=
  is_str userRole "admin" && is_str userLocation "Pune".

Definition planner_assign (req : request) : M response :=
  let ticketId := js_get (body req) "ticketId" in
  let executerId := js_get (body req) "executerId" in
  let user := user req in
  let assignerGlobalId := js_get_opt user "globalId" in
  let userRole := js_get_opt user "role" in
  let userLocation := js_get_opt user "location" in
  if negb (truthy ticketId) || negb (truthy executerId) then
    ret (Send 400 "Missing ticketId or executerId")
  else
    try_catch
      (let scoped := negb (pune_admin userRole userLocation) in
       let params := [executerId; assignerGlobalId; ticketId] in
       let params := if scoped then (params ++ [userLocation])%list else params in
       let* result := db_query (UpdateAssign scoped) params in
       if no_row_affected result then
         ret (Send 404 "❌ Ticket not found or no permission.")
       else
         await detached (sendNotificationToUser
                           ("📌 Ticket ID " +:+ to_string ticketId
                            +:+ " has been assigned to you.") executerId) then
         ret (Redirect "/dashboard/planner"))
      (fun err =>
         await console_log ("Assignment error: " +:+ err) then
         ret (Send 500 "❌ Failed to assign technician.")).

(** [v.k] where [v] may be [undefined] or [null]: a TypeError then. *)
Definition js_get_strict (v : jsval) (k : string) : M jsval :=
  match v with
  | JUndefined | JNull => throw "TypeError"
  | _ => ret (js_get v k)
  end.

(** *** POST /ticket/complete (routes/ticket.js) *)

Definition ticket_complete (req : request) : M response :=
  let ticketId := js_get (body req) "ticketId" in
  if negb (truthy ticketId) then ret (Send 400 "Missing ticketId")
  else
    try_catch
      (let* result := db_query SelectOwner [ticketId] in
       let ticketRows := js_or (js_get result "recordset") result in
       if negb (truthy ticketRows) || is_num (js_get ticketRows "length") 0 then
         ret (Send 404 "Ticket not found")
       else
         let* ticketOwner := js_get_strict (js_index ticketRows 0) "global_id" in
         await db_query UpdateCompleted [ticketId] then
         await detached (sendNotificationToUser
                           ("🎉 Your ticket ID " +:+ to_string ticketId
                            +:+ " has been marked as completed.") ticketOwner) then
         ret (Redirect "/dashboard/planner"))
      (fun err =>
         await console_log ("Completion error: " +:+ err) then
         ret (Send 500 "❌ Failed to complete ticket.")).

(** *** routes/technician.js *)

Definition getAffectedCount (result : jsval) : jsval :=
  if negb (truthy result) then JUndefined
  else if typeof_number (js_get result "affectedRows") then js_get result "affectedRows"
  else if is_array (js_get result "rowsAffected")
          && typeof_number (js_index (js_get result "rowsAffected") 0)
       then js_index (js_get result "rowsAffected") 0
  else if typeof_number (js_get result "rowsAffected") then js_get result "rowsAffected"
  else JUndefined.

(** [req.user || req.session?.user || {}]. *)
Definition current_user (req : request) : jsval :=
  js_or (js_or (user req) (js_get_opt (session req) "user")) (JObj []).

(** [typeof affected === 'number' && affected === 0]. *)
Definition is_zero_count (affected : jsval) : bool :=
  typeof_number affected && is_num affected 0.

(** [rows?.[0]?.global_id]. *)
Definition creator_of (rows : jsval) : jsval :=
  js_get_opt (js_index_opt rows 0) "global_id".

Definition technician_start (req : request) : M response :=
  let ticketId := js_get (body req) "ticketId" in
  let role := js_get (current_user req) "role" in
  let location := js_get (current_user req) "location" in
  if negb (truthy ticketId) then ret (Send 400 "Missing ticketId")
  else
    try_catch
      (let scoped := negb (is_str role "admin") in
       let params := [JStr "In Progress"; ticketId] in
       let params := if scoped then (params ++ [location])%list else params in
       let* answer := db_query (UpdateStart scoped) params in
       let result := js_index answer 0 in
       let affected := getAffectedCount result in
       if is_zero_count affected then
         ret (Send 404 "❌ Ticket not found or no permission.")
       else
         let* answer2 := db_query SelectOwner [ticketId] in
         let rows := js_index answer2 0 in
         let ticketCreatorId := creator_of rows in
         await (if truthy ticketCreatorId then
                  detached (sendNotificationToUser
                              ("Your ticket #" +:+ to_string ticketId
                               +:+ " has been started by the technician.")
                              ticketCreatorId)
                else ret tt) then
         ret (Redirect "/dashboard/technician"))
      (fun err =>
         await console_log ("Error in /technician/start: " +:+ err) then
         ret (Send 500 "Error starting the ticket.")).

Definition technician_complete (req : request) : M response :=
  let ticketId := js_get (body req) "ticketId" in
  let completion_note := js_get (body req) "completion_note" in
  let role := js_get (current_user req) "role" in
  let location := js_get (current_user req) "location" in
  if negb (truthy ticketId) then ret (Send 400 "Missing ticketId")
  else
    try_catch
      (let scoped := negb (is_str role "admin") in
       let params := [js_or completion_note JNull; ticketId] in
       let params := if scoped then (params ++ [location])%list else params in
       let* answer := db_query (UpdateCompleteNote scoped) params in
       let result := js_index answer 0 in
       let affected := getAffectedCount result in
       if is_zero_count affected then
         ret (Send 404 "❌ Ticket not found or no permission.")
       else
         let* answer2 := db_query SelectOwner [ticketId] in
         let rows := js_index answer2 0 in
         let ticketCreatorId := creator_of rows in
         await (if truthy ticketCreatorId then
                  detached (sendNotificationToUser
                              ("Your ticket #" +:+ to_string ticketId
                               +:+ " has been completed by the technician.")
                              ticketCreatorId)
                else ret tt) then
         ret (Redirect "/dashboard/technician"))
      (fun err =>
         await console_log ("Error in /technician/complete: " +:+ err) then
         ret (Send 500 "Internal Server Error")).

(** *** The routes as mounted *)

Definition ticket_submit_route : request -> M response :=
  route [authenticateJWT;
         requireRole ["normal_user"; "technician"; "planner"; "admin"]]
        ticket_submit.

Definition ticket_assign_route : request -> M response :=
  route [authenticateJWT; requireRole ["planner"; "admin"]] ticket_assign.

Definition planner_assign_route : request -> M response :=
  route [authenticateJWT; requireRole ["planner"; "admin"]] planner_assign.

Definition ticket_complete_route : request -> M response :=
  route [authenticateJWT; requireRole ["technician"; "planner"; "admin"]]
        ticket_complete.

Definition technician_start_route : request -> M response :=
  route [technician_authenticateJWT;
         requireRole ["technician"; "planner"; "admin"]]
        technician_start.

Definition technician_complete_route : request -> M response :=
  route [technician_authenticateJWT;
         requireRole ["technician"; "planner"; "admin"]]
        technician_complete.

End Application.

(** ** Vocabulary of the properties *)

(** The table after a statement. *)
Definition rows_after `{Collaborators} (q : statement) (params : list jsval)
    (now : Z) (rows : list ticket) (nid : Z) : list ticket :=
  fst (fst (fst (execute q params now rows nid))).

(** A computation relates the table before it to the table after it by
    [Rt], whatever the state it starts from and however it ends. *)
Definition preserves {A} (Rt : list ticket -> list ticket -> Prop) (m : M A) : Prop :=
  forall s, Rt (tickets s) (tickets (snd (m s))).

(** [Rt] holds across every run of statement [q] with parameters
    satisfying [shape]. *)
Definition respects `{Collaborators} (Rt : list ticket -> list ticket -> Prop)
    (q : statement) (shape : list jsval -> Prop) : Prop :=
  forall params now rows nid,
    shape params -> Rt rows (rows_after q params now rows nid).

Definition any_params (params : list jsval) : Prop := True.

(** The parameter list of the UPDATE of /technician/start begins with the
    new status. *)
Definition start_params (params : list jsval) : Prop :=
  exists tail, params = JStr "In Progress" :: tail.

(** The position of a status on the line Open, Assigned, In Progress,
    Completed. *)
Definition status_rank (st : sqlval) : option nat :=
  match st with
  | SqlText s =>
      if String.eqb s "Open" then Some 0%nat
      else if String.eqb s "Assigned" then Some 1%nat
      else if String.eqb s "In Progress" then Some 2%nat
      else if String.eqb s "Completed" then Some 3%nat
      else None
  | _ => None
  end.

(** The identity and location columns of a row. *)
Definition placement (t : ticket) : Z * sqlval := (id t, location t).

Definition same_placement (before after : list ticket) : Prop :=
  map placement before = map placement after.

(** A completed row carries its completion time. *)
Definition completed_has_time (t : ticket) : Prop :=
  status t = SqlText "Completed" -> completed_at t <> SqlNull.

Definition keeps_completion_time (before after : list ticket) : Prop :=
  Forall completed_has_time before -> Forall completed_has_time after.

(** The lifecycle requests that set [completed_at] when they complete:
    every route but /ticket/complete. *)
Inductive operation : Type :=
| Submit
| Assign
| PlannerAssign
| Start
| Complete.

Definition perform `{Collaborators} (o : operation) : request -> M response :=
  match o with
  | Submit => ticket_submit_route
  | Assign => ticket_assign_route
  | PlannerAssign => planner_assign_route
  | Start => technician_start_route
  | Complete => technician_complete_route
  end.

(** States reached from an empty table by such requests; between requests
    the environment may change anything but the table (clock, registry). *)
Inductive reachable `{Collaborators} : state -> Prop :=
| reach_empty s : tickets s = [] -> reachable s
| reach_request s o req : reachable s -> reachable (snd (perform o req s))
| reach_env s s' : reachable s -> tickets s' = tickets s -> reachable s'.

(** The rows a start or complete request of routes/technician.js reaches:
    the id matches, and the caller is an admin or the location matches. *)
Definition technician_target `{Collaborators} (req : request) (t : ticket) : bool :=
  matches_id (bind_input (js_get (body req) "ticketId")) t
  && (is_str (js_get (current_user req) "role") "admin"
      || matches_location (bind_input (js_get (current_user req) "location")) t).

(** What /technician/start and /technician/complete write into a row. *)
Definition started (s : state) (t : ticket) : ticket :=
  set_started (SqlText "In Progress") (SqlDate (clock s)) t.

Definition completed (req : request) (s : state) (t : ticket) : ticket :=
  set_completed_note (bind_input (js_or (js_get (body req) "completion_note") JNull))
    (SqlDate (clock s)) t.

(** A field of a create request is missing: absent, empty, or otherwise falsy. *)
Definition missing (v : jsval) : bool := negb (truthy v).

(** A token without a space, as [split] leaves it whole. *)
Fixpoint no_space (t : string) : bool :=
  match t with
  | EmptyString => true
  | String c rest => negb (Ascii.eqb c " ") && no_space rest
  end.

(** The parameters /ticket/submit binds to its INSERT. *)
Definition submit_params (req : request) : list jsval :=
  [js_get (user req) "globalId";
   js_or (js_get (user req) "name") JNull;
   normalize_category (js_get (body req) "category");
   js_or (js_get (body req) "description") JNull;
   js_or (js_get (body req) "building_no") JNull;
   js_or (js_get (body req) "area_code") JNull;
   js_or (js_get (body req) "sub_area") JNull;
   js_or (js_get (body req) "keyword") JNull;
   js_or (js_get (user req) "location") JNull].

Definition facility_fields_missing (req : request) : bool :=
  is_str (normalize_category (js_get (body req) "category")) "Facility Service"
  && (missing (js_get (body req) "building_no")
      || missing (js_get (body req) "area_code")
      || missing (js_get (body req) "sub_area")
      || missing (js_get (body req) "keyword")).

Definition submitted_row `{Collaborators} (req : request) (s : state) : ticket :=
  new_ticket (next_id s) (param (submit_params req)) (SqlDate (clock s)).

(** ** A concrete deployment

    One ticket raised in Pune, users in several locations, a push service
    whose first delivery fails, and a store that never fails and compares
    values exactly. Used to run the routes on concrete requests. *)

Module Demo.

(** The payload [/login] signs (app.js): [role] duplicates [department]. *)
Definition payload (gid name department loc : string) : jsval :=
  JObj [("id", JNum 1); ("globalId", JStr gid); ("name", JStr name);
        ("phone", JNull); ("email", JNull);
        ("department", JStr department); ("role", JStr department);
        ("location", JStr loc)].

Definition user_pune : jsval := payload "U1" "Asha" "normal_user" "Pune".
Definition planner_pune : jsval := payload "P1" "Ravi" "planner" "Pune".
Definition planner_mumbai : jsval := payload "P2" "Meera" "planner" "Mumbai".
Definition tech_pune : jsval := payload "T1" "Kiran" "technician" "Pune".
Definition tech_mumbai : jsval := payload "T2" "Sunil" "technician" "Mumbai".
Definition admin_pune : jsval := payload "A1" "Neha" "admin" "Pune".
Definition admin_nagpur : jsval := payload "A2" "Vikram" "admin" "Nagpur".

(** A token issued before [role] was part of the payload. *)
Definition legacy_planner : jsval :=
  JObj [("globalId", JStr "P3"); ("department", JStr "planner");
        ("location", JStr "Pune")].

Definition verifier (token : string) : option jsval :=
  if String.eqb token "tok-user-pune" then Some user_pune
  else if String.eqb token "tok-planner-pune" then Some planner_pune
  else if String.eqb token "tok-planner-mumbai" then Some planner_mumbai
  else if String.eqb token "tok-tech-pune" then Some tech_pune
  else if String.eqb token "tok-tech-mumbai" then Some tech_mumbai
  else if String.eqb token "tok-admin-pune" then Some admin_pune
  else if String.eqb token "tok-admin-nagpur" then Some admin_nagpur
  else if String.eqb token "tok-legacy-planner" then Some legacy_planner
  else None.

Definition exact_eq (a b : sqlval) : bool :=
  match a, b with
  | SqlInt m, SqlInt n => Z.eqb m n
  | SqlInt n, SqlText s | SqlText s, SqlInt n => String.eqb (pretty n) s
  | SqlText s, SqlText t => String.eqb s t
  | SqlBit x, SqlBit y => Bool.eqb x y
  | SqlDate x, SqlDate y => Z.eqb x y
  | _, _ => false
  end.

Definition world : Collaborators :=
  {| jwt_verify := verifier;
     push_rejects := fun n _ => Nat.eqb n 0;
     query_rejects := fun _ => false;
     sql_eq := exact_eq |}.

Definition pune_ticket (st : string) (completed : sqlval) : ticket :=
  {| id := 1; global_id := SqlText "U1"; raised_by := SqlText "Asha";
     category := SqlText "Breakdown"; description := SqlText "Pump leaking";
     building_no := SqlNull; area_code := SqlNull; sub_area := SqlNull;
     keyword := SqlNull; location := SqlText "Pune"; status := SqlText st;
     assigned_to := SqlNull; planner_id := SqlNull; completion_note := SqlNull;
     created_at := SqlDate 900; updated_at := SqlDate 900;
     started_at := SqlNull; completed_at := completed |}.

Definition endpoint (url : string) : jsval :=
  JObj [("endpoint", JStr url); ("keys", JObj [])].

Definition registry : gmap string (list jsval) :=
  <["U1" := [endpoint "https://push.example/u1-phone";
             endpoint "https://push.example/u1-laptop"]]>
    (<["T1" := [endpoint "https://push.example/t1"]]> ∅).

Definition store (rows : list ticket) : state :=
  {| tickets := rows; next_id := 2; clock := 1000; queries := 0;
     subscriptionsPerUser := registry; pushes := []; console := [] |}.

Definition initial : state := store [pune_ticket "Open" SqlNull].

(** Before the first ticket. *)
Definition fresh : state :=
  {| tickets := []; next_id := 1; clock := 1000; queries := 0;
     subscriptionsPerUser := registry; pushes := []; console := [] |}.

Definition post (header cookie : option string) (fields : list (string * jsval)) : request :=
  {| authorization := header; cookie_token := cookie; accept := None;
     x_requested_with := None; content_type := None;
     body := JObj fields; user := JUndefined; session := JUndefined |}.

End Demo.

(** ** Further code of the cited files

    The subscription route of routes/ticket.js, [requireAdmin] of
    routes/admin.js, [runQuery] of app.js and [mapSqlAndInputs] of db.js. *)

(** [a === b] between values taken from two different request bodies:
    primitives compare by value, and an array or object of one body is never
    the same reference as one of another body. *)
Definition strict_eq (a b : jsval) : bool :=
  match a, b with
  | JUndefined, JUndefined => true
  | JNull, JNull => true
  | JBool x, JBool y => Bool.eqb x y
  | JNum x, JNum y => Z.eqb x y
  | JStr x, JStr y => String.eqb x y
  | _, _ => false
  end.

Definition set_registry (registry : gmap string (list jsval)) (s : state) : state :=
  {| tickets := tickets s; next_id := next_id s; clock := clock s;
     queries := queries s; subscriptionsPerUser := registry;
     pushes := pushes s; console := console s |}.

(** [if (!subscriptionsPerUser[userId]) subscriptionsPerUser[userId] = []]. *)
Definition ensure_entry (userId : jsval) : M unit :=
  fun s =>
    match registry_entry (subscriptionsPerUser s) userId with
    | Some _ => (Val tt, s)
    | None =>
        (Val tt, set_registry (<[to_string userId := []]> (subscriptionsPerUser s)) s)
    end.

(** [subscriptionsPerUser[userId].some(sub => sub.endpoint === endpoint)];
    the stored entries are the bodies of earlier requests. *)
Definition endpoint_registered (userId endpoint : jsval) : M bool :=
  fun s =>
    (Val (existsb (fun sub => strict_eq (js_get sub "endpoint") endpoint)
            (default [] (registry_entry (subscriptionsPerUser s) userId))), s).

(** [subscriptionsPerUser[userId].push(subscription)]. *)
Definition push_subscription (userId subscription : jsval) : M unit :=
  fun s =>
    (Val tt,
     set_registry
       (<[to_string userId :=
            (default [] (registry_entry (subscriptionsPerUser s) userId)
             ++ [subscription])%list]> (subscriptionsPerUser s)) s).

(** *** POST /notifications/subscribe (routes/ticket.js) *)

Definition notifications_subscribe (req : request) : M response :=
  try_catch
    (let user := user req in
     if negb (truthy (js_get_opt user "globalId")) then
       ret (SendJson 401 (JObj [("error", JStr "Unauthorized: Please log in.")]))
     else
       let userId := js_get user "globalId" in
       let subscription := body req in
       await ensure_entry userId then
       let* exists_ := endpoint_registered userId (js_get subscription "endpoint") in
       await (if negb exists_ then
                await push_subscription userId subscription then
                console_log ("✅ Subscription saved for user " +:+ to_string userId
                             +:+ ": " +:+ to_string (js_get subscription "endpoint"))
              else
                console_log ("ℹ️ Subscription already exists for user "
                             +:+ to_string userId)) then
       ret (SendJson 201 (JObj [("success", JBool true)])))
    (fun err =>
       await console_log ("❌ Error saving subscription: " +:+ err) then
       ret (SendJson 500 (JObj [("error", JStr "Failed to save subscription")]))).

(** The endpoints of a list of subscriptions that are strings. *)
Definition string_endpoints (subs : list jsval) : list string :=
  omap (fun sub => match js_get sub "endpoint" with
                   | JStr e => Some e
                   | _ => None
                   end) subs.

(** The HTTP status of an answer; a redirect is a 302. *)
Definition code_of (res : response) : nat :=
  match res with
  | Send code _ => code
  | SendJson code _ => code
  | Redirect _ => 302
  end.

(** A computation that, when it returns, returns an answer satisfying [P]. *)
Definition yields (P : response -> Prop) (m : M response) : Prop :=
  forall s, match fst (m s) with
            | Val res => P res
            | Exn _ => True
            end.

(** A computation that always returns, with an answer satisfying [P]. *)
Definition answers (P : response -> Prop) (m : M response) : Prop :=
  forall s, exists res, fst (m s) = Val res /\ P res.

(** The answers of a transition that got past its check for missing ids. *)
Definition error_or_redirect (res : response) : Prop :=
  code_of res = 500%nat \/ code_of res = 302%nat.

(** [!ticketId] and [!ticketId || !executerId] on the body of a request. *)
Definition lacks_ticket (req : request) : bool :=
  negb (truthy (js_get (body req) "ticketId")).

Definition lacks_assignment (req : request) : bool :=
  negb (truthy (js_get (body req) "ticketId"))
  || negb (truthy (js_get (body req) "executerId")).

(** How a transition answers: 400 and nothing done when an id is lacking,
    otherwise an error or a redirect. *)
Definition answers_like (lacking : bool) (message : string)
    (run : outcome response * state) (s : state) : Prop :=
  if lacking then run = (Val (Send 400 message), s)
  else exists res, fst run = Val res /\ error_or_redirect res.

(** The subscriptions registered for an owner, and the delivery attempts
    of one message to a list of subscriptions. *)
Definition subscriptions_of (s : state) (owner : jsval) : list jsval :=
  default [] (registry_entry (subscriptionsPerUser s) owner).

Definition attempts (message : string) (subs : list jsval) : list (jsval * jsval) :=
  map (fun sub => (sub, notification message)) subs.

(** The rows [SELECT global_id FROM tickets WHERE id = ?] returns. *)
Definition owner_rows `{Collaborators} (ticketId : jsval) (rows : list ticket) : list jsval :=
  map (fun t => JObj [("global_id", to_js (global_id t))])
    (filter (fun t => matches_id (bind_input ticketId) t = true) rows).

(** What the lifecycle keeps true of a row: its status is one of the
    four; while it is Open nothing has been assigned, started or completed;
    and once it is In Progress it has a start time. *)
Definition lifecycle_ok (t : ticket) : Prop :=
  (exists rank, status_rank (status t) = Some rank)
  /\ (status t = SqlText "Open" ->
      assigned_to t = SqlNull /\ planner_id t = SqlNull
      /\ started_at t = SqlNull /\ completed_at t = SqlNull)
  /\ (status t = SqlText "In Progress" -> started_at t <> SqlNull).

Definition keeps_lifecycle (before after : list ticket) : Prop :=
  Forall lifecycle_ok before -> Forall lifecycle_ok after.

(** The requests of the ticket, planner and technician routers. *)
Inductive endpoint_name : Type :=
| PostTicketSubmit
| PostTicketAssign
| PostPlannerAssign
| PostTicketComplete
| PostTechnicianStart
| PostTechnicianComplete
| PostSubscribe.

Definition serve `{Collaborators} (e : endpoint_name) : request -> M response :=
  match e with
  | PostTicketSubmit => ticket_submit_route
  | PostTicketAssign => ticket_assign_route
  | PostPlannerAssign => planner_assign_route
  | PostTicketComplete => ticket_complete_route
  | PostTechnicianStart => technician_start_route
  | PostTechnicianComplete => technician_complete_route
  | PostSubscribe => route [authenticateJWT] notifications_subscribe
  end.

(** States reached from an empty table by any sequence of such requests;
    between requests the environment may change anything but the table. *)
Inductive served `{Collaborators} : state -> Prop :=
| served_empty s : tickets s = [] -> served s
| served_request s e req : served s -> served (snd (serve e req s))
| served_env s s' : served s -> tickets s' = tickets s -> served s'.

(** The token of a usable Bearer header, [undefined] without one. *)
Definition header_token (req : request) : jsval :=
  match authorization req with
  | Some authHeader =>
      if truthy (JStr authHeader) && String.prefix "Bearer " authHeader
      then bearer_token authHeader else JUndefined
  | None => JUndefined
  end.

(** *** requireAdmin (routes/admin.js) *)

Definition requireAdmin (req : request) : M step :=
  let user := user req in
  if negb (truthy user) then ret (Done (Redirect "/login"))
  else
    let role := js_or (js_get user "role") (js_get user "department") in
    if negb (is_str role "admin") then ret (Done (Redirect "/login"))
    else ret (Next req).

(** *** mapSqlAndInputs (db.js) *)

(** The replacement loop over the text, [index] counting the placeholders
    seen so far; the inputs object is kept as the list of its entries in
    insertion order. *)
Fixpoint map_placeholders (sqlText : string) (index : nat) (params : list jsval)
    : string * list (string * jsval) :=
  match sqlText with
  | EmptyString => (EmptyString, [])
  | String c rest =>
      if Ascii.eqb c "?" then
        let index := S index in
        let name := "p" +:+ pretty index in
        let '(mapped, inputs) := map_placeholders rest index params in
        ("@" +:+ name +:+ mapped, (name, nth (index - 1) params JUndefined) :: inputs)
      else
        let '(mapped, inputs) := map_placeholders rest index params in
        (String c mapped, inputs)
  end.

Definition mapSqlAndInputs (sqlText : string) (params : list jsval)
    : string * list (string * jsval) :=
  map_placeholders sqlText 0 params.

(** The number of [?] in a text. *)
Fixpoint placeholders (sqlText : string) : nat :=
  match sqlText with
  | EmptyString => 0
  | String c rest => (if Ascii.eqb c "?" then 1 else 0) + placeholders rest
  end.

(** *** runQuery (app.js) *)

(** [n > 0] for the value of a [length] property. *)
Definition is_positive (v : jsval) : bool :=
  match v with JNum n => Z.ltb 0 n | _ => false end.

(** The normalization of what [db.query] resolved to. *)
Definition normalize_result (res : jsval) : jsval :=
  if is_array res then
    if is_positive (js_get res "length") && is_array (js_index res 0)
    then js_index res 0
    else res
  else if truthy res && is_array (js_get res "recordset") then js_get res "recordset"
  else JArr [].

Section Helpers.

Context `{Collaborators}.

Definition runQuery (q : statement) (params : list jsval) : M jsval :=
  try_catch
    (let* res := db_query q params in
     ret (normalize_result res))
    (fun err =>
       await console_log ("DB query error: " +:+ err) then
       throw err).

Definition subscribe_route : request -> M response :=
  route [authenticateJWT] notifications_subscribe.

End Helpers.

(** ** Signing in (app.js)

    POST /login reads the users table, which no other modelled route
    writes, and relies on bcrypt, jsonwebtoken and the string built-ins. *)

Class Accounts := {
  (** the rows of [SELECT * FROM users WHERE global_id = ?] *)
  users_where_global_id : string -> list jsval;
  (** [bcrypt.compare(data, hash)], which rejects what it cannot compare *)
  bcrypt_compare : jsval -> jsval -> outcome bool;
  (** [jwt.sign(payload, secret, options)] *)
  jwt_sign : jsval -> outcome string;
  (** [String.prototype.trim] *)
  trim : string -> string
}.

(** What POST /login answers: a rendered view with its [error] local, or
    the token cookie followed by a redirect. *)
Inductive page : Type :=
| Render (view : string) (error : string)
| SignedIn (token : string) (url : string).

(** The object handed to [jwt.sign]. *)
Definition login_payload (user : jsval) : jsval :=
  JObj [("id", js_get user "id");
        ("globalId", js_get user "global_id");
        ("name", js_get user "name");
        ("phone", js_get user "phone");
        ("email", js_get user "email");
        ("department", js_get user "department");
        ("role", js_get user "department");
        ("location", js_get user "location")].

(** The redirect by department at the end of POST /login. *)
Definition landing (department : jsval) : string :=
  if is_str department "admin" then "/dashboard/admin"
  else if is_str department "technician" then "/dashboard/technician"
  else if is_str department "planner" then "/dashboard/planner"
  else "/dashboard/user".

Section SigningIn.

Context `{Collaborators} `{Accounts}.

(** [db.query('SELECT * FROM users WHERE global_id = ?', [id])]. *)
Definition select_users (id : string) : M jsval :=
  fun s =>
    let s1 := count_query s in
    if query_rejects (queries s) then (Exn "RequestError", s1)
    else
      let recordset := JArr (users_where_global_id id) in
      (Val (JArr [recordset;
                  driver_result recordset
                    (Z.of_nat (length (users_where_global_id id)))]), s1).

(** The body of [runQuery] around a [db.query] call. *)
Definition normalized (query : M jsval) : M jsval :=
  try_catch
    (let* res := query in
     ret (normalize_result res))
    (fun err =>
       await console_log ("DB query error: " +:+ err) then
       throw err).

(** A promise or call that may fail. *)
Definition lift {A} (o : outcome A) : M A :=
  match o with
  | Val a => ret a
  | Exn err => throw err
  end.

Definition login (req : request) : M page :=
  try_catch
    (let globalId := js_get (body req) "globalId" in
     let password := js_get (body req) "password" in
     if negb (truthy globalId) || negb (truthy password) then
       ret (Render "login" "Both fields are required")
     else
       let id := trim (to_string globalId) in
       await console_log ("[login] lookup user global_id= " +:+ id) then
       let* rows := normalized (select_users id) in
       let user := if truthy rows then js_index rows 0 else rows in
       if negb (truthy user) || negb (truthy (js_get user "password")) then
         await console_log "[login] user not found or no password" then
         ret (Render "login" "Invalid Global ID or unregistered user")
       else
         let* isMatch := lift (bcrypt_compare password (js_get user "password")) in
         if negb isMatch then ret (Render "login" "Incorrect password")
         else
           let* token := lift (jwt_sign (login_payload user)) in
           await console_log ("JWT created for user: "
                              +:+ to_string (js_get user "global_id")) then
           ret (SignedIn token (landing (js_get user "department"))))
    (fun err =>
       await console_log ("Login error: " +:+ err) then
       ret (Render "login" "Something went wrong. Check server logs.")).

End SigningIn.

(** The messages of the login view. *)
Definition login_errors : list string :=
  ["Both fields are required";
   "Invalid Global ID or unregistered user";
   "Incorrect password";
   "Something went wrong. Check server logs."].

(** ** Further deployments *)

Module Scenario.

(** A users table with a registered technician, an account that has not
    been registered yet, and toy versions of bcrypt and jsonwebtoken. *)
Definition kiran : jsval :=
  JObj [("id", JNum 7); ("global_id", JStr "T1"); ("name", JStr "Kiran");
        ("phone", JStr "020-5550"); ("email", JStr "kiran@example.org");
        ("department", JStr "technician"); ("location", JStr "Pune");
        ("password", JStr "hashed:monsoon")].

Definition pending : jsval :=
  JObj [("id", JNum 8); ("global_id", JStr "U9"); ("name", JStr "Lata");
        ("department", JStr "normal_user"); ("location", JStr "Pune");
        ("password", JNull)].

Definition accounts : Accounts :=
  {| users_where_global_id := fun id =>
       if String.eqb id "T1" then [kiran]
       else if String.eqb id "U9" then [pending] else [];
     bcrypt_compare := fun data hash =>
       match data, hash with
       | JStr d, JStr h => Val (String.eqb h ("hashed:" +:+ d))
       | _, _ => Exn "data and hash must be strings"
       end;
     jwt_sign := fun payload => Val ("signed:" +:+ to_string (js_get payload "globalId"));
     trim := fun text => text |}.

Definition sign_in (globalId password : jsval) : request :=
  Demo.post None None [("globalId", globalId); ("password", password)].

(** The demo deployment with a store that rejects every statement. *)
Definition offline : Collaborators :=
  {| jwt_verify := Demo.verifier;
     push_rejects := fun n _ => Nat.eqb n 0;
     query_rejects := fun _ => true;
     sql_eq := Demo.exact_eq |}.

(** The demo deployment with a store that rejects the second statement. *)
Definition flaky : Collaborators :=
  {| jwt_verify := Demo.verifier;
     push_rejects := fun n _ => Nat.eqb n 0;
     query_rejects := fun n => Nat.eqb n 1;
     sql_eq := Demo.exact_eq |}.

End Scenario.

(** * Properties *)

(** ** Computations and the table *)

Section Preservation.

Context `{Collaborators}.
Variable Rt : list ticket -> list ticket -> Prop.
Hypothesis Rt_refl : forall rows, Rt rows rows.
Hypothesis Rt_trans : forall a b c, Rt a b -> Rt b c -> Rt a c.

Lemma preserves_ret {A} (a : A) : preserves Rt (ret a).
Proof. intros s. apply Rt_refl. Qed.

Lemma preserves_throw {A} (e : string) : preserves Rt (@throw A e).
Proof. intros s. apply Rt_refl. Qed.

Lemma preserves_bind {A B} (m : M A) (k : A -> M B) :
  preserves Rt m -> (forall a, preserves Rt (k a)) -> preserves Rt (bind m k).
Proof.
  intros Hm Hk s. unfold bind. specialize (Hm s).
  destruct (m s) as [[a | e] s1]; simpl in *; [| assumption].
  eapply Rt_trans; [exact Hm | apply Hk].
Qed.

Lemma preserves_try_catch {A} (body : M A) (handler : string -> M A) :
  preserves Rt body -> (forall e, preserves Rt (handler e)) ->
  preserves Rt (try_catch body handler).
Proof.
  intros Hb Hh s. unfold try_catch. specialize (Hb s).
  destruct (body s) as [[a | e] s1]; simpl in *; [assumption |].
  eapply Rt_trans; [exact Hb | apply Hh].
Qed.

Lemma preserves_console_log (line : string) : preserves Rt (console_log line).
Proof. intros s. apply Rt_refl. Qed.

Lemma preserves_push (sub payload : jsval) :
  preserves Rt (webPush_sendNotification sub payload).
Proof.
  intros s. unfold webPush_sendNotification.
  destruct (push_rejects _ _); apply Rt_refl.
Qed.

Lemma preserves_for_of {A} (xs : list A) (body : A -> M unit) :
  (forall x, preserves Rt (body x)) -> preserves Rt (for_of xs body).
Proof.
  intros Hbody. induction xs as [| x rest IH]; simpl.
  - apply preserves_ret.
  - apply preserves_bind; [apply Hbody | intros _; exact IH].
Qed.

Lemma preserves_notify (message : string) (target : jsval) :
  preserves Rt (sendNotificationToUser message target).
Proof.
  intros s. unfold sendNotificationToUser.
  apply preserves_for_of. intros sub.
  apply preserves_try_catch; [apply preserves_push | intros e; apply preserves_console_log].
Qed.

Lemma preserves_detached (m : M unit) : preserves Rt m -> preserves Rt (detached m).
Proof. intros Hm s. apply Hm. Qed.

Lemma preserves_js_get_strict (v : jsval) (k : string) :
  preserves Rt (js_get_strict v k).
Proof. destruct v; first [apply preserves_throw | apply preserves_ret]. Qed.

Lemma preserves_db_query (q : statement) (params : list jsval) :
  (forall now rows nid, Rt rows (rows_after q params now rows nid)) ->
  preserves Rt (db_query q params).
Proof.
  intros Hq s. unfold db_query.
  destruct (query_rejects (queries s)); [apply Rt_refl |].
  specialize (Hq (clock s) (tickets s) (next_id s)). unfold rows_after in Hq.
  destruct (execute q params (clock s) (tickets s) (next_id s)) as [[[rows nid] rs] n].
  exact Hq.
Qed.

Lemma preserves_select (params : list jsval) :
  preserves Rt (db_query SelectOwner params).
Proof. apply preserves_db_query. intros now rows nid. apply Rt_refl. Qed.

Lemma preserves_authenticateJWT (req : request) : preserves Rt (authenticateJWT req).
Proof.
  unfold authenticateJWT.
  destruct (negb _); [apply preserves_ret |].
  destruct (verify _); apply preserves_ret.
Qed.

Lemma preserves_technician_authenticateJWT (req : request) :
  preserves Rt (technician_authenticateJWT req).
Proof.
  unfold technician_authenticateJWT.
  destruct (negb _); [apply preserves_ret |].
  destruct (verify _); [apply preserves_ret |].
  apply preserves_bind; [apply preserves_console_log | intros _; apply preserves_ret].
Qed.

Lemma preserves_requireRole (roles : list string) (req : request) :
  preserves Rt (requireRole roles req).
Proof.
  unfold requireRole.
  destruct (negb _); [apply preserves_ret |].
  destruct (negb _); apply preserves_ret.
Qed.

Lemma preserves_route (mws : list (request -> M step)) (handler : request -> M response) :
  Forall (fun mw => forall req, preserves Rt (mw req)) mws ->
  (forall req, preserves Rt (handler req)) ->
  forall req, preserves Rt (route mws handler req).
Proof.
  intros Hm Hh. induction Hm as [| mw rest Hmw _ IH]; intros req; simpl.
  - apply Hh.
  - apply preserves_bind; [apply Hmw |].
    intros [req' | res]; [apply IH | apply preserves_ret].
Qed.

End Preservation.

Create HintDb frame.

#[local] Hint Resolve preserves_ret preserves_throw preserves_console_log
  preserves_notify preserves_detached preserves_js_get_strict preserves_select
  preserves_authenticateJWT preserves_technician_authenticateJWT
  preserves_requireRole : frame.

(** Splits a route body along its control flow, leaving the statements that
    write to the table. *)
Ltac frame_step :=
  match goal with
  | |- forall _, _ => intros ?
  | |- preserves _ (bind _ _) => apply preserves_bind; try assumption
  | |- preserves _ (try_catch _ _) => apply preserves_try_catch; try assumption
  | |- preserves _ (if ?b then _ else _) => destruct b
  | |- preserves _ _ => solve [auto with frame]
  end.

Ltac frame := cbv zeta; repeat frame_step.

(** ** Running computations step by step *)

Section Steps.

Context `{Collaborators}.

Lemma bind_val {A B} (m : M A) (k : A -> M B) s a s1 :
  m s = (Val a, s1) -> bind m k s = k a s1.
Proof. intros Hm. unfold bind. now rewrite Hm. Qed.

(** One iteration of the delivery loop never raises and records exactly
    one attempt. *)
Lemma deliver_one (sub payload : jsval) (line : string -> string) (s : state) :
  exists s',
    try_catch (webPush_sendNotification sub payload)
              (fun err => console_log (line err)) s = (Val tt, s')
    /\ pushes s' = (pushes s ++ [(sub, payload)])%list
    /\ tickets s' = tickets s /\ next_id s' = next_id s
    /\ clock s' = clock s /\ queries s' = queries s
    /\ subscriptionsPerUser s' = subscriptionsPerUser s.
Proof.
  unfold try_catch, webPush_sendNotification, console_log.
  destruct (push_rejects _ _); eexists; repeat split.
Qed.

Lemma deliver_all (subs : list jsval) (payload : jsval) (line : string -> string) (s : state) :
  exists s',
    for_of subs (fun sub =>
      try_catch (webPush_sendNotification sub payload)
                (fun err => console_log (line err))) s = (Val tt, s')
    /\ pushes s' = (pushes s ++ map (fun sub => (sub, payload)) subs)%list
    /\ tickets s' = tickets s /\ next_id s' = next_id s
    /\ clock s' = clock s /\ queries s' = queries s
    /\ subscriptionsPerUser s' = subscriptionsPerUser s.
Proof.
  revert s. induction subs as [| sub rest IH]; intros s; simpl.
  - exists s. rewrite app_nil_r. repeat split.
  - destruct (deliver_one sub payload line s) as (s1 & Hrun & Hp & Ht & Hn & Hc & Hq & Hr).
    destruct (IH s1) as (s2 & Hrun2 & Hp2 & Ht2 & Hn2 & Hc2 & Hq2 & Hr2).
    exists s2. split; [| repeat split; try congruence].
    + erewrite bind_val by exact Hrun. exact Hrun2.
    + rewrite Hp2, Hp, <- app_assoc. reflexivity.
Qed.

End Steps.

(** ** Notification dispatch *)

(** C9. [sendNotificationToUser] attempts one delivery per endpoint
    registered for the target, in order, whichever of these deliveries the
    push service rejects; it always completes normally, a rejection being
    caught and logged inside the loop; and for a target without endpoints it
    attempts nothing and leaves the state as it was. *)
Theorem notify_attempts_every_endpoint `{Collaborators}
    (message : string) (target : jsval) (s : state) :
  let subs := default [] (registry_entry (subscriptionsPerUser s) target) in
  let run := sendNotificationToUser message target s in
  fst run = Val tt
  /\ pushes (snd run)
     = (pushes s ++ map (fun sub => (sub, notification message)) subs)%list
  /\ (subs = [] -> snd run = s).
Proof.
  cbv zeta. unfold sendNotificationToUser.
  destruct (deliver_all (default [] (registry_entry (subscriptionsPerUser s) target))
              (notification message)
              (fun err => "Failed to send notification to "
                          +:+ to_string target +:+ ": " +:+ err) s)
    as (s' & Hrun & Hp & _).
  rewrite Hrun. simpl. repeat split; [exact Hp |].
  intros Hnone. rewrite Hnone in Hrun. simpl in Hrun. unfold ret in Hrun. congruence.
Qed.

(** In the demo deployment the first delivery to U1 is rejected and the
    second endpoint is still tried; nobody is registered under "nobody". *)
Lemma notify_attempts_every_endpoint_witness :
  fst (sendNotificationToUser (H := Demo.world) "hello" (JStr "U1") Demo.initial) = Val tt
  /\ map fst (pushes (snd (sendNotificationToUser (H := Demo.world) "hello" (JStr "U1") Demo.initial)))
     = [Demo.endpoint "https://push.example/u1-phone";
        Demo.endpoint "https://push.example/u1-laptop"]
  /\ snd (sendNotificationToUser (H := Demo.world) "hello" (JStr "nobody") Demo.initial)
     = Demo.initial.
Proof.
  destruct (notify_attempts_every_endpoint (H := Demo.world) "hello" (JStr "U1") Demo.initial)
    as (Hok & Hpushes & _).
  destruct (notify_attempts_every_endpoint (H := Demo.world) "hello" (JStr "nobody") Demo.initial)
    as (_ & _ & Hnone).
  split; [exact Hok |]. split.
  - rewrite Hpushes. vm_compute. reflexivity.
  - apply Hnone. vm_compute. reflexivity.
Defined.

(** ** What the transitions may do to the table *)

Section Transitions.

Context `{Collaborators}.
Variable Rt : list ticket -> list ticket -> Prop.
Hypothesis Rt_refl : forall rows, Rt rows rows.
Hypothesis Rt_trans : forall a b c, Rt a b -> Rt b c -> Rt a c.

Lemma preserves_respected (q : statement) (shape : list jsval -> Prop)
    (params : list jsval) :
  respects Rt q shape -> shape params -> preserves Rt (db_query q params).
Proof. intros Hq Hshape. apply preserves_db_query; auto. Qed.

Lemma preserves_ticket_submit (req : request) :
  respects Rt InsertTicket any_params -> preserves Rt (ticket_submit req).
Proof.
  intros Hq. unfold ticket_submit. frame.
  eapply preserves_respected; [exact Hq | exact I].
Qed.

Lemma preserves_ticket_assign (req : request) :
  respects Rt (UpdateAssign false) any_params -> preserves Rt (ticket_assign req).
Proof.
  intros Hq. unfold ticket_assign. frame.
  eapply preserves_respected; [exact Hq | exact I].
Qed.

Lemma preserves_planner_assign (req : request) :
  (forall scoped, respects Rt (UpdateAssign scoped) any_params) ->
  preserves Rt (planner_assign req).
Proof.
  intros Hq. unfold planner_assign. frame.
  eapply preserves_respected; [apply Hq | exact I].
Qed.

Lemma preserves_ticket_complete (req : request) :
  respects Rt UpdateCompleted any_params -> preserves Rt (ticket_complete req).
Proof.
  intros Hq. unfold ticket_complete. frame.
  eapply preserves_respected; [exact Hq | exact I].
Qed.

Lemma preserves_technician_start (req : request) :
  (forall scoped, respects Rt (UpdateStart scoped) start_params) ->
  preserves Rt (technician_start req).
Proof.
  intros Hq. unfold technician_start. frame.
  eapply preserves_respected; [apply Hq |].
  destruct (negb _); eexists; reflexivity.
Qed.

Lemma preserves_technician_complete (req : request) :
  (forall scoped, respects Rt (UpdateCompleteNote scoped) any_params) ->
  preserves Rt (technician_complete req).
Proof.
  intros Hq. unfold technician_complete. frame.
  eapply preserves_respected; [apply Hq | exact I].
Qed.

End Transitions.

(** ** Creation *)

Section Creation.

Context `{Collaborators}.

Lemma notify_keeps_table (message : string) (target : jsval) (s : state) :
  tickets (snd (sendNotificationToUser message target s)) = tickets s.
Proof.
  symmetry.
  apply (preserves_notify eq (@eq_refl _) (@eq_trans _) message target s).
Qed.

(** The four ways /ticket/submit can go. *)
Lemma ticket_submit_run (req : request) (s : state) :
  ticket_submit req s =
    if negb (truthy (js_get_opt (user req) "globalId")) then
      (Val (Send 401 "Unauthorized: Please log in again."), s)
    else if facility_fields_missing req then
      (Val (Redirect ("/dashboard/user?error="
                      +:+ encodeURIComponent "Missing required Facility Service fields.")), s)
    else if query_rejects (queries s) then
      (Val (Redirect ("/dashboard/user?error="
                      +:+ encodeURIComponent "Failed to submit ticket.")),
       add_console ("Error submitting ticket: " +:+ "RequestError") (count_query s))
    else
      (Val (Redirect ("/dashboard/user?message="
                      +:+ encodeURIComponent "Ticket submitted successfully.")),
       snd (sendNotificationToUser
              "✅ Your ticket has been submitted successfully."
              (js_get (user req) "globalId")
              (set_tickets (tickets s ++ [submitted_row req s])%list (next_id s + 1)
                 (count_query s)))).
Proof.
  unfold ticket_submit, facility_fields_missing, missing, try_catch.
  destruct (negb (truthy (js_get_opt (user req) "globalId"))); [reflexivity |].
  cbv zeta.
  destruct (is_str _ "Facility Service" && _)%bool; [reflexivity |].
  unfold bind at 1. unfold db_query.
  destruct (query_rejects (queries s)); reflexivity.
Qed.

End Creation.

(** ** Routes behind the shared middlewares *)

Section Routes.

Context `{Collaborators}.

(** authenticateJWT then requireRole: the handler runs, on the request
    carrying the verified payload, exactly when a token is found, verifies,
    and its payload has an allowed role. Rejections leave the state alone. *)
Lemma route_shared (roles : list string) (handler : request -> M response)
    (req : request) (s : state) :
  route [authenticateJWT; requireRole roles] handler req s =
    if negb (truthy (header_first_token req)) then
      (Val (SendJson 401 (JObj [("message", JStr "Unauthorized: No token provided")])), s)
    else match verify (header_first_token req) with
         | None =>
             (Val (SendJson 403 (JObj [("message", JStr "Invalid or expired token")])), s)
         | Some u =>
             if negb (truthy u) then
               (Val (SendJson 401
                       (JObj [("message", JStr "Unauthorized: No user found in request")])), s)
             else if negb (includes roles (userRole u)) then
               (Val (SendJson 403
                       (JObj [("message", JStr "❌ Access Denied: Insufficient role")])), s)
             else handler (set_user u req) s
         end.
Proof.
  simpl. unfold authenticateJWT, requireRole, bind, ret.
  destruct (negb (truthy (header_first_token req))); [reflexivity |].
  destruct (verify (header_first_token req)) as [u |]; [| reflexivity].
  simpl. destruct (negb (truthy u)); [reflexivity |].
  destruct (negb (includes roles (userRole u))); reflexivity.
Qed.

End Routes.

(** ** Validation of create requests *)

(** C5. A create request whose normalized category is Facility Service and
    in which building_no, area_code, sub_area or keyword is missing (absent,
    empty, or otherwise falsy) is answered, for a caller with a globalId, by
    the redirect carrying the validation error, and the state, hence the
    tickets table, is left as it was. Through the route, whoever the caller
    is, the table is unchanged. *)
Theorem facility_ticket_requires_fields `{Collaborators} (req : request) (s : state) :
  is_str (normalize_category (js_get (body req) "category")) "Facility Service" = true ->
  (missing (js_get (body req) "building_no")
   || missing (js_get (body req) "area_code")
   || missing (js_get (body req) "sub_area")
   || missing (js_get (body req) "keyword")) = true ->
  (truthy (js_get_opt (user req) "globalId") = true ->
   ticket_submit req s =
     (Val (Redirect "/dashboard/user?error=Missing%20required%20Facility%20Service%20fields."),
      s))
  /\ tickets (snd (ticket_submit_route req s)) = tickets s.
Proof.
  intros Hcat Hmiss.
  assert (Hrun : forall r, body r = body req ->
            truthy (js_get_opt (user r) "globalId") = true ->
            ticket_submit r s =
              (Val (Redirect "/dashboard/user?error=Missing%20required%20Facility%20Service%20fields."),
               s)).
  { intros r Hbody Hgid. rewrite ticket_submit_run, Hgid. simpl negb. cbv iota.
    unfold facility_fields_missing. rewrite Hbody, Hcat, Hmiss. reflexivity. }
  split; [intros Hgid; apply Hrun; [reflexivity | exact Hgid] |].
  unfold ticket_submit_route. rewrite route_shared.
  destruct (negb (truthy (header_first_token req))); [reflexivity |].
  destruct (verify (header_first_token req)) as [u |]; [| reflexivity].
  destruct (negb (truthy u)); [reflexivity |].
  destruct (negb (includes _ (userRole u))); [reflexivity |].
  destruct (truthy (js_get_opt (user (set_user u req)) "globalId")) eqn:Hgid.
  - rewrite (Hrun (set_user u req)); [reflexivity | reflexivity | exact Hgid].
  - rewrite ticket_submit_run, Hgid. reflexivity.
Qed.

Lemma facility_ticket_requires_fields_witness :
  let req := set_user Demo.user_pune
               (Demo.post None (Some "tok-user-pune")
                  [("category", JStr "Facility"); ("building_no", JStr "B7");
                   ("area_code", JStr ""); ("sub_area", JStr "Dock");
                   ("keyword", JStr "lights")]) in
  ticket_submit (H := Demo.world) req Demo.initial =
    (Val (Redirect "/dashboard/user?error=Missing%20required%20Facility%20Service%20fields."),
     Demo.initial)
  /\ tickets (snd (ticket_submit_route (H := Demo.world) req Demo.initial))
     = tickets Demo.initial.
Proof.
  intros req.
  destruct (facility_ticket_requires_fields (H := Demo.world) req Demo.initial)
    as [Hhandler Hroute]; [reflexivity | reflexivity |].
  split; [apply Hhandler; reflexivity | exact Hroute].
Defined.

Section CreatedRow.

Context `{Collaborators}.

(** A create request answered with the success redirect has appended
    exactly the row built from its parameters. *)
Lemma ticket_submit_success (req : request) (s : state) :
  fst (ticket_submit req s)
  = Val (Redirect ("/dashboard/user?message="
                   +:+ encodeURIComponent "Ticket submitted successfully.")) ->
  tickets (snd (ticket_submit req s)) = (tickets s ++ [submitted_row req s])%list.
Proof.
  rewrite ticket_submit_run.
  destruct (negb (truthy (js_get_opt (user req) "globalId"))); [discriminate |].
  destruct (facility_fields_missing req); [simpl; discriminate |].
  destruct (query_rejects (queries s)); [simpl; discriminate |].
  intros _. cbn [snd]. apply notify_keeps_table.
Qed.

(** Conversely the success redirect is what a caller with a globalId gets
    when validation passes and the store accepts the INSERT. *)
Lemma ticket_submit_accepts (req : request) (s : state) :
  truthy (js_get_opt (user req) "globalId") = true ->
  facility_fields_missing req = false ->
  query_rejects (queries s) = false ->
  fst (ticket_submit req s)
  = Val (Redirect ("/dashboard/user?message="
                   +:+ encodeURIComponent "Ticket submitted successfully.")).
Proof.
  intros Hgid Hval Hq. rewrite ticket_submit_run, Hgid, Hval, Hq. reflexivity.
Qed.

Lemma normalize_falsy (c : jsval) :
  truthy c = false -> normalize_category c = JStr "Other".
Proof.
  intros Hc. unfold normalize_category.
  replace (is_str c "Facility" || is_str c "Facility Service")%bool with false.
  - rewrite Hc. reflexivity.
  - destruct c as [| | b | n | str | items | fields]; try reflexivity.
    simpl in Hc. apply negb_false_iff, String.eqb_eq in Hc. subst. reflexivity.
Qed.

Lemma normalize_other (c : jsval) :
  truthy c = true -> c <> JStr "Facility" -> normalize_category c = c.
Proof.
  intros Hc Hne. unfold normalize_category.
  destruct (is_str c "Facility" || is_str c "Facility Service")%bool eqn:Hfs.
  - destruct c as [| | b | n | str | items | fields]; simpl in Hfs; try discriminate.
    apply orb_true_iff in Hfs as [Hf | Hf]; apply String.eqb_eq in Hf; subst;
      [contradiction | reflexivity].
  - rewrite Hc. reflexivity.
Qed.

End CreatedRow.

(** ** Category normalization *)

(** C6 as stated fails: a category the application does not know, here
    "Plumbing", is stored as it was sent, not as Other. *)
Lemma unrecognized_category_is_kept :
  let req := Demo.post None (Some "tok-user-pune")
               [("category", JStr "Plumbing"); ("description", JStr "Tap drips")] in
  let run := ticket_submit_route (H := Demo.world) req Demo.initial in
  fst run = Val (Redirect "/dashboard/user?message=Ticket%20submitted%20successfully.")
  /\ map category (tickets (snd run)) = [SqlText "Breakdown"; SqlText "Plumbing"]
  /\ SqlText "Plumbing" <> SqlText "Other".
Proof. cbv zeta. split; [| split]; [vm_compute; reflexivity .. | discriminate]. Qed.

(** C6 (amended). A create request that succeeds appends one row whose
    category is: Other when the request's category is absent or empty
    (falsy); Facility Service when it is the alias Facility; and the value
    as sent for every other category, recognized or not. *)
Theorem category_stored_as_normalized `{Collaborators} (req : request) (s : state) :
  let c := js_get (body req) "category" in
  fst (ticket_submit req s)
  = Val (Redirect ("/dashboard/user?message="
                   +:+ encodeURIComponent "Ticket submitted successfully.")) ->
  exists t,
    tickets (snd (ticket_submit req s)) = (tickets s ++ [t])%list
    /\ (truthy c = false -> category t = SqlText "Other")
    /\ (c = JStr "Facility" -> category t = SqlText "Facility Service")
    /\ (truthy c = true -> c <> JStr "Facility" -> category t = bind_input c).
Proof.
  intros c Hok. exists (submitted_row req s).
  split; [apply ticket_submit_success; exact Hok |].
  change (category (submitted_row req s)) with (bind_input (normalize_category c)).
  repeat split.
  - intros Hc. rewrite normalize_falsy by exact Hc. reflexivity.
  - intros Hc. rewrite Hc. reflexivity.
  - intros Hc Hne. rewrite normalize_other by assumption. reflexivity.
Qed.

Lemma category_stored_as_normalized_witness :
  let req := set_user Demo.user_pune
               (Demo.post None (Some "tok-user-pune")
                  [("category", JStr "Plumbing"); ("description", JStr "Tap drips")]) in
  exists t,
    tickets (snd (ticket_submit (H := Demo.world) req Demo.initial))
    = (tickets Demo.initial ++ [t])%list
    /\ category t = SqlText "Plumbing".
Proof.
  intros req.
  destruct (category_stored_as_normalized (H := Demo.world) req Demo.initial)
    as (t & Hrows & _ & _ & Hkept); [vm_compute; reflexivity |].
  exists t. split; [exact Hrows |].
  apply Hkept; [reflexivity | discriminate].
Defined.

(** ** Location of a ticket *)

Section Placement.

Context `{Collaborators}.

Lemma update_where_placement (cond : ticket -> bool) (f : ticket -> ticket)
    (rows : list ticket) :
  (forall t, placement (f t) = placement t) ->
  same_placement rows (update_where cond f rows).
Proof.
  intros Hf. unfold same_placement, update_where.
  induction rows as [| t rest IH]; simpl; [reflexivity |].
  rewrite <- IH. destruct (cond t); [rewrite Hf |]; reflexivity.
Qed.

Lemma rows_after_placement (q : statement) (params : list jsval) (now : Z)
    (rows : list ticket) (nid : Z) :
  q <> InsertTicket -> same_placement rows (rows_after q params now rows nid).
Proof.
  intros Hq. unfold rows_after.
  destruct q; simpl; try contradiction;
    first [apply update_where_placement; intros t; reflexivity | reflexivity].
Qed.

Lemma same_placement_trans (a b c : list ticket) :
  same_placement a b -> same_placement b c -> same_placement a c.
Proof. unfold same_placement. congruence. Qed.

End Placement.

(** C8. A create request that succeeds appends one row whose location is
    the location of the creating identity (the verified payload in
    [req.user]), NULL when the identity has none; and every assign, start
    and complete request, whoever sends it and however it ends, leaves the
    id and the location of every row as they were. *)
Theorem location_set_at_creation_only `{Collaborators} (req : request) (s : state) :
  let loc := js_get (user req) "location" in
  (fst (ticket_submit req s)
   = Val (Redirect ("/dashboard/user?message="
                    +:+ encodeURIComponent "Ticket submitted successfully.")) ->
   exists t,
     tickets (snd (ticket_submit req s)) = (tickets s ++ [t])%list
     /\ location t = if truthy loc then bind_input loc else SqlNull)
  /\ same_placement (tickets s) (tickets (snd (ticket_assign req s)))
  /\ same_placement (tickets s) (tickets (snd (planner_assign req s)))
  /\ same_placement (tickets s) (tickets (snd (technician_start req s)))
  /\ same_placement (tickets s) (tickets (snd (technician_complete req s)))
  /\ same_placement (tickets s) (tickets (snd (ticket_complete req s))).
Proof.
  intros loc. split.
  - intros Hok. exists (submitted_row req s).
    split; [apply ticket_submit_success; exact Hok |].
    change (location (submitted_row req s)) with (bind_input (js_or loc JNull)).
    unfold js_or. destruct (truthy loc); reflexivity.
  - pose proof (fun rows => eq_refl (map placement rows)) as Hrefl.
    pose proof same_placement_trans as Htrans.
    assert (Hupdate : forall q shape, q <> InsertTicket -> respects same_placement q shape).
    { intros q shape Hq params now rows nid _. apply rows_after_placement. exact Hq. }
    repeat split.
    + apply (preserves_ticket_assign same_placement Hrefl Htrans req); auto.
    + apply (preserves_planner_assign same_placement Hrefl Htrans req); auto.
    + apply (preserves_technician_start same_placement Hrefl Htrans req); auto.
    + apply (preserves_technician_complete same_placement Hrefl Htrans req); auto.
    + apply (preserves_ticket_complete same_placement Hrefl Htrans req); auto.
Qed.

Lemma location_set_at_creation_only_witness :
  let req := set_user Demo.user_pune
               (Demo.post None (Some "tok-user-pune")
                  [("category", JStr "Breakdown"); ("description", JStr "Fan stuck")]) in
  exists t,
    tickets (snd (ticket_submit (H := Demo.world) req Demo.initial))
    = (tickets Demo.initial ++ [t])%list
    /\ location t = SqlText "Pune".
Proof.
  intros req.
  destruct (location_set_at_creation_only (H := Demo.world) req Demo.initial)
    as [Hcreate _].
  destruct Hcreate as (t & Hrows & Hloc); [vm_compute; reflexivity |].
  exists t. split; [exact Hrows | exact Hloc].
Defined.

(** ** The role guard *)

(** C10. For a request carrying a payload, [requireRole] decides on the
    payload's role when it has one (a truthy [role] field) and on its
    department otherwise; so a payload without a role field whose department
    is among the allowed roles is let through. *)
Theorem requireRole_falls_back_to_department
    (allowedRoles : list string) (req : request) (s : state) :
  truthy (user req) = true ->
  let role := js_get (user req) "role" in
  let department := js_get (user req) "department" in
  let denied :=
    Done (SendJson 403 (JObj [("message", JStr "❌ Access Denied: Insufficient role")])) in
  (truthy role = true ->
   requireRole allowedRoles req s
   = (Val (if includes allowedRoles role then Next req else denied), s))
  /\ (truthy role = false ->
      requireRole allowedRoles req s
      = (Val (if includes allowedRoles department then Next req else denied), s))
  /\ (role = JUndefined -> includes allowedRoles department = true ->
      requireRole allowedRoles req s = (Val (Next req), s)).
Proof.
  intros Huser role department denied.
  assert (Hrun : requireRole allowedRoles req s
                 = (Val (if includes allowedRoles (js_or role department)
                         then Next req else denied), s)).
  { unfold requireRole, userRole. rewrite Huser. simpl negb. cbv iota.
    fold role department.
    destruct (includes allowedRoles (js_or role department)); reflexivity. }
  repeat split.
  - intros Hrole. rewrite Hrun. unfold js_or. rewrite Hrole. reflexivity.
  - intros Hrole. rewrite Hrun. unfold js_or. rewrite Hrole. reflexivity.
  - intros Hrole Hdep. rewrite Hrun. unfold js_or. rewrite Hrole. simpl.
    rewrite Hdep. reflexivity.
Qed.

(** A token signed before [role] existed, department planner, passes the
    guard of the assign routes. *)
Lemma requireRole_falls_back_to_department_witness :
  let req := set_user Demo.legacy_planner
               (Demo.post None (Some "tok-legacy-planner") []) in
  requireRole ["planner"; "admin"] req Demo.initial
  = (Val (Next req), Demo.initial).
Proof.
  intros req.
  destruct (requireRole_falls_back_to_department
              ["planner"; "admin"] req Demo.initial) as (_ & _ & Hlegacy);
    [reflexivity |].
  apply Hlegacy; reflexivity.
Defined.

(** ** Which token is verified *)

Section Tokens.

Context `{Collaborators}.

Lemma split_no_space (t : string) : no_space t = true -> split " " t = [t].
Proof.
  induction t as [| c rest IH]; simpl; [reflexivity |].
  intros Hns. apply andb_true_iff in Hns as [Hc Hrest].
  apply negb_true_iff in Hc. rewrite Hc, (IH Hrest). reflexivity.
Qed.

Lemma bearer_token_of (t : string) :
  no_space t = true -> bearer_token ("Bearer " +:+ t) = JStr t.
Proof.
  intros Hns. unfold bearer_token. simpl.
  change ("" +:+ t) with t.
  rewrite (split_no_space t Hns). reflexivity.
Qed.

Lemma truthy_string (t : string) : t <> "" -> truthy (JStr t) = true.
Proof.
  intros Hne. simpl. apply negb_true_iff, String.eqb_neq. exact Hne.
Qed.

Lemma bearer_is_truthy (t : string) : truthy (JStr ("Bearer " +:+ t)) = true.
Proof. reflexivity. Qed.

Lemma bearer_has_prefix (t : string) : String.prefix "Bearer " ("Bearer " +:+ t) = true.
Proof. simpl. destruct t; reflexivity. Qed.

End Tokens.

(** C7 as stated fails: on the technician routes a request with both a
    Bearer header (an admin's token) and a cookie (a normal user's token) is
    authenticated as the cookie's identity. *)
Lemma technician_routes_prefer_cookie :
  let req := Demo.post (Some "Bearer tok-admin-pune") (Some "tok-user-pune")
               [("ticketId", JStr "1")] in
  technician_authenticateJWT (H := Demo.world) req Demo.initial
  = (Val (Next (set_user Demo.user_pune req)), Demo.initial)
  /\ jwt_verify (Collaborators := Demo.world) "tok-admin-pune" = Some Demo.admin_pune
  /\ Demo.user_pune <> Demo.admin_pune.
Proof. cbv zeta. split; [| split]; [vm_compute; reflexivity .. | discriminate]. Qed.

(** C7 (amended). When a request presents both a Bearer authorization
    header with a non-empty token and a token cookie, the shared
    authenticateJWT middleware (ticket and planner routes) verifies the header
    token, and the authenticators of the technician routes and of app.js
    verify the cookie token. *)
Theorem token_source_precedence `{Collaborators}
    (req : request) (t c : string) (s : state) :
  authorization req = Some ("Bearer " +:+ t) -> t <> "" -> no_space t = true ->
  cookie_token req = Some c -> c <> "" ->
  header_first_token req = JStr t
  /\ cookie_first_token req = JStr c
  /\ authenticateJWT req s
     = (Val (match jwt_verify t with
             | Some u => Next (set_user u req)
             | None => Done (SendJson 403 (JObj [("message", JStr "Invalid or expired token")]))
             end), s)
  /\ fst (technician_authenticateJWT req s)
     = Val (match jwt_verify c with
            | Some u => Next (set_user u req)
            | None => Done (SendJson 401 (JObj [("error", JStr "Unauthorized - Invalid token")]))
            end)
  /\ fst (app_authenticateJWT req s)
     = Val (match jwt_verify c with
            | Some u => Next (set_user u req)
            | None => Done (SendJson 401 (JObj [("error", JStr "Unauthorized - Invalid token")]))
            end).
Proof.
  intros Hauth Ht Hns Hcookie Hc.
  pose proof (truthy_string t Ht) as Htt.
  pose proof (truthy_string c Hc) as Htc.
  assert (Hheader : header_first_token req = JStr t).
  { unfold header_first_token. rewrite Hauth, bearer_is_truthy, bearer_has_prefix.
    simpl andb. cbv iota. rewrite (bearer_token_of t Hns), Htt. reflexivity. }
  assert (Hcook : cookie_first_token req = JStr c).
  { unfold cookie_first_token. rewrite Hcookie. simpl of_opt_string.
    rewrite Htc. reflexivity. }
  assert (Hjson : expectsJson req = true).
  { unfold expectsJson. rewrite Hauth. simpl of_opt_string. rewrite bearer_is_truthy.
    repeat match goal with |- context [if ?b then true else _] => destruct b end;
      reflexivity. }
  repeat split; try assumption.
  - unfold authenticateJWT. rewrite Hheader, Htt. simpl.
    destruct (jwt_verify t); reflexivity.
  - unfold technician_authenticateJWT. rewrite Hcook, Htc. simpl.
    destruct (jwt_verify c); reflexivity.
  - unfold app_authenticateJWT. rewrite Hcook, Htc. simpl.
    destruct (jwt_verify c); [reflexivity |].
    unfold bind, console_log. rewrite Hjson. reflexivity.
Qed.

Lemma token_source_precedence_witness :
  let req := Demo.post (Some "Bearer tok-admin-pune") (Some "tok-user-pune")
               [("ticketId", JStr "1")] in
  authenticateJWT (H := Demo.world) req Demo.initial
  = (Val (Next (set_user Demo.admin_pune req)), Demo.initial)
  /\ fst (technician_authenticateJWT (H := Demo.world) req Demo.initial)
     = Val (Next (set_user Demo.user_pune req)).
Proof.
  intros req.
  destruct (token_source_precedence (H := Demo.world) req
              "tok-admin-pune" "tok-user-pune" Demo.initial)
    as (_ & _ & Hshared & Htech & _);
    [reflexivity | discriminate | reflexivity | reflexivity | discriminate |].
  split; [exact Hshared | exact Htech].
Defined.

(** ** Start and complete (routes/technician.js) *)

Section Technician.

Context `{Collaborators}.

Lemma first_query_table {A} (q : statement) (params : list jsval)
    (K : jsval -> M A) (Hd : string -> M A) (s : state) :
  (forall a, preserves eq (K a)) -> (forall e, preserves eq (Hd e)) ->
  tickets (snd (try_catch (bind (db_query q params) K) Hd s))
  = if query_rejects (queries s) then tickets s
    else rows_after q params (clock s) (tickets s) (next_id s).
Proof.
  intros HK HHd. unfold try_catch, bind, db_query, rows_after.
  destruct (query_rejects (queries s)).
  - symmetry. apply (HHd _ (count_query s)).
  - destruct (execute q params (clock s) (tickets s) (next_id s)) as [[[rows nid] rs] n].
    cbn [fst].
    pose proof (HK (JArr [rs; driver_result rs n]) (set_tickets rows nid (count_query s)))
      as Hk.
    destruct (K _ _) as [[a | e] s2]; cbn [snd tickets set_tickets] in *.
    + symmetry. exact Hk.
    + rewrite <- (HHd e s2). symmetry. exact Hk.
Qed.

Lemma update_where_ext (c1 c2 : ticket -> bool) (f1 f2 : ticket -> ticket)
    (rows : list ticket) :
  (forall t, c1 t = c2 t) -> (forall t, f1 t = f2 t) ->
  update_where c1 f1 rows = update_where c2 f2 rows.
Proof.
  intros Hc Hf. unfold update_where. apply map_ext. intros t.
  rewrite Hc, Hf. reflexivity.
Qed.

Lemma update_where_lookup (cond : ticket -> bool) (f : ticket -> ticket)
    (rows : list ticket) (i : nat) (t : ticket) :
  rows !! i = Some t ->
  update_where cond f rows !! i = Some (if cond t then f t else t).
Proof.
  revert i. induction rows as [| r rest IH]; intros [| i]; simpl; try discriminate.
  - intros [= ->]. reflexivity.
  - apply IH.
Qed.

Lemma technician_start_table (req : request) (s : state) :
  tickets (snd (technician_start req s))
  = if negb (truthy (js_get (body req) "ticketId")) || query_rejects (queries s)
    then tickets s
    else update_where (technician_target req) (started s) (tickets s).
Proof.
  unfold technician_start.
  destruct (negb (truthy (js_get (body req) "ticketId"))); [reflexivity |].
  cbv zeta. rewrite first_query_table.
  - simpl orb. destruct (query_rejects (queries s)); [reflexivity |].
    unfold rows_after.
    destruct (is_str (js_get (current_user req) "role") "admin") eqn:Hrole;
      cbn [negb execute fst]; apply update_where_ext; intros t;
      unfold technician_target, where_clause; rewrite ?Hrole; reflexivity.
  - intros answer.
    pose proof (fun rows : list ticket => eq_refl rows) as Hrefl.
    pose proof (@eq_trans (list ticket)) as Htrans.
    frame.
  - intros e.
    pose proof (fun rows : list ticket => eq_refl rows) as Hrefl.
    pose proof (@eq_trans (list ticket)) as Htrans.
    frame.
Qed.

Lemma technician_complete_table (req : request) (s : state) :
  tickets (snd (technician_complete req s))
  = if negb (truthy (js_get (body req) "ticketId")) || query_rejects (queries s)
    then tickets s
    else update_where (technician_target req) (completed req s) (tickets s).
Proof.
  unfold technician_complete.
  destruct (negb (truthy (js_get (body req) "ticketId"))); [reflexivity |].
  cbv zeta. rewrite first_query_table.
  - simpl orb. destruct (query_rejects (queries s)); [reflexivity |].
    unfold rows_after.
    destruct (is_str (js_get (current_user req) "role") "admin") eqn:Hrole;
      cbn [negb execute fst]; apply update_where_ext; intros t;
      unfold technician_target, where_clause; rewrite ?Hrole; reflexivity.
  - intros answer.
    pose proof (fun rows : list ticket => eq_refl rows) as Hrefl.
    pose proof (@eq_trans (list ticket)) as Htrans.
    frame.
  - intros e.
    pose proof (fun rows : list ticket => eq_refl rows) as Hrefl.
    pose proof (@eq_trans (list ticket)) as Htrans.
    frame.
Qed.

End Technician.

Section TechnicianAnswers.

Context `{Collaborators}.

Lemma technician_start_answer (req : request) (s : state) :
  truthy (js_get (body req) "ticketId") = true ->
  query_rejects (queries s) = false ->
  query_rejects (S (queries s)) = false ->
  fst (technician_start req s) = Val (Redirect "/dashboard/technician").
Proof.
  intros Hid Hq1 Hq2. unfold technician_start. rewrite Hid. cbv zeta.
  unfold try_catch, bind, db_query. cbn [negb]. cbv beta iota. rewrite Hq1.
  cbn [negb execute]. cbv beta iota zeta.
  cbn [js_index nth getAffectedCount truthy negb is_zero_count typeof_number andb
       queries set_tickets count_query].
  rewrite Hq2. cbn [execute]. cbv beta iota zeta.
  destruct (truthy (creator_of _)); reflexivity.
Qed.

Lemma technician_complete_answer (req : request) (s : state) :
  truthy (js_get (body req) "ticketId") = true ->
  query_rejects (queries s) = false ->
  query_rejects (S (queries s)) = false ->
  fst (technician_complete req s) = Val (Redirect "/dashboard/technician").
Proof.
  intros Hid Hq1 Hq2. unfold technician_complete. rewrite Hid. cbv zeta.
  unfold try_catch, bind, db_query. cbn [negb]. cbv beta iota. rewrite Hq1.
  cbn [negb execute]. cbv beta iota zeta.
  cbn [js_index nth getAffectedCount truthy negb is_zero_count typeof_number andb
       queries set_tickets count_query].
  rewrite Hq2. cbn [execute]. cbv beta iota zeta.
  destruct (truthy (creator_of _)); reflexivity.
Qed.

End TechnicianAnswers.

Section TicketComplete.

Context `{Collaborators}.

(** /ticket/complete when the store accepts both of its queries: the
    check for an empty row list reads the pair returned by [db.query], which
    has two elements, so the UPDATE always follows. *)
Lemma ticket_complete_run (req : request) (s : state) :
  truthy (js_get (body req) "ticketId") = true ->
  query_rejects (queries s) = false ->
  query_rejects (S (queries s)) = false ->
  fst (ticket_complete req s) = Val (Redirect "/dashboard/planner")
  /\ tickets (snd (ticket_complete req s))
     = update_where (matches_id (bind_input (js_get (body req) "ticketId")))
         (set_completed (SqlDate (clock s))) (tickets s).
Proof.
  intros Hid Hq1 Hq2. unfold ticket_complete. rewrite Hid. cbv zeta.
  unfold try_catch, bind, db_query. cbn [negb]. cbv beta iota. rewrite Hq1.
  cbn [execute]. cbv beta iota zeta.
  cbn [js_get assoc String.eqb Ascii.eqb Bool.eqb js_or truthy negb orb is_num
       length Z.of_nat Pos.of_succ_nat Pos.succ Z.eqb js_index nth js_get_strict ret
       queries set_tickets count_query clock tickets next_id].
  change (Z.of_nat 2 =? 0)%Z with false. cbv beta iota.
  cbn [queries set_tickets count_query clock tickets next_id].
  rewrite Hq2. cbn [execute]. cbv beta iota zeta.
  unfold detached, ret. cbn [fst snd].
  split; [reflexivity |].
  rewrite notify_keeps_table. reflexivity.
Qed.

End TicketComplete.

(** ** Location scope of assign *)

(** C1. A planner located in Mumbai assigns ticket 1, raised in Pune.
    Through /ticket/assign, whose UPDATE has no location condition, the
    ticket is assigned and the planner is redirected to the dashboard.
    Through /planner/assign the UPDATE carries [AND location = ?] and the
    ticket is left alone, yet the answer is the same redirect and the
    technician is notified: the test for zero affected rows reads
    [rowsAffected] off the pair that [db.query] returns. *)
Theorem ticket_assign_ignores_location :
  let req := Demo.post None (Some "tok-planner-mumbai")
               [("ticketId", JStr "1"); ("executerId", JStr "T1")] in
  let direct := ticket_assign_route (H := Demo.world) req Demo.initial in
  let scoped := planner_assign_route (H := Demo.world) req Demo.initial in
  jwt_verify (Collaborators := Demo.world) "tok-planner-mumbai" = Some Demo.planner_mumbai
  /\ map placement (tickets Demo.initial) = [(1, SqlText "Pune")]
  /\ fst direct = Val (Redirect "/dashboard/planner")
  /\ map (fun t => (status t, assigned_to t, planner_id t)) (tickets (snd direct))
     = [(SqlText "Assigned", SqlText "T1", SqlText "P2")]
  /\ fst scoped = Val (Redirect "/dashboard/planner")
  /\ tickets (snd scoped) = tickets Demo.initial
  /\ map fst (pushes (snd scoped)) = [Demo.endpoint "https://push.example/t1"].
Proof. cbv zeta. repeat split; vm_compute; reflexivity. Qed.

(** ** Location scope of start and complete *)

(** C2 as stated fails: an admin located in Nagpur, not the headquarters,
    starts a ticket raised in Pune; the ticket changes and the answer is the
    redirect of a successful start. *)
Lemma nonheadquarters_admin_starts_anywhere :
  let req := Demo.post None (Some "tok-admin-nagpur") [("ticketId", JStr "1")] in
  let run := technician_start_route (H := Demo.world) req Demo.initial in
  jwt_verify (Collaborators := Demo.world) "tok-admin-nagpur" = Some Demo.admin_nagpur
  /\ map placement (tickets Demo.initial) = [(1, SqlText "Pune")]
  /\ fst run = Val (Redirect "/dashboard/technician")
  /\ map status (tickets Demo.initial) = [SqlText "Open"]
  /\ map status (tickets (snd run)) = [SqlText "In Progress"].
Proof. cbv zeta. repeat split; vm_compute; reflexivity. Qed.

(** C2 (amended). On the technician routes the location condition is
    applied to every caller whose role is not admin: a row whose location
    the store does not find equal to the caller's is left as it was by start
    and by complete. A caller whose role is admin, at whatever location,
    starts and completes the rows with the requested id in any location. *)
Theorem technician_scope_by_role `{Collaborators}
    (req : request) (s : state) (i : nat) (t : ticket) :
  let role := js_get (current_user req) "role" in
  let caller_location := js_get (current_user req) "location" in
  let ticketId := js_get (body req) "ticketId" in
  tickets s !! i = Some t ->
  (is_str role "admin" = false ->
   matches_location (bind_input caller_location) t = false ->
   tickets (snd (technician_start req s)) !! i = Some t
   /\ tickets (snd (technician_complete req s)) !! i = Some t)
  /\ (is_str role "admin" = true ->
      truthy ticketId = true ->
      query_rejects (queries s) = false ->
      matches_id (bind_input ticketId) t = true ->
      tickets (snd (technician_start req s)) !! i = Some (started s t)
      /\ tickets (snd (technician_complete req s)) !! i = Some (completed req s t)).
Proof.
  intros role caller_location ticketId Hrow. split.
  - intros Hrole Hloc.
    assert (Hout : technician_target req t = false).
    { unfold technician_target. fold role caller_location. rewrite Hrole, Hloc.
      apply andb_false_r. }
    rewrite technician_start_table, technician_complete_table.
    destruct (_ || _)%bool; [split; exact Hrow |].
    rewrite !(update_where_lookup _ _ _ i t Hrow), Hout. split; reflexivity.
  - intros Hrole Hid Hq Hmatch.
    assert (Hin : technician_target req t = true).
    { unfold technician_target. fold role ticketId. rewrite Hrole, Hmatch. reflexivity. }
    rewrite technician_start_table, technician_complete_table.
    fold ticketId. rewrite Hid, Hq. cbn [negb orb].
    rewrite !(update_where_lookup _ _ _ i t Hrow), Hin. split; reflexivity.
Qed.

Lemma technician_scope_by_role_witness :
  let ticket := Demo.pune_ticket "Assigned" SqlNull in
  let s := Demo.store [ticket] in
  let outsider := set_user Demo.tech_mumbai
                    (Demo.post None (Some "tok-tech-mumbai") [("ticketId", JStr "1")]) in
  let admin := set_user Demo.admin_nagpur
                 (Demo.post None (Some "tok-admin-nagpur") [("ticketId", JStr "1")]) in
  tickets (snd (technician_start (H := Demo.world) outsider s)) !! 0%nat = Some ticket
  /\ tickets (snd (technician_start (H := Demo.world) admin s)) !! 0%nat
     = Some (started s ticket).
Proof.
  intros ticket s outsider admin.
  destruct (technician_scope_by_role (H := Demo.world) outsider s 0 ticket eq_refl)
    as [Hout _].
  destruct (technician_scope_by_role (H := Demo.world) admin s 0 ticket eq_refl)
    as [_ Hadmin].
  split.
  - apply Hout; reflexivity.
  - apply Hadmin; reflexivity.
Defined.

(** ** Order of the statuses *)

(** C3 as stated fails: a technician starts a ticket that is already
    Completed; the start succeeds and the status goes back to In Progress.
    Likewise a complete request succeeds on a ticket that is still Open. *)
Lemma start_reopens_completed_ticket :
  let req := Demo.post None (Some "tok-tech-pune") [("ticketId", JStr "1")] in
  let done := Demo.store [Demo.pune_ticket "Completed" (SqlDate 950)] in
  let restart := technician_start_route (H := Demo.world) req done in
  let finish := technician_complete_route (H := Demo.world) req Demo.initial in
  fst restart = Val (Redirect "/dashboard/technician")
  /\ map (fun t => status_rank (status t)) (tickets done) = [Some 3%nat]
  /\ map (fun t => status_rank (status t)) (tickets (snd restart)) = [Some 2%nat]
  /\ fst finish = Val (Redirect "/dashboard/technician")
  /\ map status (tickets Demo.initial) = [SqlText "Open"]
  /\ map status (tickets (snd finish)) = [SqlText "Completed"].
Proof. cbv zeta. repeat split; vm_compute; reflexivity. Qed.

(** C3 (amended). Start and complete do not look at the current status.
    When the store accepts the queries, a start request succeeds and sets
    every row it reaches to In Progress, and a complete request succeeds and
    sets it to Completed (through /technician/complete, and through
    /ticket/complete for every row with the requested id), whatever the
    status of the row was. *)
Theorem transitions_ignore_status `{Collaborators}
    (req : request) (s : state) (i : nat) (t : ticket) :
  tickets s !! i = Some t ->
  truthy (js_get (body req) "ticketId") = true ->
  query_rejects (queries s) = false ->
  query_rejects (S (queries s)) = false ->
  (technician_target req t = true ->
   fst (technician_start req s) = Val (Redirect "/dashboard/technician")
   /\ status <$> tickets (snd (technician_start req s)) !! i = Some (SqlText "In Progress")
   /\ fst (technician_complete req s) = Val (Redirect "/dashboard/technician")
   /\ status <$> tickets (snd (technician_complete req s)) !! i = Some (SqlText "Completed"))
  /\ (matches_id (bind_input (js_get (body req) "ticketId")) t = true ->
      fst (ticket_complete req s) = Val (Redirect "/dashboard/planner")
      /\ status <$> tickets (snd (ticket_complete req s)) !! i = Some (SqlText "Completed")).
Proof.
  intros Hrow Hid Hq1 Hq2. split.
  - intros Hin.
    rewrite technician_start_answer, technician_complete_answer by assumption.
    rewrite technician_start_table, technician_complete_table, Hid, Hq1.
    cbn [negb orb].
    rewrite !(update_where_lookup _ _ _ i t Hrow), Hin.
    repeat split.
  - intros Hmatch.
    destruct (ticket_complete_run req s Hid Hq1 Hq2) as [Hanswer Htable].
    rewrite Hanswer, Htable, (update_where_lookup _ _ _ i t Hrow), Hmatch.
    split; reflexivity.
Qed.

Lemma transitions_ignore_status_witness :
  let ticket := Demo.pune_ticket "Completed" (SqlDate 950) in
  let s := Demo.store [ticket] in
  let req := set_user Demo.tech_pune
               (Demo.post None (Some "tok-tech-pune") [("ticketId", JStr "1")]) in
  fst (technician_start (H := Demo.world) req s) = Val (Redirect "/dashboard/technician")
  /\ status <$> tickets (snd (technician_start (H := Demo.world) req s)) !! 0%nat
     = Some (SqlText "In Progress")
  /\ status <$> tickets (snd (ticket_complete (H := Demo.world) req s)) !! 0%nat
     = Some (SqlText "Completed").
Proof.
  intros ticket s req.
  destruct (transitions_ignore_status (H := Demo.world) req s 0 ticket)
    as [Htech Hplain]; try reflexivity.
  destruct Htech as (Hanswer & Hstatus & _); [reflexivity |].
  destruct Hplain as (_ & Hdone); [reflexivity |].
  repeat split; assumption.
Defined.

(** ** Completion time *)

Section CompletionTime.

Context `{Collaborators}.

Lemma update_where_Forall (P : ticket -> Prop) (cond : ticket -> bool)
    (f : ticket -> ticket) (rows : list ticket) :
  (forall t, P (f t)) -> Forall P rows -> Forall P (update_where cond f rows).
Proof.
  intros Hf Hrows. unfold update_where.
  induction Hrows as [| t rest Ht _ IH]; simpl; constructor; [| exact IH].
  destruct (cond t); [apply Hf | exact Ht].
Qed.

Lemma keeps_completion_time_trans (a b c : list ticket) :
  keeps_completion_time a b -> keeps_completion_time b c -> keeps_completion_time a c.
Proof. unfold keeps_completion_time. auto. Qed.

Lemma insert_keeps_completion_time :
  respects keeps_completion_time InsertTicket any_params.
Proof.
  intros params now rows nid _ Hrows. unfold rows_after. simpl.
  apply Forall_app. split; [exact Hrows |].
  constructor; [| constructor]. intros Hst. discriminate Hst.
Qed.

Lemma assign_keeps_completion_time (scoped : bool) :
  respects keeps_completion_time (UpdateAssign scoped) any_params.
Proof.
  intros params now rows nid _ Hrows. unfold rows_after. simpl.
  apply update_where_Forall; [| exact Hrows]. intros t Hst. discriminate Hst.
Qed.

Lemma start_keeps_completion_time (scoped : bool) :
  respects keeps_completion_time (UpdateStart scoped) start_params.
Proof.
  intros params now rows nid [tail ->] Hrows. unfold rows_after. simpl.
  apply update_where_Forall; [| exact Hrows]. intros t Hst. discriminate Hst.
Qed.

Lemma complete_keeps_completion_time (scoped : bool) :
  respects keeps_completion_time (UpdateCompleteNote scoped) any_params.
Proof.
  intros params now rows nid _ Hrows. unfold rows_after. simpl.
  apply update_where_Forall; [| exact Hrows]. intros t _. discriminate.
Qed.

Lemma perform_keeps_completion_time (o : operation) (req : request) :
  preserves keeps_completion_time (perform o req).
Proof.
  pose proof (fun rows (Hrows : Forall completed_has_time rows) => Hrows) as Hrefl.
  pose proof keeps_completion_time_trans as Htrans.
  assert (Hshared : forall roles,
    Forall (fun mw => forall r, preserves keeps_completion_time (mw r))
      [authenticateJWT; requireRole roles]).
  { intros roles. repeat constructor; intros r; auto with frame. }
  assert (Htech : forall roles,
    Forall (fun mw => forall r, preserves keeps_completion_time (mw r))
      [technician_authenticateJWT; requireRole roles]).
  { intros roles. repeat constructor; intros r; auto with frame. }
  destruct o; simpl; apply preserves_route; auto; intros r.
  - apply preserves_ticket_submit; auto using insert_keeps_completion_time.
  - apply preserves_ticket_assign; auto using assign_keeps_completion_time.
  - apply preserves_planner_assign; auto using assign_keeps_completion_time.
  - apply preserves_technician_start; auto using start_keeps_completion_time.
  - apply preserves_technician_complete; auto using complete_keeps_completion_time.
Qed.

End CompletionTime.

(** C4 as stated fails: a ticket is created, assigned, started and
    completed through /technician/complete, then started again; it is then
    In Progress and still carries its completion time. *)
Lemma completion_time_survives_restart :
  let submit := Demo.post None (Some "tok-user-pune")
                  [("category", JStr "Breakdown"); ("description", JStr "Fan stuck")] in
  let assign := Demo.post None (Some "tok-planner-pune")
                  [("ticketId", JStr "1"); ("executerId", JStr "T1")] in
  let work := Demo.post None (Some "tok-tech-pune")
                [("ticketId", JStr "1"); ("completion_note", JStr "Belt replaced")] in
  let s1 := snd (perform (H := Demo.world) Submit submit Demo.fresh) in
  let s2 := snd (perform (H := Demo.world) PlannerAssign assign s1) in
  let s3 := snd (perform (H := Demo.world) Start work s2) in
  let s4 := snd (perform (H := Demo.world) Complete work s3) in
  let s5 := snd (perform (H := Demo.world) Start work s4) in
  reachable (H := Demo.world) s5
  /\ map (fun t => (status t, completed_at t)) (tickets s4)
     = [(SqlText "Completed", SqlDate 1000)]
  /\ map (fun t => (status t, completed_at t)) (tickets s5)
     = [(SqlText "In Progress", SqlDate 1000)].
Proof.
  cbv zeta. split; [| split; vm_compute; reflexivity].
  do 5 apply reach_request. apply reach_empty. reflexivity.
Qed.

(** What /ticket/complete writes: the status, not the completion time. *)
Lemma ticket_complete_sets_no_completion_time :
  let req := Demo.post None (Some "tok-tech-pune") [("ticketId", JStr "1")] in
  let run := ticket_complete_route (H := Demo.world) req Demo.initial in
  fst run = Val (Redirect "/dashboard/planner")
  /\ map (fun t => (status t, completed_at t)) (tickets (snd run))
     = [(SqlText "Completed", SqlNull)].
Proof. cbv zeta. split; vm_compute; reflexivity. Qed.

(** C4 (amended). In every state reached from an empty table by create,
    assign, start and /technician/complete requests, a ticket whose status is
    Completed has a completion time; and a /technician/complete request that
    the store accepts sets, in every row it reaches, the status to Completed
    and the completion time to the current time. A completion time may
    outlive the Completed status, since assign and start accept a completed
    ticket. *)
Theorem completed_tickets_have_completion_time `{Collaborators} :
  (forall s t,
     reachable s -> t ∈ tickets s ->
     status t = SqlText "Completed" -> completed_at t <> SqlNull)
  /\ (forall req s i t,
        tickets s !! i = Some t ->
        technician_target req t = true ->
        truthy (js_get (body req) "ticketId") = true ->
        query_rejects (queries s) = false ->
        exists t',
          tickets (snd (technician_complete req s)) !! i = Some t'
          /\ status t' = SqlText "Completed"
          /\ completed_at t' = SqlDate (clock s)).
Proof.
  split.
  - intros s t Hreach.
    assert (Hall : Forall completed_has_time (tickets s)).
    { induction Hreach as [s Hempty | s o req _ IH | s s' _ IH Hsame].
      - rewrite Hempty. constructor.
      - apply (perform_keeps_completion_time o req s IH).
      - rewrite Hsame. exact IH. }
    intros Hin. rewrite Forall_forall in Hall. exact (Hall t Hin).
  - intros req s i t Hrow Hin Hid Hq.
    exists (completed req s t).
    rewrite technician_complete_table, Hid, Hq. cbn [negb orb].
    rewrite (update_where_lookup _ _ _ i t Hrow), Hin. repeat split.
Qed.

Lemma completed_tickets_have_completion_time_witness :
  let ticket := Demo.pune_ticket "In Progress" SqlNull in
  let s := Demo.store [ticket] in
  let req := set_user Demo.tech_pune
               (Demo.post None (Some "tok-tech-pune")
                  [("ticketId", JStr "1"); ("completion_note", JStr "Belt replaced")]) in
  let submit := Demo.post None (Some "tok-user-pune")
                  [("category", JStr "Breakdown"); ("description", JStr "Fan stuck")] in
  let work := Demo.post None (Some "tok-tech-pune")
                [("ticketId", JStr "1"); ("completion_note", JStr "Belt replaced")] in
  let s1 := snd (perform (H := Demo.world) Submit submit Demo.fresh) in
  let s2 := snd (perform (H := Demo.world) Complete work s1) in
  (exists t',
     tickets (snd (technician_complete (H := Demo.world) req s)) !! 0%nat = Some t'
     /\ status t' = SqlText "Completed"
     /\ completed_at t' = SqlDate 1000)
  /\ (forall t, t ∈ tickets s2 -> completed_at t <> SqlNull).
Proof.
  intros ticket s req submit work s1 s2.
  destruct (completed_tickets_have_completion_time (H := Demo.world)) as [Hinv Hsets].
  split.
  - apply (Hsets req s 0%nat ticket); reflexivity.
  - intros t Hin. apply (Hinv s2 t).
    + do 2 apply reach_request. apply reach_empty. reflexivity.
    + exact Hin.
    + vm_compute in Hin. apply list_elem_of_singleton in Hin. rewrite Hin. reflexivity.
Defined.

(** * Further properties *)

(** ** The subscription registry *)

Section Subscriptions.

Context `{Collaborators}.

Lemma js_get_opt_total (v : jsval) (k : string) : js_get_opt v k = js_get v k.
Proof. destruct v; reflexivity. Qed.

Lemma strict_eq_string (e : string) : strict_eq (JStr e) (JStr e) = true.
Proof. simpl. apply String.eqb_refl. Qed.

(** What an accepted subscription request does. *)
Lemma subscribe_run (req : request) (s : state) :
  truthy (js_get_opt (user req) "globalId") = true ->
  let userId := js_get (user req) "globalId" in
  let subs := default [] (registry_entry (subscriptionsPerUser s) userId) in
  let known := existsb (fun sub => strict_eq (js_get sub "endpoint")
                                     (js_get (body req) "endpoint")) subs in
  exists s',
    notifications_subscribe req s
    = (Val (SendJson 201 (JObj [("success", JBool true)])), s')
    /\ subscriptionsPerUser s'
       = <[to_string userId := if known then subs else (subs ++ [body req])%list]>
           (subscriptionsPerUser s)
    /\ tickets s' = tickets s /\ next_id s' = next_id s
    /\ pushes s' = pushes s /\ queries s' = queries s.
Proof.
  intros Hgid. cbv zeta. unfold notifications_subscribe. rewrite Hgid.
  cbn [negb]. cbv zeta.
  set (userId := js_get (user req) "globalId").
  set (key := to_string userId).
  assert (Hensure : exists s1,
            ensure_entry userId s = (Val tt, s1)
            /\ subscriptionsPerUser s1 !! key
               = Some (default [] (subscriptionsPerUser s !! key))
            /\ <[key := default [] (subscriptionsPerUser s !! key)]> (subscriptionsPerUser s)
               = subscriptionsPerUser s1
            /\ tickets s1 = tickets s /\ next_id s1 = next_id s
            /\ pushes s1 = pushes s /\ queries s1 = queries s).
  { unfold ensure_entry, registry_entry. fold key.
    destruct (subscriptionsPerUser s !! key) as [subs |] eqn:Hentry.
    - exists s. repeat split; [exact Hentry | apply insert_id; exact Hentry].
    - eexists. split; [reflexivity |]. cbn. rewrite lookup_insert_eq. repeat split. }
  destruct Hensure as (s1 & Hrun1 & Hentry1 & Hreg1 & Ht1 & Hn1 & Hp1 & Hq1).
  unfold registry_entry. fold key.
  set (subs := default [] (subscriptionsPerUser s !! key)) in *.
  unfold try_catch. erewrite bind_val by exact Hrun1.
  unfold bind at 1. unfold endpoint_registered. unfold registry_entry. fold key.
  rewrite Hentry1.
  change (default [] (Some subs)) with subs.
  destruct (existsb _ subs) eqn:Hknown; cbn [negb].
  - unfold bind, console_log, ret. eexists. split; [reflexivity |]. cbn.
    repeat split; try assumption. rewrite <- Hreg1. reflexivity.
  - unfold bind, push_subscription, console_log, ret, registry_entry. fold key.
    eexists. split; [reflexivity |]. cbn. rewrite Hentry1.
    change (default [] (Some subs)) with subs.
    repeat split; try assumption.
    rewrite <- Hreg1. apply insert_insert_eq.
Qed.

Lemma subscribe_rejected (req : request) (s : state) :
  truthy (js_get_opt (user req) "globalId") = false ->
  notifications_subscribe req s
  = (Val (SendJson 401 (JObj [("error", JStr "Unauthorized: Please log in.")])), s).
Proof. intros Hgid. unfold notifications_subscribe. rewrite Hgid. reflexivity. Qed.

Lemma known_endpoint (subs : list jsval) (endpoint : jsval) :
  existsb (fun sub => strict_eq (js_get sub "endpoint") endpoint) subs = true <->
  exists sub, sub ∈ subs /\ strict_eq (js_get sub "endpoint") endpoint = true.
Proof.
  rewrite existsb_exists. split; intros (sub & Hin & Heq); exists sub;
    (split; [apply list_elem_of_In; exact Hin | exact Heq]).
Qed.

Lemma strict_eq_to_string (v : jsval) (e : string) :
  strict_eq v (JStr e) = true <-> v = JStr e.
Proof.
  destruct v; simpl; try (split; [discriminate | discriminate]).
  rewrite String.eqb_eq. split; congruence.
Qed.

Lemma string_endpoints_app (l1 l2 : list jsval) :
  string_endpoints (l1 ++ l2) = (string_endpoints l1 ++ string_endpoints l2)%list.
Proof. unfold string_endpoints. apply omap_app. Qed.

Lemma string_endpoint_known (subs : list jsval) (e : string) :
  e ∈ string_endpoints subs <->
  existsb (fun sub => strict_eq (js_get sub "endpoint") (JStr e)) subs = true.
Proof.
  rewrite known_endpoint. unfold string_endpoints. rewrite list_elem_of_omap.
  split; intros (sub & Hin & Hsub); exists sub; (split; [exact Hin |]).
  - destruct (js_get sub "endpoint"); try discriminate.
    injection Hsub as ->. apply strict_eq_string.
  - apply strict_eq_to_string in Hsub. rewrite Hsub. reflexivity.
Qed.

End Subscriptions.

(** X1. Registering is idempotent: after a subscription request with a
    string endpoint, a second request by the same identity with the same
    endpoint leaves the registry as the first request left it, whatever the
    rest of the two bodies. *)
Theorem subscribe_same_endpoint_once
    (first second : request) (e : string) (s : state) :
  truthy (js_get_opt (user first) "globalId") = true ->
  js_get (user second) "globalId" = js_get (user first) "globalId" ->
  js_get (body first) "endpoint" = JStr e ->
  js_get (body second) "endpoint" = JStr e ->
  subscriptionsPerUser
    (snd (notifications_subscribe second (snd (notifications_subscribe first s))))
  = subscriptionsPerUser (snd (notifications_subscribe first s)).
Proof.
  intros Hgid Hsame He1 He2.
  assert (Hgid2 : truthy (js_get_opt (user second) "globalId") = true).
  { rewrite js_get_opt_total in *. rewrite Hsame. exact Hgid. }
  destruct (subscribe_run first s Hgid) as (s1 & Hrun1 & Hreg1 & _).
  rewrite Hrun1. cbn [snd].
  destruct (subscribe_run second s1 Hgid2) as (s2 & Hrun2 & Hreg2 & _).
  rewrite Hrun2. cbn [snd].
  rewrite He1 in Hreg1. rewrite Hsame, He2 in Hreg2.
  set (subs := default [] (registry_entry (subscriptionsPerUser s)
                             (js_get (user first) "globalId"))) in *.
  set (known := fun sub => strict_eq (js_get sub "endpoint") (JStr e)) in *.
  set (stored := if existsb known subs then subs else (subs ++ [body first])%list) in *.
  assert (Hstored : existsb known stored = true).
  { unfold stored. destruct (existsb known subs) eqn:Hk; [exact Hk |].
    rewrite existsb_app. simpl. unfold known at 2. rewrite He1, strict_eq_string.
    rewrite orb_true_r. reflexivity. }
  assert (Hentry : registry_entry (subscriptionsPerUser s1)
                     (js_get (user first) "globalId") = Some stored).
  { unfold registry_entry. rewrite Hreg1. apply lookup_insert_eq. }
  rewrite Hentry in Hreg2. change (default [] (Some stored)) with stored in Hreg2.
  rewrite Hstored in Hreg2.
  rewrite Hreg2, Hreg1. apply insert_insert_eq.
Qed.

Lemma subscribe_same_endpoint_once_witness :
  let first := set_user Demo.tech_mumbai
                 (Demo.post None None [("endpoint", JStr "https://push.example/t2");
                                       ("keys", JObj [("auth", JStr "k1")])]) in
  let second := set_user Demo.tech_mumbai
                  (Demo.post None None [("endpoint", JStr "https://push.example/t2");
                                        ("keys", JObj [("auth", JStr "k2")])]) in
  subscriptionsPerUser
    (snd (notifications_subscribe second
            (snd (notifications_subscribe first Demo.initial))))
  !! "T2"
  = Some [body first].
Proof.
  intros first second.
  rewrite (subscribe_same_endpoint_once first second
             "https://push.example/t2" Demo.initial);
    [vm_compute; reflexivity | reflexivity ..].
Defined.

(** X2. For an identity that has never registered, two requests with
    different string endpoints store both subscriptions, in the order of
    arrival. *)
Theorem subscribe_two_endpoints
    (first second : request) (e1 e2 : string) (s : state) :
  truthy (js_get_opt (user first) "globalId") = true ->
  js_get (user second) "globalId" = js_get (user first) "globalId" ->
  registry_entry (subscriptionsPerUser s) (js_get (user first) "globalId") = None ->
  js_get (body first) "endpoint" = JStr e1 ->
  js_get (body second) "endpoint" = JStr e2 ->
  e1 <> e2 ->
  registry_entry
    (subscriptionsPerUser
       (snd (notifications_subscribe second (snd (notifications_subscribe first s)))))
    (js_get (user first) "globalId")
  = Some [body first; body second].
Proof.
  intros Hgid Hsame Hnew He1 He2 Hne.
  assert (Hgid2 : truthy (js_get_opt (user second) "globalId") = true).
  { rewrite js_get_opt_total in *. rewrite Hsame. exact Hgid. }
  destruct (subscribe_run first s Hgid) as (s1 & Hrun1 & Hreg1 & _).
  rewrite Hrun1. cbn [snd].
  destruct (subscribe_run second s1 Hgid2) as (s2 & Hrun2 & Hreg2 & _).
  rewrite Hrun2. cbn [snd].
  rewrite Hnew in Hreg1. cbn [default existsb app] in Hreg1.
  assert (Hentry : registry_entry (subscriptionsPerUser s1)
                     (js_get (user first) "globalId") = Some [body first]).
  { unfold registry_entry. rewrite Hreg1. apply lookup_insert_eq. }
  rewrite Hsame, Hentry, He2 in Hreg2.
  change (default [] (Some [body first])) with [body first] in Hreg2.
  cbn [existsb] in Hreg2. rewrite He1 in Hreg2. cbn [strict_eq orb app] in Hreg2.
  apply String.eqb_neq in Hne. rewrite Hne in Hreg2.
  unfold registry_entry. rewrite Hreg2. apply lookup_insert_eq.
Qed.

Lemma subscribe_two_endpoints_witness :
  let first := set_user Demo.tech_mumbai
                 (Demo.post None None [("endpoint", JStr "https://push.example/t2-phone")]) in
  let second := set_user Demo.tech_mumbai
                  (Demo.post None None [("endpoint", JStr "https://push.example/t2-desk")]) in
  registry_entry
    (subscriptionsPerUser
       (snd (notifications_subscribe second
               (snd (notifications_subscribe first Demo.initial)))))
    (JStr "T2")
  = Some [body first; body second].
Proof.
  intros first second.
  apply (subscribe_two_endpoints first second
           "https://push.example/t2-phone" "https://push.example/t2-desk" Demo.initial);
    try reflexivity.
  discriminate.
Defined.

(** X3. The registry never holds the same string endpoint twice for one
    identity: if that is so before a subscription request, whoever sends it
    and whatever its body, it is so after it. *)
Theorem subscribe_keeps_endpoints_distinct (req : request) (s : state) :
  (forall owner subs,
     subscriptionsPerUser s !! owner = Some subs -> NoDup (string_endpoints subs)) ->
  forall owner subs,
    subscriptionsPerUser (snd (notifications_subscribe req s)) !! owner = Some subs ->
    NoDup (string_endpoints subs).
Proof.
  intros Hinv owner subs.
  destruct (truthy (js_get_opt (user req) "globalId")) eqn:Hgid.
  - destruct (subscribe_run req s Hgid) as (s' & Hrun & Hreg & _).
    rewrite Hrun. cbn [snd]. rewrite Hreg. clear Hrun Hreg.
    unfold registry_entry.
    set (key := to_string (js_get (user req) "globalId")).
    assert (Hold : NoDup (string_endpoints (default [] (subscriptionsPerUser s !! key)))).
    { destruct (subscriptionsPerUser s !! key) as [old |] eqn:Hentry.
      - exact (Hinv key old Hentry).
      - constructor. }
    set (old := default [] (subscriptionsPerUser s !! key)) in *.
    destruct (decide (key = owner)) as [<- | Hne].
    + rewrite lookup_insert_eq. intros [= <-].
      destruct (existsb _ old) eqn:Hknown; [exact Hold |].
      rewrite string_endpoints_app. unfold string_endpoints at 2. simpl.
      destruct (js_get (body req) "endpoint") as [| | | | e | |] eqn:He;
        rewrite ?app_nil_r; try exact Hold.
      apply NoDup_app. repeat split; [exact Hold | | apply NoDup_singleton].
      intros x Hx Hin. apply list_elem_of_singleton in Hin. subst x.
      apply string_endpoint_known in Hx. congruence.
    + rewrite lookup_insert_ne by exact Hne. apply Hinv.
  - rewrite subscribe_rejected by exact Hgid. apply Hinv.
Qed.

Lemma subscribe_keeps_endpoints_distinct_witness :
  let req := set_user Demo.user_pune
               (Demo.post None None [("endpoint", JStr "https://push.example/u1-phone")]) in
  exists subs,
    subscriptionsPerUser (snd (notifications_subscribe req Demo.initial)) !! "U1"
    = Some subs
    /\ NoDup (string_endpoints subs).
Proof.
  intros req.
  destruct (subscriptionsPerUser (snd (notifications_subscribe req Demo.initial)) !! "U1")
    as [subs |] eqn:Hafter; [| vm_compute in Hafter; discriminate Hafter].
  exists subs. split; [reflexivity |].
  apply (subscribe_keeps_endpoints_distinct req Demo.initial) with (owner := "U1");
    [| exact Hafter].
  intros owner before. unfold Demo.initial, Demo.store, Demo.registry.
  cbn [subscriptionsPerUser].
  intros Hentry. apply lookup_insert_Some in Hentry as [[_ <-] | [_ Hentry]].
  - apply (bool_decide_unpack _). vm_compute. exact I.
  - apply lookup_insert_Some in Hentry as [[_ <-] | [_ Hentry]].
    + apply (bool_decide_unpack _). vm_compute. exact I.
    + rewrite lookup_empty in Hentry. discriminate.
Defined.

(** X4. A subscription request only ever appends: every identity keeps
    the subscriptions it had, in the same order, and the tickets table and
    the push log are untouched. A request whose payload carries no globalId
    is answered 401 and leaves the whole state as it was. *)
Theorem subscribe_only_appends (req : request) (s : state) :
  (forall owner subs,
     subscriptionsPerUser s !! owner = Some subs ->
     exists more,
       subscriptionsPerUser (snd (notifications_subscribe req s)) !! owner
       = Some (subs ++ more)%list)
  /\ tickets (snd (notifications_subscribe req s)) = tickets s
  /\ pushes (snd (notifications_subscribe req s)) = pushes s
  /\ (truthy (js_get_opt (user req) "globalId") = false ->
      notifications_subscribe req s
      = (Val (SendJson 401 (JObj [("error", JStr "Unauthorized: Please log in.")])), s)).
Proof.
  destruct (truthy (js_get_opt (user req) "globalId")) eqn:Hgid.
  - destruct (subscribe_run req s Hgid) as (s' & Hrun & Hreg & Ht & _ & Hp & _).
    rewrite Hrun. cbn [snd]. repeat split; try assumption; [| discriminate].
    intros owner subs Hentry. unfold registry_entry in Hreg.
    set (key := to_string (js_get (user req) "globalId")) in *.
    destruct (decide (key = owner)) as [<- | Hne].
    + rewrite Hentry in Hreg. change (default [] (Some subs)) with subs in Hreg.
      rewrite Hreg, lookup_insert_eq.
      match goal with |- context [existsb ?f subs] => destruct (existsb f subs) end.
      * exists []. rewrite app_nil_r. reflexivity.
      * exists [body req]. reflexivity.
    + rewrite Hreg, lookup_insert_ne by exact Hne.
      exists []. rewrite app_nil_r. exact Hentry.
  - rewrite subscribe_rejected by exact Hgid. cbn [snd]. repeat split.
    intros owner subs Hentry. exists []. rewrite app_nil_r. exact Hentry.
Qed.

Lemma subscribe_only_appends_witness :
  let req := set_user Demo.user_pune
               (Demo.post None None [("endpoint", JStr "https://push.example/u1-tablet")]) in
  let anonymous := Demo.post None None [("endpoint", JStr "https://push.example/x")] in
  (exists more,
     subscriptionsPerUser (snd (notifications_subscribe req Demo.initial)) !! "T1"
     = Some ([Demo.endpoint "https://push.example/t1"] ++ more)%list)
  /\ snd (notifications_subscribe anonymous Demo.initial) = Demo.initial.
Proof.
  intros req anonymous.
  destruct (subscribe_only_appends req Demo.initial) as (Hkeep & _).
  destruct (subscribe_only_appends anonymous Demo.initial) as (_ & _ & _ & Hanon).
  split.
  - apply Hkeep. vm_compute. reflexivity.
  - rewrite Hanon; reflexivity.
Defined.

(** X5. Registration and dispatch compose: once a subscription request
    with a string endpoint has been accepted, a notification to that
    identity attempts a delivery to a subscription with that endpoint. *)
Theorem subscriber_is_notified `{Collaborators}
    (req : request) (e message : string) (s : state) :
  truthy (js_get_opt (user req) "globalId") = true ->
  js_get (body req) "endpoint" = JStr e ->
  exists sub,
    js_get sub "endpoint" = JStr e
    /\ (sub, notification message)
       ∈ pushes (snd (sendNotificationToUser message (js_get (user req) "globalId")
                        (snd (notifications_subscribe req s)))).
Proof.
  intros Hgid He.
  destruct (subscribe_run req s Hgid) as (s' & Hrun & Hreg & _).
  rewrite Hrun. cbn [snd]. rewrite He in Hreg.
  set (userId := js_get (user req) "globalId") in *.
  set (subs := default [] (registry_entry (subscriptionsPerUser s) userId)) in *.
  set (known := fun sub => strict_eq (js_get sub "endpoint") (JStr e)) in *.
  set (stored := if existsb known subs then subs else (subs ++ [body req])%list) in *.
  assert (Hentry : registry_entry (subscriptionsPerUser s') userId = Some stored).
  { unfold registry_entry. rewrite Hreg. apply lookup_insert_eq. }
  assert (Hsub : exists sub, sub ∈ stored /\ js_get sub "endpoint" = JStr e).
  { unfold stored. destruct (existsb known subs) eqn:Hknown.
    - apply known_endpoint in Hknown as (sub & Hin & Heq).
      exists sub. split; [exact Hin | apply strict_eq_to_string; exact Heq].
    - exists (body req). split; [set_solver | exact He]. }
  destruct Hsub as (sub & Hin & Hendpoint). exists sub. split; [exact Hendpoint |].
  unfold sendNotificationToUser. rewrite Hentry.
  change (default [] (Some stored)) with stored.
  destruct (deliver_all stored (notification message)
              (fun err => "Failed to send notification to "
                          +:+ to_string userId +:+ ": " +:+ err) s')
    as (s2 & Hdeliver & Hpushes & _).
  rewrite Hdeliver. cbn [snd]. rewrite Hpushes.
  apply elem_of_app. right.
  apply (list_elem_of_fmap_2 (fun sub => (sub, notification message))). exact Hin.
Qed.

Lemma subscriber_is_notified_witness :
  let req := set_user Demo.tech_mumbai
               (Demo.post None None [("endpoint", JStr "https://push.example/t2")]) in
  exists sub,
    js_get sub "endpoint" = JStr "https://push.example/t2"
    /\ (sub, notification "hello")
       ∈ pushes (snd (sendNotificationToUser (H := Demo.world) "hello" (JStr "T2")
                        (snd (notifications_subscribe req Demo.initial)))).
Proof.
  intros req.
  apply (subscriber_is_notified (H := Demo.world) req "https://push.example/t2" "hello"
           Demo.initial); reflexivity.
Defined.

(** ** The answers of the transitions *)

Section Answers.

Context `{Collaborators}.
Variable P : response -> Prop.

Lemma yields_ret (res : response) : P res -> yields P (ret res).
Proof. intros Hres s. exact Hres. Qed.

Lemma yields_bind {A} (m : M A) (k : A -> M response) :
  (forall a, yields P (k a)) -> yields P (bind m k).
Proof.
  intros Hk s. unfold bind. destruct (m s) as [[a | e] s1]; [apply Hk | exact I].
Qed.

Lemma yields_js_get_strict (v : jsval) (key : string) (k : jsval -> M response) :
  (forall a, yields P (k a)) -> yields P (bind (js_get_strict v key) k).
Proof. apply yields_bind. Qed.

(** What [db.query] resolves to for an UPDATE or INSERT: no record set. *)
Lemma yields_after_write (q : statement) (params : list jsval)
    (k : jsval -> M response) :
  q <> SelectOwner ->
  (forall n, yields P (k (JArr [JUndefined; driver_result JUndefined n]))) ->
  yields P (bind (db_query q params) k).
Proof.
  intros Hq Hk s. unfold bind, db_query.
  destruct (query_rejects (queries s)); [exact I |].
  destruct q; try contradiction; cbn [execute]; apply Hk.
Qed.

(** What it resolves to for the SELECT: the rows, then the driver result. *)
Lemma yields_after_select (params : list jsval) (k : jsval -> M response) :
  (forall rows n, yields P (k (JArr [JArr rows; driver_result (JArr rows) n]))) ->
  yields P (bind (db_query SelectOwner params) k).
Proof.
  intros Hk s. unfold bind, db_query.
  destruct (query_rejects (queries s)); [exact I |].
  cbn [execute]. apply Hk.
Qed.

Lemma answers_try_catch (body : M response) (handler : string -> M response) :
  yields P body -> (forall e, answers P (handler e)) ->
  answers P (try_catch body handler).
Proof.
  intros Hbody Hhandler s. unfold try_catch. specialize (Hbody s).
  destruct (body s) as [[res | e] s1]; cbn [fst] in *.
  - exists res. split; [reflexivity | exact Hbody].
  - apply Hhandler.
Qed.

Lemma answers_logged (line : string) (res : response) :
  P res -> answers P (bind (console_log line) (fun _ => ret res)).
Proof. intros Hres s. exists res. split; [reflexivity | exact Hres]. Qed.

End Answers.

Section TransitionAnswers.

Context `{Collaborators}.

Ltac settle :=
  first [ apply yields_ret; first [left; reflexivity | right; reflexivity]
        | apply answers_logged; first [left; reflexivity | right; reflexivity] ].

Lemma ticket_assign_answers (req : request) :
  lacks_assignment req = false -> answers error_or_redirect (ticket_assign req).
Proof.
  unfold lacks_assignment, ticket_assign. intros ->.
  apply answers_try_catch; [| intros e; settle].
  apply yields_after_write; [discriminate |]. intros n.
  cbn. apply yields_bind. intros _. settle.
Qed.

Lemma planner_assign_answers (req : request) :
  lacks_assignment req = false -> answers error_or_redirect (planner_assign req).
Proof.
  unfold lacks_assignment, planner_assign. intros ->.
  apply answers_try_catch; [| intros e; settle].
  cbv zeta. apply yields_after_write; [discriminate |]. intros n.
  cbn. apply yields_bind. intros _. settle.
Qed.

Lemma ticket_complete_answers (req : request) :
  lacks_ticket req = false -> answers error_or_redirect (ticket_complete req).
Proof.
  unfold lacks_ticket, ticket_complete. intros ->.
  apply answers_try_catch; [| intros e; settle].
  apply yields_after_select. intros rows n.
  cbn. apply yields_bind. intros owner.
  apply yields_bind. intros _. apply yields_bind. intros _. settle.
Qed.

Lemma technician_start_answers (req : request) :
  lacks_ticket req = false -> answers error_or_redirect (technician_start req).
Proof.
  unfold lacks_ticket, technician_start. intros ->.
  apply answers_try_catch; [| intros e; settle].
  cbv zeta. apply yields_after_write; [discriminate |]. intros n.
  cbn. apply yields_bind. intros answer. apply yields_bind. intros _. settle.
Qed.

Lemma technician_complete_answers (req : request) :
  lacks_ticket req = false -> answers error_or_redirect (technician_complete req).
Proof.
  unfold lacks_ticket, technician_complete. intros ->.
  apply answers_try_catch; [| intros e; settle].
  cbv zeta. apply yields_after_write; [discriminate |]. intros n.
  cbn. apply yields_bind. intros answer. apply yields_bind. intros _. settle.
Qed.

End TransitionAnswers.

(** X6. Each of the five transition handlers always answers, and never
    with 404: a request lacking a required id is answered 400 with the state
    untouched, and every other request is answered 500 or redirected. The
    tests for zero affected rows read the pair that [db.query] returns, in
    which the count is not where they look for it. *)
Theorem transitions_answer_400_500_or_redirect `{Collaborators}
    (req : request) (s : state) :
  answers_like (lacks_assignment req) "Missing ticketId or executerId"
    (ticket_assign req s) s
  /\ answers_like (lacks_assignment req) "Missing ticketId or executerId"
       (planner_assign req s) s
  /\ answers_like (lacks_ticket req) "Missing ticketId" (ticket_complete req s) s
  /\ answers_like (lacks_ticket req) "Missing ticketId" (technician_start req s) s
  /\ answers_like (lacks_ticket req) "Missing ticketId" (technician_complete req s) s.
Proof.
  unfold answers_like. repeat split.
  - destruct (lacks_assignment req) eqn:Hlack;
      [| apply ticket_assign_answers; exact Hlack].
    unfold lacks_assignment in Hlack. unfold ticket_assign. rewrite Hlack. reflexivity.
  - destruct (lacks_assignment req) eqn:Hlack;
      [| apply planner_assign_answers; exact Hlack].
    unfold lacks_assignment in Hlack. unfold planner_assign. rewrite Hlack. reflexivity.
  - destruct (lacks_ticket req) eqn:Hlack;
      [| apply ticket_complete_answers; exact Hlack].
    unfold lacks_ticket in Hlack. unfold ticket_complete. rewrite Hlack. reflexivity.
  - destruct (lacks_ticket req) eqn:Hlack;
      [| apply technician_start_answers; exact Hlack].
    unfold lacks_ticket in Hlack. unfold technician_start. rewrite Hlack. reflexivity.
  - destruct (lacks_ticket req) eqn:Hlack;
      [| apply technician_complete_answers; exact Hlack].
    unfold lacks_ticket in Hlack. unfold technician_complete. rewrite Hlack. reflexivity.
Qed.

(** ** Failures of the store *)

Section StoreFailures.

Context `{Collaborators}.

Lemma rejected_first_query (q : statement) (params : list jsval)
    (K : jsval -> M response) (line : string) (res : response) (s : state) :
  query_rejects (queries s) = true ->
  try_catch (bind (db_query q params) K)
    (fun err => bind (console_log (line +:+ err)) (fun _ => ret res)) s
  = (Val res, add_console (line +:+ "RequestError") (count_query s)).
Proof.
  intros Hq. unfold try_catch, bind, db_query. rewrite Hq. reflexivity.
Qed.

End StoreFailures.

(** X7. A failure of the store is reported, never passed off as success:
    when the store rejects the first statement of a transition that has its
    ids, the answer is the route's error answer (500, or the error redirect
    of /ticket/submit), the table is as it was and no delivery is attempted. *)
Theorem store_failure_is_reported `{Collaborators} (req : request) (s : state) :
  query_rejects (queries s) = true ->
  let unchanged (run : outcome response * state) :=
    tickets (snd run) = tickets s /\ pushes (snd run) = pushes s in
  (truthy (js_get_opt (user req) "globalId") = true ->
   facility_fields_missing req = false ->
   fst (ticket_submit req s)
   = Val (Redirect "/dashboard/user?error=Failed%20to%20submit%20ticket.")
   /\ unchanged (ticket_submit req s))
  /\ (lacks_assignment req = false ->
      fst (ticket_assign req s) = Val (Send 500 "❌ Failed to assign technician.")
      /\ unchanged (ticket_assign req s)
      /\ fst (planner_assign req s) = Val (Send 500 "❌ Failed to assign technician.")
      /\ unchanged (planner_assign req s))
  /\ (lacks_ticket req = false ->
      fst (ticket_complete req s) = Val (Send 500 "❌ Failed to complete ticket.")
      /\ unchanged (ticket_complete req s)
      /\ fst (technician_start req s) = Val (Send 500 "Error starting the ticket.")
      /\ unchanged (technician_start req s)
      /\ fst (technician_complete req s) = Val (Send 500 "Internal Server Error")
      /\ unchanged (technician_complete req s)).
Proof.
  intros Hq unchanged. unfold unchanged. split; [| split].
  - intros Hgid Hvalid. rewrite ticket_submit_run, Hgid, Hvalid, Hq. repeat split.
  - intros Hlack. unfold lacks_assignment in Hlack.
    unfold ticket_assign, planner_assign. rewrite Hlack. cbv zeta.
    rewrite !rejected_first_query by exact Hq. repeat split.
  - intros Hlack. unfold lacks_ticket in Hlack.
    unfold ticket_complete, technician_start, technician_complete.
    rewrite Hlack. cbv zeta.
    rewrite !rejected_first_query by exact Hq. repeat split.
Qed.

Lemma store_failure_is_reported_witness :
  let req := set_user Demo.tech_pune
               (Demo.post None (Some "tok-tech-pune")
                  [("ticketId", JStr "1"); ("executerId", JStr "T1")]) in
  fst (technician_start (H := Scenario.offline) req Demo.initial)
  = Val (Send 500 "Error starting the ticket.")
  /\ tickets (snd (ticket_assign (H := Scenario.offline) req Demo.initial))
     = tickets Demo.initial.
Proof.
  intros req.
  destruct (store_failure_is_reported (H := Scenario.offline) req Demo.initial)
    as (_ & Hassign & Hticket); [reflexivity |].
  destruct Hassign as (_ & [Htable _] & _); [reflexivity |].
  destruct Hticket as (_ & _ & Hstart & _); [reflexivity |].
  split; [exact Hstart | exact Htable].
Defined.

Section PartialFailure.

Context `{Collaborators}.

Lemma technician_start_half_done (req : request) (s : state) :
  lacks_ticket req = false ->
  query_rejects (queries s) = false ->
  query_rejects (S (queries s)) = true ->
  fst (technician_start req s) = Val (Send 500 "Error starting the ticket.")
  /\ pushes (snd (technician_start req s)) = pushes s.
Proof.
  unfold lacks_ticket. intros Hid Hq1 Hq2. unfold technician_start. rewrite Hid. cbv zeta.
  unfold try_catch, bind, db_query. cbv beta iota. rewrite Hq1.
  cbn [negb execute]. cbv beta iota zeta.
  cbn [js_index nth getAffectedCount truthy negb is_zero_count typeof_number andb
       queries set_tickets count_query].
  rewrite Hq2. split; reflexivity.
Qed.

Lemma technician_complete_half_done (req : request) (s : state) :
  lacks_ticket req = false ->
  query_rejects (queries s) = false ->
  query_rejects (S (queries s)) = true ->
  fst (technician_complete req s) = Val (Send 500 "Internal Server Error")
  /\ pushes (snd (technician_complete req s)) = pushes s.
Proof.
  unfold lacks_ticket. intros Hid Hq1 Hq2. unfold technician_complete. rewrite Hid. cbv zeta.
  unfold try_catch, bind, db_query. cbv beta iota. rewrite Hq1.
  cbn [negb execute]. cbv beta iota zeta.
  cbn [js_index nth getAffectedCount truthy negb is_zero_count typeof_number andb
       queries set_tickets count_query].
  rewrite Hq2. split; reflexivity.
Qed.

End PartialFailure.

(** X8. Start and complete of routes/technician.js are not atomic: when
    the store accepts the UPDATE and rejects the SELECT that follows it, the
    request is answered 500 and nobody is notified, although every ticket the
    request reaches has been started (or completed). *)
Theorem start_and_complete_are_not_atomic `{Collaborators}
    (req : request) (s : state) :
  lacks_ticket req = false ->
  query_rejects (queries s) = false ->
  query_rejects (S (queries s)) = true ->
  (fst (technician_start req s) = Val (Send 500 "Error starting the ticket.")
   /\ tickets (snd (technician_start req s))
      = update_where (technician_target req) (started s) (tickets s)
   /\ pushes (snd (technician_start req s)) = pushes s)
  /\ (fst (technician_complete req s) = Val (Send 500 "Internal Server Error")
      /\ tickets (snd (technician_complete req s))
         = update_where (technician_target req) (completed req s) (tickets s)
      /\ pushes (snd (technician_complete req s)) = pushes s).
Proof.
  intros Hid Hq1 Hq2.
  destruct (technician_start_half_done req s Hid Hq1 Hq2) as [Hs1 Hs2].
  destruct (technician_complete_half_done req s Hid Hq1 Hq2) as [Hc1 Hc2].
  rewrite technician_start_table, technician_complete_table.
  unfold lacks_ticket in Hid. rewrite Hid, Hq1. cbn [orb].
  repeat split; assumption.
Qed.

Lemma start_and_complete_are_not_atomic_witness :
  let req := set_user Demo.tech_pune
               (Demo.post None (Some "tok-tech-pune") [("ticketId", JStr "1")]) in
  fst (technician_start (H := Scenario.flaky) req Demo.initial)
  = Val (Send 500 "Error starting the ticket.")
  /\ map status (tickets (snd (technician_start (H := Scenario.flaky) req Demo.initial)))
     = [SqlText "In Progress"].
Proof.
  intros req.
  destruct (start_and_complete_are_not_atomic (H := Scenario.flaky) req Demo.initial)
    as ((Hanswer & Htable & _) & _); try reflexivity.
  split; [exact Hanswer |]. rewrite Htable. vm_compute. reflexivity.
Defined.

(** ** Guards *)

Section Guards.

Context `{Collaborators}.

(** The technician routes: their own authenticator, then requireRole. *)
Lemma route_technician (roles : list string) (handler : request -> M response)
    (req : request) (s : state) (u : jsval) :
  truthy (cookie_first_token req) = true ->
  verify (cookie_first_token req) = Some u ->
  route [technician_authenticateJWT; requireRole roles] handler req s =
    if negb (truthy u) then
      (Val (SendJson 401
              (JObj [("message", JStr "Unauthorized: No user found in request")])), s)
    else if negb (includes roles (userRole u)) then
      (Val (SendJson 403
              (JObj [("message", JStr "❌ Access Denied: Insufficient role")])), s)
    else handler (set_user u req) s.
Proof.
  intros Htoken Hverify. simpl.
  unfold technician_authenticateJWT, requireRole, bind, ret.
  rewrite Htoken, Hverify. simpl.
  destruct (negb (truthy u)); [reflexivity |].
  destruct (negb (includes roles (userRole u))); reflexivity.
Qed.

Lemma role_holder_is_truthy (u : jsval) (role : string) :
  userRole u = JStr role -> truthy u = true.
Proof.
  unfold userRole, js_or.
  destruct u as [| | b | n | str | items | fields]; simpl; try discriminate;
    reflexivity.
Qed.

End Guards.

(** X9. A caller whose role (the payload's role, or else its department)
    is normal_user never reaches a transition other than create: assign and
    complete of routes/ticket.js, assign of routes/planner.js and start and
    complete of routes/technician.js all answer 403 and leave the state as it
    was. *)
Theorem normal_user_is_forbidden `{Collaborators}
    (req : request) (u : jsval) (s : state) :
  userRole u = JStr "normal_user" ->
  let forbidden :=
    (Val (SendJson 403 (JObj [("message", JStr "❌ Access Denied: Insufficient role")])), s) in
  (truthy (header_first_token req) = true ->
   verify (header_first_token req) = Some u ->
   ticket_assign_route req s = forbidden
   /\ planner_assign_route req s = forbidden
   /\ ticket_complete_route req s = forbidden)
  /\ (truthy (cookie_first_token req) = true ->
      verify (cookie_first_token req) = Some u ->
      technician_start_route req s = forbidden
      /\ technician_complete_route req s = forbidden).
Proof.
  intros Hrole forbidden.
  pose proof (role_holder_is_truthy u "normal_user" Hrole) as Hu.
  split.
  - intros Htoken Hverify.
    unfold ticket_assign_route, planner_assign_route, ticket_complete_route.
    rewrite !route_shared, Htoken, Hverify, Hu, Hrole. repeat split.
  - intros Htoken Hverify.
    unfold technician_start_route, technician_complete_route.
    rewrite !(route_technician _ _ req s u Htoken Hverify), Hu, Hrole. repeat split.
Qed.

Lemma normal_user_is_forbidden_witness :
  let req := Demo.post None (Some "tok-user-pune")
               [("ticketId", JStr "1"); ("executerId", JStr "T1")] in
  ticket_assign_route (H := Demo.world) req Demo.initial
  = (Val (SendJson 403 (JObj [("message", JStr "❌ Access Denied: Insufficient role")])),
     Demo.initial)
  /\ technician_start_route (H := Demo.world) req Demo.initial
     = (Val (SendJson 403 (JObj [("message", JStr "❌ Access Denied: Insufficient role")])),
        Demo.initial).
Proof.
  intros req.
  destruct (normal_user_is_forbidden (H := Demo.world) req Demo.user_pune Demo.initial)
    as [Hshared Htech]; [reflexivity |].
  destruct Hshared as (Hassign & _); [reflexivity | reflexivity |].
  destruct Htech as (Hstart & _); [reflexivity | reflexivity |].
  split; [exact Hassign | exact Hstart].
Defined.

(** X10. None of the three authenticators lets a request through
    without a token that verifies: when one of them calls [next()], the state
    is untouched, [req.user] is the payload of a non-empty token that
    [jwt.verify] accepted, and that token is the cookie or the token of a
    Bearer header of the request. *)
Theorem authentication_requires_verified_token `{Collaborators}
    (req req' : request) (s s' : state) :
  authenticateJWT req s = (Val (Next req'), s')
  \/ technician_authenticateJWT req s = (Val (Next req'), s')
  \/ app_authenticateJWT req s = (Val (Next req'), s') ->
  s' = s
  /\ exists t u,
       t <> "" /\ jwt_verify t = Some u /\ req' = set_user u req
       /\ (cookie_token req = Some t \/ header_token req = JStr t).
Proof.
  assert (Hsource_h : forall t, header_first_token req = JStr t -> t <> "" ->
            cookie_token req = Some t \/ header_token req = JStr t).
  { intros t Ht Hne. unfold header_first_token in Ht. fold (header_token req) in Ht.
    destruct (negb (truthy (header_token req)) && truthy (of_opt_string (cookie_token req)))%bool.
    - left. destruct (cookie_token req); simpl in Ht; congruence.
    - right. exact Ht. }
  assert (Hsource_c : forall t, cookie_first_token req = JStr t -> t <> "" ->
            cookie_token req = Some t \/ header_token req = JStr t).
  { intros t Ht Hne. unfold cookie_first_token in Ht. unfold header_token.
    destruct (cookie_token req) as [c |] eqn:Hc; simpl in Ht.
    - destruct (negb (negb (String.eqb c "")) && truthy (of_opt_string (authorization req)))%bool
        eqn:Hcond.
      + apply andb_true_iff in Hcond as [Hempty Hauth].
        destruct (authorization req) as [h |]; [| left; congruence].
        simpl in Hauth. simpl. rewrite Hauth.
        destruct (String.prefix "Bearer " h); [right; exact Ht | left; congruence].
      + left. congruence.
    - destruct (authorization req) as [h |]; simpl in Ht; [| discriminate].
      simpl. destruct (negb (String.eqb h "")); simpl in Ht; [| discriminate].
      destruct (String.prefix "Bearer " h); [right; exact Ht | discriminate]. }
  assert (Hnonempty : forall v, truthy v = true -> forall t, v = JStr t -> t <> "").
  { intros v Hv t -> ->. discriminate. }
  intros [Hrun | [Hrun | Hrun]].
  - unfold authenticateJWT in Hrun.
    destruct (truthy (header_first_token req)) eqn:Htruthy; simpl in Hrun;
      [| unfold ret in Hrun; congruence].
    destruct (header_first_token req) as [| | | | t | |] eqn:Htoken; simpl in Hrun;
      try (unfold ret in Hrun; congruence).
    destruct (jwt_verify t) as [u |] eqn:Hverify; unfold ret in Hrun; [| congruence].
    injection Hrun as <- <-. split; [reflexivity |].
    exists t, u. repeat split; eauto.
  - unfold technician_authenticateJWT in Hrun.
    destruct (truthy (cookie_first_token req)) eqn:Htruthy; simpl in Hrun;
      [| unfold ret in Hrun; congruence].
    destruct (cookie_first_token req) as [| | | | t | |] eqn:Htoken; simpl in Hrun;
      try (unfold bind, console_log, ret in Hrun; congruence).
    destruct (jwt_verify t) as [u |] eqn:Hverify;
      unfold bind, console_log, ret in Hrun; [| congruence].
    injection Hrun as <- <-. split; [reflexivity |].
    exists t, u. repeat split; eauto.
  - unfold app_authenticateJWT in Hrun.
    destruct (truthy (cookie_first_token req)) eqn:Htruthy; simpl in Hrun;
      [| destruct (expectsJson req); unfold ret in Hrun; congruence].
    destruct (cookie_first_token req) as [| | | | t | |] eqn:Htoken; simpl in Hrun;
      try (unfold bind, console_log, ret in Hrun;
           destruct (expectsJson req); congruence).
    destruct (jwt_verify t) as [u |] eqn:Hverify;
      unfold bind, console_log, ret in Hrun;
      [| destruct (expectsJson req); congruence].
    injection Hrun as <- <-. split; [reflexivity |].
    exists t, u. repeat split; eauto.
Qed.

Lemma authentication_requires_verified_token_witness :
  let req := Demo.post None (Some "tok-user-pune") [] in
  exists t u,
    t <> "" /\ jwt_verify (Collaborators := Demo.world) t = Some u
    /\ set_user Demo.user_pune req = set_user u req
    /\ (cookie_token req = Some t \/ header_token req = JStr t).
Proof.
  intros req.
  destruct (authentication_requires_verified_token (H := Demo.world)
              req (set_user Demo.user_pune req) Demo.initial Demo.initial)
    as [_ Hsource]; [left; reflexivity |].
  exact Hsource.
Defined.

(** X11. The header-first and the cookie-first authenticators choose the
    same token unless the request carries both a cookie and a usable Bearer
    token: with at most one of the two, either both find no token or both
    find the same one. *)
Theorem token_choice_differs_only_on_conflict (req : request) :
  truthy (of_opt_string (cookie_token req)) = false
  \/ truthy (header_token req) = false ->
  truthy (header_first_token req) = truthy (cookie_first_token req)
  /\ (truthy (header_first_token req) = true ->
      header_first_token req = cookie_first_token req).
Proof.
  intros Hone.
  destruct (truthy (of_opt_string (cookie_token req))) eqn:Hcookie.
  - destruct Hone as [Hone | Hone]; [discriminate |].
    unfold header_first_token, cookie_first_token. fold (header_token req).
    rewrite Hone, Hcookie. split; reflexivity.
  - unfold header_first_token, cookie_first_token. fold (header_token req).
    rewrite Hcookie, andb_false_r. cbn [negb andb].
    unfold header_token.
    destruct (authorization req) as [h |].
    + change (of_opt_string (Some h)) with (JStr h).
      destruct (truthy (JStr h)); cbn [andb].
      * destruct (String.prefix "Bearer " h); [split; reflexivity |].
        rewrite Hcookie. split; [reflexivity | discriminate].
      * rewrite Hcookie. split; [reflexivity | discriminate].
    + change (of_opt_string None) with JUndefined. cbn [truthy].
      rewrite Hcookie. split; [reflexivity | discriminate].
Qed.

Lemma token_choice_differs_only_on_conflict_witness :
  let req := Demo.post (Some "Bearer tok-admin-pune") None [] in
  header_first_token req = cookie_first_token req.
Proof.
  intros req.
  destruct (token_choice_differs_only_on_conflict req) as [_ Hsame];
    [left; reflexivity |].
  apply Hsame. reflexivity.
Defined.

(** X12. [requireAdmin] of routes/admin.js lets through exactly the
    requests that [requireRole(['admin'])] lets through; the two differ only
    in how they refuse (a redirect to /login instead of 401 or 403). *)
Theorem requireAdmin_agrees_with_requireRole (req : request) (s : state) :
  (requireAdmin req s = (Val (Next req), s)
   <-> requireRole ["admin"] req s = (Val (Next req), s))
  /\ (requireAdmin req s = (Val (Next req), s)
      \/ requireAdmin req s = (Val (Done (Redirect "/login")), s)).
Proof.
  unfold requireAdmin, requireRole, userRole, includes, ret. cbn [existsb].
  destruct (truthy (user req)); cbn [negb].
  - rewrite orb_false_r.
    destruct (is_str (js_or (js_get (user req) "role") (js_get (user req) "department"))
                "admin"); cbn [negb].
    + split; [split; reflexivity | left; reflexivity].
    + split; [split; discriminate | right; reflexivity].
  - split; [split; discriminate | right; reflexivity].
Qed.

(** ** Placeholders of db.js *)

Section Placeholders.

Lemma placeholders_app (a b : string) :
  placeholders (a +:+ b) = (placeholders a + placeholders b)%nat.
Proof.
  induction a as [| c rest IH]; simpl; [reflexivity |].
  change (rest +:+ b) with (String.app rest b) in IH. rewrite IH. lia.
Qed.

Lemma digit_is_no_placeholder (x : N) : Ascii.eqb (pretty_N_char x) "?" = false.
Proof. unfold pretty_N_char. repeat case_match; reflexivity. Qed.

Lemma pretty_N_go_placeholders (x : N) (s : string) :
  placeholders (pretty_N_go x s) = placeholders s.
Proof.
  revert s. induction (N.lt_wf_0 x) as [x _ IH]. intros s.
  assert (x = 0 \/ 0 < x)%N as [-> | Hpos] by lia.
  - rewrite pretty_N_go_0. reflexivity.
  - rewrite pretty_N_go_step by exact Hpos.
    rewrite IH by (apply N.div_lt; lia).
    simpl. rewrite digit_is_no_placeholder. reflexivity.
Qed.

Lemma name_has_no_placeholder (index : nat) : placeholders ("p" +:+ pretty index) = 0%nat.
Proof.
  change (placeholders (pretty index) = 0%nat).
  unfold pretty, pretty_nat, pretty, pretty_N.
  destruct (decide (N.of_nat index = 0%N)); [reflexivity |].
  apply pretty_N_go_placeholders.
Qed.

(** The loop, started after [index] placeholders. *)
Lemma map_placeholders_spec (sqlText : string) (index : nat) (params : list jsval) :
  let n := placeholders sqlText in
  placeholders (fst (map_placeholders sqlText index params)) = 0%nat
  /\ map fst (snd (map_placeholders sqlText index params))
     = map (fun i => "p" +:+ pretty i) (seq (S index) n)
  /\ map snd (snd (map_placeholders sqlText index params))
     = map (fun i => nth i params JUndefined) (seq index n).
Proof.
  cbv zeta. revert index.
  induction sqlText as [| c rest IH]; intros index; [repeat split |].
  simpl. destruct (Ascii.eqb c "?") eqn:Hc.
  - specialize (IH (S index)).
    destruct (map_placeholders rest (S index) params) as [mapped inputs].
    cbn [fst snd] in *. destruct IH as (Hnone & Hnames & Hvalues).
    cbn [map seq Nat.add]. rewrite Hnames, Hvalues, Nat.sub_0_r.
    repeat split.
    change (placeholders (("p" +:+ pretty (S index)) +:+ mapped) = 0%nat).
    rewrite placeholders_app, name_has_no_placeholder, Hnone. reflexivity.
  - specialize (IH index).
    destruct (map_placeholders rest index params) as [mapped inputs].
    cbn [fst snd] in *. destruct IH as (Hnone & Hnames & Hvalues).
    simpl. rewrite Hc. repeat split; assumption.
Qed.

End Placeholders.

(** X13. [mapSqlAndInputs] replaces every [?]: the mapped text has no
    placeholder left; the inputs are named p1, p2, ... in the order of the
    placeholders, one per placeholder and all different; and the input of
    the i-th placeholder is the i-th parameter, [undefined] when the caller
    passed fewer parameters than the text has placeholders, so that the
    value bound to it is the one [param] gives. *)
Theorem mapSqlAndInputs_binds_by_position (sqlText : string) (params : list jsval) :
  let n := placeholders sqlText in
  let mapped := fst (mapSqlAndInputs sqlText params) in
  let inputs := snd (mapSqlAndInputs sqlText params) in
  placeholders mapped = 0%nat
  /\ map fst inputs = map (fun i => "p" +:+ pretty i) (seq 1 n)
  /\ NoDup (map fst inputs)
  /\ map snd inputs = map (fun i => nth i params JUndefined) (seq 0 n)
  /\ map (fun input => bind_input (snd input)) inputs = map (param params) (seq 0 n).
Proof.
  cbv zeta. unfold mapSqlAndInputs.
  destruct (map_placeholders_spec sqlText 0 params) as (Hnone & Hnames & Hvalues).
  repeat split; try assumption.
  - rewrite Hnames. apply NoDup_fmap_2; [| apply NoDup_seq].
    intros i j Hij. injection Hij as Hij. exact (pretty_nat_inj i j Hij).
  - rewrite <- (map_map snd bind_input), Hvalues, map_map. reflexivity.
Qed.

(** X14. A text without placeholders passes through [mapSqlAndInputs]
    unchanged and binds nothing, whatever parameters are passed. *)
Theorem mapSqlAndInputs_plain_text (sqlText : string) (params : list jsval) :
  placeholders sqlText = 0%nat ->
  mapSqlAndInputs sqlText params = (sqlText, []).
Proof.
  intros Hnone. unfold mapSqlAndInputs.
  assert (Hany : forall index, map_placeholders sqlText index params = (sqlText, [])).
  { revert Hnone. induction sqlText as [| c rest IH]; intros Hnone index; [reflexivity |].
    cbn [placeholders] in Hnone. cbn [map_placeholders]. revert Hnone.
    destruct (Ascii.eqb c "?"); intros Hnone; [lia |].
    rewrite (IH Hnone index). reflexivity. }
  apply Hany.
Qed.

Lemma mapSqlAndInputs_plain_text_witness :
  mapSqlAndInputs "SELECT 1" [JNum 7] = ("SELECT 1", []).
Proof. apply mapSqlAndInputs_plain_text. reflexivity. Defined.

(** ** runQuery of app.js *)

Lemma normalize_result_is_array (res : jsval) : is_array (normalize_result res) = true.
Proof.
  unfold normalize_result.
  destruct (is_array res) eqn:Harray.
  - destruct (is_positive _ && is_array (js_index res 0))%bool eqn:Hfirst;
      [| exact Harray].
    apply andb_true_iff in Hfirst as [_ Hfirst]. exact Hfirst.
  - destruct (truthy res && is_array (js_get res "recordset"))%bool eqn:Hset;
      [| reflexivity].
    apply andb_true_iff in Hset as [_ Hset]. exact Hset.
Qed.

(** X15. [runQuery] resolves to an array whatever statement it runs, and
    rejects exactly when the store rejects, after logging the error; it
    never writes to the table on its own. For the SELECT of the ticket's
    owner it resolves to the rows themselves, unwrapped from the pair that
    [db.query] returns. *)
Theorem runQuery_resolves_to_rows `{Collaborators}
    (q : statement) (params : list jsval) (s : state) :
  (if query_rejects (queries s)
   then runQuery q params s
        = (Exn "RequestError",
           add_console ("DB query error: " +:+ "RequestError") (count_query s))
   else exists rows,
          fst (runQuery q params s) = Val rows /\ is_array rows = true
          /\ tickets (snd (runQuery q params s))
             = rows_after q params (clock s) (tickets s) (next_id s))
  /\ (query_rejects (queries s) = false ->
      fst (runQuery SelectOwner params s)
      = Val (JArr (owner_rows (nth 0 params JUndefined) (tickets s)))).
Proof.
  split.
  - unfold runQuery, try_catch, bind, db_query, rows_after.
    destruct (query_rejects (queries s)); [reflexivity |].
    destruct (execute q params (clock s) (tickets s) (next_id s))
      as [[[rows nid] recordset] affected].
    eexists. split; [reflexivity |]. split; [apply normalize_result_is_array | reflexivity].
  - intros Hq. unfold runQuery, try_catch, bind, db_query. rewrite Hq. reflexivity.
Qed.

Lemma runQuery_resolves_to_rows_witness :
  fst (runQuery (H := Demo.world) SelectOwner [JStr "1"] Demo.initial)
  = Val (JArr [JObj [("global_id", JStr "U1")]]).
Proof.
  destruct (runQuery_resolves_to_rows (H := Demo.world) SelectOwner [JStr "1"] Demo.initial)
    as [_ Hrows].
  rewrite Hrows; [vm_compute; reflexivity | reflexivity].
Defined.

(** ** Who is notified *)

Section Targets.

Context `{Collaborators}.

Lemma notify_pushes (message : string) (target : jsval) (s : state) :
  pushes (snd (sendNotificationToUser message target s))
  = (pushes s ++ attempts message (subscriptions_of s target))%list.
Proof.
  unfold sendNotificationToUser, subscriptions_of, attempts.
  destruct (deliver_all (default [] (registry_entry (subscriptionsPerUser s) target))
              (notification message)
              (fun err => "Failed to send notification to "
                          +:+ to_string target +:+ ": " +:+ err) s)
    as (s' & Hrun & Hpushes & _).
  rewrite Hrun. exact Hpushes.
Qed.

Lemma ticket_assign_run (req : request) (s : state) :
  lacks_assignment req = false ->
  query_rejects (queries s) = false ->
  fst (ticket_assign req s) = Val (Redirect "/dashboard/planner")
  /\ pushes (snd (ticket_assign req s))
     = (pushes s
        ++ attempts ("📌 Ticket ID " +:+ to_string (js_get (body req) "ticketId")
                     +:+ " has been assigned to you.")
             (subscriptions_of s (js_get (body req) "executerId")))%list.
Proof.
  unfold lacks_assignment. intros Hids Hq. unfold ticket_assign. rewrite Hids.
  unfold try_catch, bind, db_query. cbv beta iota. rewrite Hq.
  cbn [execute]. cbv beta iota zeta. cbn [no_row_affected js_get String.eqb Ascii.eqb
    Bool.eqb truthy]. cbv beta iota.
  unfold detached, ret. cbn [fst snd]. split; [reflexivity |].
  rewrite notify_pushes. reflexivity.
Qed.

Lemma planner_assign_run (req : request) (s : state) :
  lacks_assignment req = false ->
  query_rejects (queries s) = false ->
  fst (planner_assign req s) = Val (Redirect "/dashboard/planner")
  /\ pushes (snd (planner_assign req s))
     = (pushes s
        ++ attempts ("📌 Ticket ID " +:+ to_string (js_get (body req) "ticketId")
                     +:+ " has been assigned to you.")
             (subscriptions_of s (js_get (body req) "executerId")))%list.
Proof.
  unfold lacks_assignment. intros Hids Hq. unfold planner_assign. rewrite Hids. cbv zeta.
  unfold try_catch, bind, db_query. cbv beta iota. rewrite Hq.
  cbn [execute]. cbv beta iota zeta. cbn [no_row_affected js_get String.eqb Ascii.eqb
    Bool.eqb truthy]. cbv beta iota.
  unfold detached, ret. cbn [fst snd]. split; [reflexivity |].
  rewrite notify_pushes. reflexivity.
Qed.

End Targets.

(** X16. Create notifies the raiser and assign notifies the technician
    named in the request: a successful /ticket/submit attempts one delivery
    per subscription of the caller, and an assign request that the store
    accepts, through /ticket/assign or /planner/assign, is redirected to the
    planner dashboard and attempts one delivery per subscription of
    [executerId], whether or not the UPDATE changed a row. Nobody else is
    tried. *)
Theorem create_and_assign_notify_their_target `{Collaborators}
    (req : request) (s : state) :
  (fst (ticket_submit req s)
   = Val (Redirect ("/dashboard/user?message="
                    +:+ encodeURIComponent "Ticket submitted successfully.")) ->
   pushes (snd (ticket_submit req s))
   = (pushes s
      ++ attempts "✅ Your ticket has been submitted successfully."
           (subscriptions_of s (js_get (user req) "globalId")))%list)
  /\ (lacks_assignment req = false ->
      query_rejects (queries s) = false ->
      let message := "📌 Ticket ID " +:+ to_string (js_get (body req) "ticketId")
                     +:+ " has been assigned to you." in
      let technician := subscriptions_of s (js_get (body req) "executerId") in
      fst (ticket_assign req s) = Val (Redirect "/dashboard/planner")
      /\ pushes (snd (ticket_assign req s)) = (pushes s ++ attempts message technician)%list
      /\ fst (planner_assign req s) = Val (Redirect "/dashboard/planner")
      /\ pushes (snd (planner_assign req s))
         = (pushes s ++ attempts message technician)%list).
Proof.
  split.
  - rewrite ticket_submit_run.
    destruct (negb (truthy (js_get_opt (user req) "globalId"))); [discriminate |].
    destruct (facility_fields_missing req); [simpl; discriminate |].
    destruct (query_rejects (queries s)); [simpl; discriminate |].
    intros _. cbn [snd]. rewrite notify_pushes. reflexivity.
  - intros Hids Hq message technician.
    destruct (ticket_assign_run req s Hids Hq) as [Ha1 Ha2].
    destruct (planner_assign_run req s Hids Hq) as [Hp1 Hp2].
    repeat split; assumption.
Qed.

Lemma create_and_assign_notify_their_target_witness :
  let req := set_user Demo.planner_mumbai
               (Demo.post None (Some "tok-planner-mumbai")
                  [("ticketId", JStr "1"); ("executerId", JStr "T1")]) in
  map fst (pushes (snd (planner_assign (H := Demo.world) req Demo.initial)))
  = [Demo.endpoint "https://push.example/t1"]
  /\ tickets (snd (planner_assign (H := Demo.world) req Demo.initial))
     = tickets Demo.initial.
Proof.
  intros req.
  destruct (create_and_assign_notify_their_target (H := Demo.world) req Demo.initial)
    as [_ Hassign].
  destruct Hassign as (_ & _ & _ & Hpushes); [reflexivity | reflexivity |].
  split; [rewrite Hpushes |]; vm_compute; reflexivity.
Defined.

Section CompleteTarget.

Context `{Collaborators}.

Lemma ticket_complete_pushes (req : request) (s : state) :
  lacks_ticket req = false ->
  query_rejects (queries s) = false ->
  query_rejects (S (queries s)) = false ->
  pushes (snd (ticket_complete req s))
  = (pushes s
     ++ attempts ("🎉 Your ticket ID " +:+ to_string (js_get (body req) "ticketId")
                  +:+ " has been marked as completed.")
          (subscriptions_of s JUndefined))%list.
Proof.
  unfold lacks_ticket. intros Hid Hq1 Hq2. unfold ticket_complete. rewrite Hid. cbv zeta.
  unfold try_catch, bind, db_query. cbv beta iota. rewrite Hq1.
  cbn [execute]. cbv beta iota zeta.
  cbn [js_get assoc String.eqb Ascii.eqb Bool.eqb js_or truthy negb orb is_num
       length Z.of_nat Pos.of_succ_nat Pos.succ Z.eqb js_index nth js_get_strict ret
       queries set_tickets count_query clock tickets next_id].
  change (Z.of_nat 2 =? 0)%Z with false. cbv beta iota.
  cbn [queries set_tickets count_query clock tickets next_id].
  rewrite Hq2. cbn [execute]. cbv beta iota zeta.
  unfold detached, ret. cbn [fst snd].
  rewrite notify_pushes. reflexivity.
Qed.

End CompleteTarget.

(** X17. /ticket/complete does not notify the raiser. It reads
    [global_id] off the pair that [db.query] returns instead of off the
    first row, so the target of its notification is [undefined]: a
    completion that the store accepts attempts deliveries to the
    subscriptions registered under that key only, whoever raised the
    ticket. *)
Theorem ticket_complete_notifies_undefined `{Collaborators}
    (req : request) (s : state) :
  lacks_ticket req = false ->
  query_rejects (queries s) = false ->
  query_rejects (S (queries s)) = false ->
  pushes (snd (ticket_complete req s))
  = (pushes s
     ++ attempts ("🎉 Your ticket ID " +:+ to_string (js_get (body req) "ticketId")
                  +:+ " has been marked as completed.")
          (subscriptions_of s JUndefined))%list
  /\ (registry_entry (subscriptionsPerUser s) JUndefined = None ->
      pushes (snd (ticket_complete req s)) = pushes s).
Proof.
  intros Hid Hq1 Hq2. rewrite (ticket_complete_pushes req s Hid Hq1 Hq2).
  split; [reflexivity |].
  intros Hnone. unfold subscriptions_of. rewrite Hnone. apply app_nil_r.
Qed.

Lemma ticket_complete_notifies_undefined_witness :
  let req := set_user Demo.tech_pune
               (Demo.post None (Some "tok-tech-pune") [("ticketId", JStr "1")]) in
  map global_id (tickets Demo.initial) = [SqlText "U1"]
  /\ subscriptions_of Demo.initial (JStr "U1") <> []
  /\ pushes (snd (ticket_complete (H := Demo.world) req Demo.initial)) = [].
Proof.
  intros req.
  destruct (ticket_complete_notifies_undefined (H := Demo.world) req Demo.initial)
    as [_ Hnobody]; try reflexivity.
  split; [reflexivity |]. split; [vm_compute; discriminate |].
  rewrite Hnobody; [reflexivity | vm_compute; reflexivity].
Defined.

Section RaiserTarget.

Context `{Collaborators}.

Lemma owner_rows_update (ticketId : jsval) (cond : ticket -> bool)
    (f : ticket -> ticket) (rows : list ticket) :
  (forall t, id (f t) = id t /\ global_id (f t) = global_id t) ->
  owner_rows ticketId (update_where cond f rows) = owner_rows ticketId rows.
Proof.
  intros Hf. unfold owner_rows, update_where.
  induction rows as [| t rest IH]; [reflexivity |].
  cbn [map]. rewrite !filter_cons.
  assert (Hsame : matches_id (bind_input ticketId) (if cond t then f t else t)
                  = matches_id (bind_input ticketId) t).
  { unfold matches_id. destruct (cond t); [| reflexivity].
    destruct (Hf t) as [-> _]. reflexivity. }
  rewrite Hsame.
  destruct (decide (matches_id (bind_input ticketId) t = true)); [| exact IH].
  cbn [map]. rewrite IH. f_equal.
  destruct (cond t); [| reflexivity]. destruct (Hf t) as [_ ->]. reflexivity.
Qed.

Lemma technician_start_pushes (req : request) (s : state) :
  lacks_ticket req = false ->
  query_rejects (queries s) = false ->
  query_rejects (S (queries s)) = false ->
  let creator := creator_of (JArr (owner_rows (js_get (body req) "ticketId") (tickets s))) in
  pushes (snd (technician_start req s))
  = (pushes s
     ++ if truthy creator
        then attempts ("Your ticket #" +:+ to_string (js_get (body req) "ticketId")
                       +:+ " has been started by the technician.")
               (subscriptions_of s creator)
        else [])%list.
Proof.
  unfold lacks_ticket. intros Hid Hq1 Hq2. cbv zeta. unfold technician_start.
  rewrite Hid. cbv zeta.
  unfold try_catch, bind, db_query. cbn [negb]. cbv beta iota. rewrite Hq1.
  cbn [negb execute]. cbv beta iota zeta.
  cbn [js_index nth getAffectedCount truthy negb is_zero_count typeof_number andb
       queries set_tickets count_query].
  rewrite Hq2. cbn [execute]. cbv beta iota zeta.
  cbn [tickets set_tickets count_query].
  repeat match goal with
         | |- context [map ?g (filter ?P ?rows)] =>
             change (map g (filter P rows))
               with (owner_rows (js_get (body req) "ticketId") rows)
         end.
  rewrite owner_rows_update by (intros t; split; reflexivity).
  destruct (truthy (creator_of _)).
  - unfold detached, ret. cbn [fst snd]. rewrite notify_pushes. reflexivity.
  - unfold ret. cbn [fst snd pushes set_tickets count_query]. symmetry. apply app_nil_r.
Qed.

Lemma technician_complete_pushes (req : request) (s : state) :
  lacks_ticket req = false ->
  query_rejects (queries s) = false ->
  query_rejects (S (queries s)) = false ->
  let creator := creator_of (JArr (owner_rows (js_get (body req) "ticketId") (tickets s))) in
  pushes (snd (technician_complete req s))
  = (pushes s
     ++ if truthy creator
        then attempts ("Your ticket #" +:+ to_string (js_get (body req) "ticketId")
                       +:+ " has been completed by the technician.")
               (subscriptions_of s creator)
        else [])%list.
Proof.
  unfold lacks_ticket. intros Hid Hq1 Hq2. cbv zeta. unfold technician_complete.
  rewrite Hid. cbv zeta.
  unfold try_catch, bind, db_query. cbn [negb]. cbv beta iota. rewrite Hq1.
  cbn [negb execute]. cbv beta iota zeta.
  cbn [js_index nth getAffectedCount truthy negb is_zero_count typeof_number andb
       queries set_tickets count_query].
  rewrite Hq2. cbn [execute]. cbv beta iota zeta.
  cbn [tickets set_tickets count_query].
  repeat match goal with
         | |- context [map ?g (filter ?P ?rows)] =>
             change (map g (filter P rows))
               with (owner_rows (js_get (body req) "ticketId") rows)
         end.
  rewrite owner_rows_update by (intros t; split; reflexivity).
  destruct (truthy (creator_of _)).
  - unfold detached, ret. cbn [fst snd]. rewrite notify_pushes. reflexivity.
  - unfold ret. cbn [fst snd pushes set_tickets count_query]. symmetry. apply app_nil_r.
Qed.

End RaiserTarget.

(** X18. Start and complete of routes/technician.js notify the raiser of
    the ticket with the requested id: when the store accepts both
    statements, one delivery is attempted per subscription registered under
    the [global_id] of the first row with that id, and none when there is no
    such row or its [global_id] is empty. The row is looked up by id alone,
    so the raiser is notified even when the UPDATE, scoped by location,
    changed nothing. *)
Theorem technician_routes_notify_the_raiser `{Collaborators}
    (req : request) (s : state) :
  lacks_ticket req = false ->
  query_rejects (queries s) = false ->
  query_rejects (S (queries s)) = false ->
  let ticketId := js_get (body req) "ticketId" in
  let creator := creator_of (JArr (owner_rows ticketId (tickets s))) in
  let target := if truthy creator then subscriptions_of s creator else [] in
  pushes (snd (technician_start req s))
  = (pushes s
     ++ attempts ("Your ticket #" +:+ to_string ticketId
                  +:+ " has been started by the technician.") target)%list
  /\ pushes (snd (technician_complete req s))
     = (pushes s
        ++ attempts ("Your ticket #" +:+ to_string ticketId
                     +:+ " has been completed by the technician.") target)%list
  /\ (forall t rest,
        filter (fun t => matches_id (bind_input ticketId) t = true) (tickets s) = t :: rest ->
        creator = to_js (global_id t)).
Proof.
  intros Hid Hq1 Hq2 ticketId creator target.
  rewrite (technician_start_pushes req s Hid Hq1 Hq2).
  rewrite (technician_complete_pushes req s Hid Hq1 Hq2).
  fold ticketId. fold creator. unfold target.
  repeat split.
  - destruct (truthy creator); reflexivity.
  - destruct (truthy creator); reflexivity.
  - intros t rest Hfirst. unfold creator, owner_rows. rewrite Hfirst. reflexivity.
Qed.

Lemma technician_routes_notify_the_raiser_witness :
  let req := set_user Demo.tech_mumbai
               (Demo.post None (Some "tok-tech-mumbai") [("ticketId", JStr "1")]) in
  tickets (snd (technician_start (H := Demo.world) req Demo.initial)) = tickets Demo.initial
  /\ map fst (pushes (snd (technician_start (H := Demo.world) req Demo.initial)))
     = [Demo.endpoint "https://push.example/u1-phone";
        Demo.endpoint "https://push.example/u1-laptop"].
Proof.
  intros req.
  destruct (technician_routes_notify_the_raiser (H := Demo.world) req Demo.initial)
    as (Hstart & _); try reflexivity.
  split; [vm_compute; reflexivity |].
  rewrite Hstart. vm_compute. reflexivity.
Defined.

(** ** Invariants of the lifecycle *)

Section Lifecycle.

Context `{Collaborators}.

Lemma keeps_lifecycle_trans (a b c : list ticket) :
  keeps_lifecycle a b -> keeps_lifecycle b c -> keeps_lifecycle a c.
Proof. unfold keeps_lifecycle. auto. Qed.

Ltac lifecycle_row :=
  unfold lifecycle_ok; simpl;
  repeat split; try discriminate; eauto.

Lemma insert_keeps_lifecycle : respects keeps_lifecycle InsertTicket any_params.
Proof.
  intros params now rows nid _ Hrows. unfold rows_after. simpl.
  apply Forall_app. split; [exact Hrows |].
  constructor; [| constructor]. lifecycle_row.
Qed.

Lemma assign_keeps_lifecycle (scoped : bool) :
  respects keeps_lifecycle (UpdateAssign scoped) any_params.
Proof.
  intros params now rows nid _ Hrows. unfold rows_after. simpl.
  apply update_where_Forall; [| exact Hrows]. intros t. lifecycle_row.
Qed.

Lemma start_keeps_lifecycle (scoped : bool) :
  respects keeps_lifecycle (UpdateStart scoped) start_params.
Proof.
  intros params now rows nid [tail ->] Hrows. unfold rows_after. simpl.
  apply update_where_Forall; [| exact Hrows]. intros t. lifecycle_row.
Qed.

Lemma complete_note_keeps_lifecycle (scoped : bool) :
  respects keeps_lifecycle (UpdateCompleteNote scoped) any_params.
Proof.
  intros params now rows nid _ Hrows. unfold rows_after. simpl.
  apply update_where_Forall; [| exact Hrows]. intros t. lifecycle_row.
Qed.

Lemma completed_keeps_lifecycle : respects keeps_lifecycle UpdateCompleted any_params.
Proof.
  intros params now rows nid _ Hrows. unfold rows_after. simpl.
  apply update_where_Forall; [| exact Hrows]. intros t. lifecycle_row.
Qed.

Lemma subscribe_keeps_table (req : request) :
  preserves keeps_lifecycle (notifications_subscribe req).
Proof.
  intros s Hrows.
  destruct (truthy (js_get_opt (user req) "globalId")) eqn:Hgid.
  - destruct (subscribe_run req s Hgid) as (s' & Hrun & _ & Htable & _).
    rewrite Hrun. cbn [snd]. rewrite Htable. exact Hrows.
  - rewrite subscribe_rejected by exact Hgid. exact Hrows.
Qed.

Lemma serve_keeps_lifecycle (e : endpoint_name) (req : request) :
  preserves keeps_lifecycle (serve e req).
Proof.
  pose proof (fun rows (Hrows : Forall lifecycle_ok rows) => Hrows) as Hrefl.
  pose proof keeps_lifecycle_trans as Htrans.
  assert (Hshared : forall roles,
    Forall (fun mw => forall r, preserves keeps_lifecycle (mw r))
      [authenticateJWT; requireRole roles]).
  { intros roles. repeat constructor; intros r; auto with frame. }
  assert (Htech : forall roles,
    Forall (fun mw => forall r, preserves keeps_lifecycle (mw r))
      [technician_authenticateJWT; requireRole roles]).
  { intros roles. repeat constructor; intros r; auto with frame. }
  destruct e; cbn [serve];
    [unfold ticket_submit_route | unfold ticket_assign_route
    | unfold planner_assign_route | unfold ticket_complete_route
    | unfold technician_start_route | unfold technician_complete_route | ];
    apply preserves_route; auto; try intros r.
  - apply preserves_ticket_submit; auto using insert_keeps_lifecycle.
  - apply preserves_ticket_assign; auto using assign_keeps_lifecycle.
  - apply preserves_planner_assign; auto using assign_keeps_lifecycle.
  - apply preserves_ticket_complete; auto using completed_keeps_lifecycle.
  - apply preserves_technician_start; auto using start_keeps_lifecycle.
  - apply preserves_technician_complete; auto using complete_note_keeps_lifecycle.
  - repeat constructor; intros r; auto with frame.
  - apply subscribe_keeps_table.
Qed.

End Lifecycle.

(** X19. Whatever requests the ticket, planner and technician routers have
    served since the table was empty (in any order, by any callers, with
    any behaviour of the token verifier, the push service and the store),
    every ticket has one of the four statuses, an Open ticket has no
    assignee, no planner, no start time and no completion time, and a
    ticket In Progress has a start time. *)
Theorem served_tickets_keep_lifecycle `{Collaborators} (s : state) :
  served s -> Forall lifecycle_ok (tickets s).
Proof.
  induction 1 as [s Hempty | s e req _ IH | s s' _ IH Hsame].
  - rewrite Hempty. constructor.
  - exact (serve_keeps_lifecycle e req s IH).
  - rewrite Hsame. exact IH.
Qed.

Lemma served_tickets_keep_lifecycle_witness :
  let submit := Demo.post None (Some "tok-user-pune")
                  [("category", JStr "Breakdown"); ("description", JStr "Fan stuck")] in
  let assign := Demo.post None (Some "tok-planner-pune")
                  [("ticketId", JStr "1"); ("executerId", JStr "T1")] in
  let work := Demo.post None (Some "tok-tech-pune") [("ticketId", JStr "1")] in
  let s1 := snd (serve (H := Demo.world) PostTicketSubmit submit Demo.fresh) in
  let s2 := snd (serve (H := Demo.world) PostTicketSubmit submit s1) in
  let s3 := snd (serve (H := Demo.world) PostTicketAssign assign s2) in
  let s4 := snd (serve (H := Demo.world) PostTechnicianStart work s3) in
  served (H := Demo.world) s4
  /\ map status (tickets s4) = [SqlText "In Progress"; SqlText "Open"]
  /\ Forall lifecycle_ok (tickets s4).
Proof.
  intros submit assign work s1 s2 s3 s4.
  assert (Hserved : served (H := Demo.world) s4).
  { do 4 apply served_request. apply served_empty. reflexivity. }
  split; [exact Hserved |]. split; [reflexivity |].
  exact (served_tickets_keep_lifecycle (H := Demo.world) s4 Hserved).
Defined.

(** ** Signing in *)

Section Login.

Context `{Collaborators} `{Accounts}.

Lemma normalize_pair (rows : list jsval) (result : jsval) :
  normalize_result (JArr [JArr rows; result]) = JArr rows.
Proof. reflexivity. Qed.

(** The account POST /login looks at: the first row the store returns. *)
Lemma login_run (req : request) (s : state) :
  let globalId := js_get (body req) "globalId" in
  let password := js_get (body req) "password" in
  let id := trim (to_string globalId) in
  let user := nth 0 (users_where_global_id id) JUndefined in
  let s1 := add_console ("[login] lookup user global_id= " +:+ id) s in
  let s2 := count_query s1 in
  let failed err := (Val (Render "login" "Something went wrong. Check server logs."),
                     add_console ("Login error: " +:+ err) s2) in
  login req s =
  if negb (truthy globalId) || negb (truthy password) then
    (Val (Render "login" "Both fields are required"), s)
  else if query_rejects (queries s) then
    (Val (Render "login" "Something went wrong. Check server logs."),
     add_console "Login error: RequestError"
       (add_console "DB query error: RequestError" s2))
  else if negb (truthy user) || negb (truthy (js_get user "password")) then
    (Val (Render "login" "Invalid Global ID or unregistered user"),
     add_console "[login] user not found or no password" s2)
  else
    match bcrypt_compare password (js_get user "password") with
    | Exn err => failed err
    | Val false => (Val (Render "login" "Incorrect password"), s2)
    | Val true =>
        match jwt_sign (login_payload user) with
        | Exn err => failed err
        | Val token =>
            (Val (SignedIn token (landing (js_get user "department"))),
             add_console ("JWT created for user: "
                          +:+ to_string (js_get user "global_id")) s2)
        end
    end.
Proof.
  intros globalId password id user s1 s2 failed.
  unfold login. fold globalId password. fold id.
  destruct (negb (truthy globalId) || negb (truthy password)) eqn:Hfields;
    [reflexivity |].
  unfold try_catch, bind, console_log, normalized, select_users, try_catch, bind.
  fold s1. change (queries s1) with (queries s).
  destruct (query_rejects (queries s)) eqn:Hq; [reflexivity |].
  cbn [ret]. rewrite normalize_pair. cbn [truthy js_index].
  fold s2.
  destruct (users_where_global_id id) as [| first rest] eqn:Hrows.
  - reflexivity.
  - change (nth 0 (first :: rest) JUndefined) with first in *.
    subst user failed. cbv beta.
    destruct (negb (truthy first) || negb (truthy (js_get first "password")));
      [reflexivity |].
    destruct (bcrypt_compare password (js_get first "password")) as [[|] | err];
      try reflexivity.
    cbn [lift ret negb].
    destruct (jwt_sign (login_payload first)) as [token | err]; reflexivity.
Qed.

End Login.

(** X20. POST /login sets the token cookie exactly when both fields are
    filled in, the store answers, the first account it returns for the
    trimmed global id is registered (has a password), bcrypt accepts the
    entered password against that account's hash, and the token can be
    signed; the cookie then carries the signature of that account's payload
    and the redirect follows its department. *)
Theorem login_signs_in_exactly_on_password_match `{Collaborators} `{Accounts}
    (req : request) (s : state) (token url : string) :
  (exists s', login req s = (Val (SignedIn token url), s'))
  <-> (truthy (js_get (body req) "globalId") = true
       /\ truthy (js_get (body req) "password") = true
       /\ query_rejects (queries s) = false
       /\ exists account others,
            users_where_global_id (trim (to_string (js_get (body req) "globalId")))
            = account :: others
            /\ truthy account = true
            /\ truthy (js_get account "password") = true
            /\ bcrypt_compare (js_get (body req) "password") (js_get account "password")
               = Val true
            /\ jwt_sign (login_payload account) = Val token
            /\ url = landing (js_get account "department")).
Proof.
  pose proof (login_run req s) as Hrun. cbv zeta in Hrun.
  set (globalId := js_get (body req) "globalId") in *.
  set (password := js_get (body req) "password") in *.
  set (id := trim (to_string globalId)) in *.
  split.
  - intros [s' Hlogin]. rewrite Hrun in Hlogin. clear Hrun.
    destruct (truthy globalId) eqn:Hgid; [| discriminate Hlogin].
    destruct (truthy password) eqn:Hpwd; [| discriminate Hlogin].
    cbn [negb orb] in Hlogin.
    destruct (query_rejects (queries s)) eqn:Hq; [discriminate Hlogin |].
    destruct (users_where_global_id id) as [| account others] eqn:Hrows.
    { discriminate Hlogin. }
    cbn [nth] in Hlogin.
    destruct (truthy account) eqn:Haccount; [| discriminate Hlogin].
    destruct (truthy (js_get account "password")) eqn:Hhash; [| discriminate Hlogin].
    cbn [negb orb] in Hlogin.
    destruct (bcrypt_compare password (js_get account "password"))
      as [[|] | err] eqn:Hmatch; try discriminate Hlogin.
    destruct (jwt_sign (login_payload account)) as [signed | err] eqn:Hsign;
      [| discriminate Hlogin].
    injection Hlogin as Htoken Hurl _.
    repeat split; try reflexivity.
    exists account, others. subst token url. repeat split; assumption || reflexivity.
  - intros (Hgid & Hpwd & Hq & account & others & Hrows & Haccount & Hhash
            & Hmatch & Hsign & ->).
    rewrite Hrun, Hgid, Hpwd, Hq, Hrows. cbn [negb orb nth].
    rewrite Haccount, Hhash, Hmatch, Hsign. cbn [negb orb].
    eexists. reflexivity.
Qed.

Lemma login_signs_in_exactly_on_password_match_witness :
  let good := Scenario.sign_in (JStr "T1") (JStr "monsoon") in
  let bad := Scenario.sign_in (JStr "T1") (JStr "drought") in
  (exists s', login (H := Demo.world) (H0 := Scenario.accounts) good Demo.fresh
              = (Val (SignedIn "signed:T1" "/dashboard/technician"), s'))
  /\ (forall token url s',
        login (H := Demo.world) (H0 := Scenario.accounts) bad Demo.fresh
        <> (Val (SignedIn token url), s')).
Proof.
  intros good bad. split.
  - apply (login_signs_in_exactly_on_password_match
             (H := Demo.world) (H0 := Scenario.accounts)).
    repeat split; try reflexivity.
    exists Scenario.kiran, []. repeat split; reflexivity.
  - intros token url s' Hlogin.
    destruct (proj1 (login_signs_in_exactly_on_password_match
                       (H := Demo.world) (H0 := Scenario.accounts)
                       bad Demo.fresh token url))
      as (_ & _ & _ & account & others & Hrows & _ & _ & Hmatch & _).
    + exists s'. exact Hlogin.
    + injection Hrows as <- _. discriminate Hmatch.
Defined.

(** X21. POST /login always answers, and never raises: with the login
    view and one of its four messages, or by signing in. It issues at most
    one query and changes neither the tickets nor the subscriptions nor the
    push log. With a field missing it answers before any query and leaves
    the whole state as it was; when the store rejects the query the visitor
    sees the general failure message. *)
Theorem login_always_answers `{Collaborators} `{Accounts}
    (req : request) (s : state) :
  exists answer s',
    login req s = (Val answer, s')
    /\ tickets s' = tickets s
    /\ subscriptionsPerUser s' = subscriptionsPerUser s
    /\ pushes s' = pushes s
    /\ (queries s' = queries s \/ queries s' = S (queries s))
    /\ match answer with
       | Render view message => view = "login" /\ In message login_errors
       | SignedIn _ _ => True
       end
    /\ (truthy (js_get (body req) "globalId") && truthy (js_get (body req) "password")
        = false ->
        answer = Render "login" "Both fields are required" /\ s' = s)
    /\ (truthy (js_get (body req) "globalId") && truthy (js_get (body req) "password")
        = true ->
        query_rejects (queries s) = true ->
        answer = Render "login" "Something went wrong. Check server logs.").
Proof.
  pose proof (login_run req s) as Hrun. cbv zeta in Hrun.
  rewrite Hrun. clear Hrun.
  destruct (truthy (js_get (body req) "globalId"));
    destruct (truthy (js_get (body req) "password")); cbn [negb orb andb];
    try (do 2 eexists; repeat split; try reflexivity; try discriminate;
         try (left; reflexivity); simpl; tauto).
  destruct (query_rejects (queries s)).
  { do 2 eexists; repeat split; try reflexivity; try discriminate;
      try (right; reflexivity); simpl; tauto. }
  destruct (negb (truthy _) || negb (truthy _)).
  { do 2 eexists; repeat split; try reflexivity; try discriminate;
      try (right; reflexivity); simpl; tauto. }
  destruct (bcrypt_compare _ _) as [[|] | err].
  - destruct (jwt_sign _) as [token | err];
      do 2 eexists; repeat split; try reflexivity; try discriminate;
        try (right; reflexivity); simpl; tauto.
  - do 2 eexists; repeat split; try reflexivity; try discriminate;
      try (right; reflexivity); simpl; tauto.
  - do 2 eexists; repeat split; try reflexivity; try discriminate;
      try (right; reflexivity); simpl; tauto.
Qed.

Lemma login_always_answers_witness :
  login (H := Scenario.offline) (H0 := Scenario.accounts)
    (Scenario.sign_in (JStr "T1") (JStr "monsoon")) Demo.fresh
  = (Val (Render "login" "Something went wrong. Check server logs."),
     snd (login (H := Scenario.offline) (H0 := Scenario.accounts)
            (Scenario.sign_in (JStr "T1") (JStr "monsoon")) Demo.fresh))
  /\ login (H := Demo.world) (H0 := Scenario.accounts)
       (Scenario.sign_in (JStr "T1") (JStr "")) Demo.fresh
     = (Val (Render "login" "Both fields are required"), Demo.fresh).
Proof.
  split.
  - destruct (login_always_answers (H := Scenario.offline) (H0 := Scenario.accounts)
                (Scenario.sign_in (JStr "T1") (JStr "monsoon")) Demo.fresh)
      as (answer & s' & Hlogin & _ & _ & _ & _ & _ & _ & Hstore).
    rewrite Hlogin. cbn [snd]. rewrite (Hstore eq_refl eq_refl). reflexivity.
  - destruct (login_always_answers (H := Demo.world) (H0 := Scenario.accounts)
                (Scenario.sign_in (JStr "T1") (JStr "")) Demo.fresh)
      as (answer & s' & Hlogin & _ & _ & _ & _ & _ & Hfields & _).
    rewrite Hlogin. destruct (Hfields eq_refl) as [-> ->]. reflexivity.
Defined.

Lemma includes_string_only (roles : list string) (v : jsval) :
  (forall text, v <> JStr text) -> includes roles v = false.
Proof.
  intros Hv. unfold includes.
  induction roles as [| r rest IH]; [reflexivity |].
  cbn [existsb]. rewrite IH.
  destruct v; try reflexivity. destruct (Hv s eq_refl).
Qed.

(** X22. The payload POST /login signs carries the account's department
    in both its role and its department field, so the role guard decides on
    the department column of the users table: a request carrying that
    payload passes [requireRole] exactly when the department is among the
    allowed roles, and an account whose department is not a string (a NULL
    or missing column) is refused by every guard. *)
Theorem login_role_is_department
    (account : jsval) (allowedRoles : list string) (req : request) (s : state) :
  let signed := set_user (login_payload account) req in
  userRole (login_payload account) = js_get account "department"
  /\ (requireRole allowedRoles signed s = (Val (Next signed), s)
      <-> includes allowedRoles (js_get account "department") = true)
  /\ ((forall text, js_get account "department" <> JStr text) ->
      requireRole allowedRoles signed s
      = (Val (Done (SendJson 403
                      (JObj [("message", JStr "❌ Access Denied: Insufficient role")]))), s)).
Proof.
  intros signed.
  assert (Hrole : userRole (login_payload account) = js_get account "department").
  { unfold userRole, login_payload, js_get at 1 2. simpl assoc.
    unfold js_or. destruct (truthy (js_get account "department")); reflexivity. }
  assert (Hrun : requireRole allowedRoles signed s
                 = (Val (if includes allowedRoles (js_get account "department")
                         then Next signed
                         else Done (SendJson 403
                                (JObj [("message",
                                        JStr "❌ Access Denied: Insufficient role")]))), s)).
  { unfold requireRole. change (user signed) with (login_payload account).
    rewrite Hrole. cbn [login_payload truthy negb].
    destruct (includes allowedRoles (js_get account "department")); reflexivity. }
  split; [exact Hrole |]. split.
  - rewrite Hrun. split.
    + destruct (includes allowedRoles (js_get account "department"));
        [reflexivity | discriminate].
    + intros ->. reflexivity.
  - intros Hnone. rewrite Hrun, includes_string_only by exact Hnone. reflexivity.
Qed.

Lemma login_role_is_department_witness :
  let signed := set_user (login_payload Scenario.kiran)
                  (Demo.post None None [("ticketId", JStr "1")]) in
  requireRole ["technician"; "planner"; "admin"] signed Demo.fresh
  = (Val (Next signed), Demo.fresh)
  /\ requireRole ["planner"; "admin"]
       (set_user (login_payload (JObj [("global_id", JStr "U3")]))
          (Demo.post None None [])) Demo.fresh
     = (Val (Done (SendJson 403
                     (JObj [("message", JStr "❌ Access Denied: Insufficient role")]))),
        Demo.fresh).
Proof.
  intros signed. split.
  - apply (login_role_is_department Scenario.kiran ["technician"; "planner"; "admin"]
             (Demo.post None None [("ticketId", JStr "1")]) Demo.fresh).
    reflexivity.
  - apply (login_role_is_department (JObj [("global_id", JStr "U3")]) ["planner"; "admin"]
             (Demo.post None None []) Demo.fresh).
    intros text. discriminate.
Defined.
